(** * User service of the "Gerador de Provas" API

    A shallow embedding of [src/services/userService.js] (the five service
    operations), of [src/controllers/userController.js] (the five routes
    that map the outcomes of the service to HTTP answers, and the three
    routes of its first version, which calls the client itself), and of
    the [prisma.user] calls they make, run against an in-memory [users]
    table whose columns are those of the [init_user_model] migration.

    Strings are byte strings holding UTF-8 text, as the source files do. *)

From Stdlib Require Import ZArith QArith Qround Lia Ascii.
From Stdlib Require DecimalString DecimalPos.
From stdpp Require Import base option list gmap strings sorting.

Local Open Scope Z_scope.

(** ** JavaScript values *)

(** The values a field of a JSON request body or of a query result can
    hold.  [VNum] carries the exact value of a finite number, [VDate] the
    timestamp of a [Date] in milliseconds.  Nested objects and arrays in a
    request body are outside the model. *)
Inductive value : Type :=
| VUndefined
| VNull
| VBool (b : bool)
| VNum (q : Q)
| VStr (s : string)
| VDate (ms : Z).

(** A JavaScript object used as a record: field name to value. *)
Abbreviation object := (gmap string value).

(** [o.k]: reading a missing property gives [undefined]. *)
Definition get (o : object) (k : string) : value := default VUndefined (o !! k).

(** ToBoolean: [undefined], [null], [false], [0] and [''] are falsy. *)
Definition truthy (v : value) : bool :=
  match v with
  | VUndefined | VNull => false
  | VBool b => b
  | VNum q => negb (Qeq_bool q 0)
  | VStr s => negb (String.eqb s EmptyString)
  | VDate _ => true
  end.

(** [a || b] *)
Definition js_or (a b : value) : value := if truthy a then a else b.

(** [a !== b].  Two [Date]s are distinct objects. *)
Definition strict_ne (a b : value) : bool :=
  match a, b with
  | VUndefined, VUndefined | VNull, VNull => false
  | VBool x, VBool y => negb (Bool.eqb x y)
  | VNum x, VNum y => negb (Qeq_bool x y)
  | VStr x, VStr y => negb (String.eqb x y)
  | _, _ => true
  end.

(** ** Strings as numbers: [Number(s)] and [parseInt(s)] *)

Definition bytes (l : list Z) : string :=
  String.string_of_list_ascii (map (λ z, Ascii.ascii_of_N (Z.to_N z)) l).

(** WhiteSpace and LineTerminator code points, UTF-8 encoded: TAB, LF, VT,
    FF, CR, SP, U+00A0, U+1680, U+2000..U+200A, U+2028, U+2029, U+202F,
    U+205F, U+3000, U+FEFF. *)
Definition StrWhiteSpaceChar : list string :=
  [ bytes [9]; bytes [10]; bytes [11]; bytes [12]; bytes [13]; bytes [32];
    bytes [194; 160]; bytes [225; 154; 128];
    bytes [226; 128; 128]; bytes [226; 128; 129]; bytes [226; 128; 130];
    bytes [226; 128; 131]; bytes [226; 128; 132]; bytes [226; 128; 133];
    bytes [226; 128; 134]; bytes [226; 128; 135]; bytes [226; 128; 136];
    bytes [226; 128; 137]; bytes [226; 128; 138];
    bytes [226; 128; 168]; bytes [226; 128; 169]; bytes [226; 128; 175];
    bytes [226; 129; 159]; bytes [227; 128; 128]; bytes [239; 187; 191] ].

Fixpoint strip_prefix (p s : string) : option string :=
  match p with
  | EmptyString => Some s
  | String a p' =>
      match s with
      | String b s' => if Ascii.eqb a b then strip_prefix p' s' else None
      | EmptyString => None
      end
  end.

Fixpoint strip_any (pats : list string) (s : string) : option string :=
  match pats with
  | [] => None
  | p :: ps =>
      match strip_prefix p s with
      | Some r => Some r
      | None => strip_any ps s
      end
  end.

(** Drops leading occurrences of [pats]; every step removes at least one
    byte, so [String.length s] steps are always enough. *)
Fixpoint trim_go (fuel : nat) (pats : list string) (s : string) : string :=
  match fuel with
  | O => s
  | S f =>
      match strip_any pats s with
      | Some r => trim_go f pats r
      | None => s
      end
  end.

Definition trimStart (s : string) : string :=
  trim_go (String.length s) StrWhiteSpaceChar s.

Definition trimEnd (s : string) : string :=
  String.rev
    (trim_go (String.length s) (map String.rev StrWhiteSpaceChar) (String.rev s)).

Definition trim (s : string) : string := trimEnd (trimStart s).

Definition code (c : ascii) : Z := Z.of_N (Ascii.N_of_ascii c).

(** The value of [c] as a digit in the given radix: 0-9, then a-z or A-Z. *)
Definition digit_val (radix : Z) (c : ascii) : option Z :=
  let n := code c in
  let d :=
    if (48 <=? n) && (n <=? 57) then n - 48
    else if (97 <=? n) && (n <=? 122) then n - 87
    else if (65 <=? n) && (n <=? 90) then n - 55
    else 36 in
  if d <? radix then Some d else None.

(** The longest prefix of digits, with what follows it. *)
Fixpoint take_digits (radix : Z) (s : string) : list Z * string :=
  match s with
  | String c r =>
      match digit_val radix c with
      | Some d => let '(ds, rest) := take_digits radix r in (d :: ds, rest)
      | None => ([], s)
      end
  | EmptyString => ([], EmptyString)
  end.

Definition digits_value (radix : Z) (ds : list Z) : Z :=
  fold_left (λ acc d, acc * radix + d) ds 0.

Definition strip_sign (t : string) : bool * string :=
  match t with
  | String "-" r => (true, r)
  | String "+" r => (false, r)
  | _ => (false, t)
  end.

(** A Number.  [Number(s)] reads it from a string as the exact mathematical
    value of the literal, before it is rounded to a double; [parseInt(s)]
    gives the double itself. *)
Inductive number : Type :=
| NaN
| Finite (q : Q)
| Infinity (negative : bool).

(** [0x], [0o] and [0b] literals: no sign, at least one digit. *)
Definition NonDecimalIntegerLiteral (t : string) : option Z :=
  match t with
  | String "0" (String x r) =>
      let radix :=
        if Ascii.eqb x "x" || Ascii.eqb x "X" then Some 16
        else if Ascii.eqb x "o" || Ascii.eqb x "O" then Some 8
        else if Ascii.eqb x "b" || Ascii.eqb x "B" then Some 2
        else None in
      match radix with
      | Some R =>
          match take_digits R r with
          | ((_ :: _) as ds, EmptyString) => Some (digits_value R ds)
          | _ => None
          end
      | None => None
      end
  | _ => None
  end.

(** [digits . digits? exponent?], [. digits exponent?], [digits exponent?] *)
Definition StrUnsignedDecimalLiteral (t : string) : option Q :=
  let '(ip, r1) := take_digits 10 t in
  let '(fp, r2) :=
    match r1 with
    | String "." r => take_digits 10 r
    | _ => ([], r1)
    end in
  match ip ++ fp with
  | [] => None
  | ds =>
      let mant := inject_Z (digits_value 10 ds) in
      let scale := - Z.of_nat (length fp) in
      match r2 with
      | EmptyString => Some (mant * Qpower (10 # 1) scale)%Q
      | String e r3 =>
          if Ascii.eqb e "e" || Ascii.eqb e "E" then
            let '(neg, r4) := strip_sign r3 in
            match take_digits 10 r4 with
            | ((_ :: _) as ed, EmptyString) =>
                let ex := digits_value 10 ed in
                Some (mant * Qpower (10 # 1) ((if neg then - ex else ex) + scale))%Q
            | _ => None
            end
          else None
      end
  end.

(** StringToNumber. *)
Definition StringToNumber (s : string) : number :=
  let t := trim s in
  if String.eqb t EmptyString then Finite 0
  else
    match NonDecimalIntegerLiteral t with
    | Some n => Finite (inject_Z n)
    | None =>
        let '(neg, u) := strip_sign t in
        if String.eqb u "Infinity" then Infinity neg
        else
          match StrUnsignedDecimalLiteral u with
          | Some q => Finite (if neg then - q else q)%Q
          | None => NaN
          end
    end.

(** [isNaN(s)] *)
Definition isNaN (s : string) : bool :=
  match StringToNumber s with
  | NaN => true
  | _ => false
  end.

(** Half of the least positive double, 2^-1075: a literal whose value is at
    most this rounds to zero. *)
Definition half_min_double : Q := 1 # (2 ^ 1075).

(** [s <= 0], for a string [s] compared as a Number. *)
Definition le_zero (s : string) : bool :=
  match StringToNumber s with
  | NaN => false
  | Finite q => Qle_bool q half_min_double
  | Infinity negative => negative
  end.

(** The double nearest to a non-negative integer, as an integer: the
    integer itself below 2^53, and from there on the integer rounded to 53
    significant bits, a tie going to the even one. *)
Definition nearest_double (v : Z) : Z :=
  if v <? 2 ^ 53 then v
  else
    let e := Z.log2 v - 52 in
    let q := Z.shiftr v e in
    let r := Z.land v (Z.ones e) in
    let half := Z.shiftl 1 (e - 1) in
    let q' := if (half <? r) || ((r =? half) && Z.odd q) then q + 1 else q in
    Z.shiftl q' e.

(** The Number of the integer [v] with a sign: infinite when the nearest
    double would be 2^1024. *)
Definition Number_of_integer (negative : bool) (v : Z) : number :=
  let d := nearest_double v in
  if 2 ^ 1024 <=? d then Infinity negative
  else Finite (inject_Z (if negative then - d else d)).

(** [parseInt(s)]: leading white space, a sign, an optional [0x], then the
    longest prefix of digits; NaN when there is no digit, and otherwise the
    Number of the integer the digits denote.  (Past twenty decimal digits
    an engine may take the further digits for zeros before it rounds; the
    Number is beyond 32 bits either way.) *)
Definition parseInt (s : string) : number :=
  let '(neg, u) := strip_sign (trimStart s) in
  let '(R, v) :=
    match u with
    | String "0" (String x r) =>
        if Ascii.eqb x "x" || Ascii.eqb x "X" then (16, r) else (10, u)
    | _ => (10, u)
    end in
  match take_digits R v with
  | ([], _) => NaN
  | (ds, _) => Number_of_integer neg (digits_value R ds)
  end.

(** [String(n)] for a Number that is an integer below 10^21 in absolute
    value, which JavaScript writes in decimal. *)
Definition Number_toString (n : Z) : string :=
  DecimalString.NilZero.string_of_int (Z.to_int n).

(** [String(n)] for a Number; a finite one is an integer here (a result of
    [parseInt]), and is written by the client only when it is of 32 bits. *)
Definition String_of_Number (n : number) : string :=
  match n with
  | NaN => "NaN"
  | Finite q => Number_toString (Qfloor q)
  | Infinity negative => if negative then "-Infinity" else "Infinity"
  end.

(** [s] has the character [c]. *)
Fixpoint has_char (c : ascii) (s : string) : bool :=
  match s with
  | EmptyString => false
  | String a r => Ascii.eqb a c || has_char c r
  end.

(** ** Outcomes *)

(** What a call of the Prisma client raises: an argument of the wrong
    type, an integer beyond the 32 bits of its column, a text with a NUL
    character (which PostgreSQL does not store), an [id] sequence that has
    handed out its last value, a violation of the unique index on [email],
    a write to a missing row. *)
Inductive PrismaError : Type :=
| ValidationError
| ValueOutOfRange
| InvalidByteSequence
| SequenceExhausted
| UniqueConstraintFailed
| RecordNotFound.

(** The errors of the service, named after the taxonomy of the
    specification; [message] gives the text the source throws them with.
    The texts of the client's errors are stand-ins: the client writes
    longer messages, which also quote the arguments of the call.  What is
    used of them below is that the same error gives the same text, and
    that they have none of the phrases the controllers look for. *)
Inductive error : Type :=
| InvalidInput
| MissingFields
| DuplicateEmail
| EmailInUse
| NotFound (userId : string)
| Unexpected (e : PrismaError).

Definition message (e : error) : string :=
  match e with
  | InvalidInput => "ID inválido. Deve ser um número positivo"
  | MissingFields => "Nome, email e senha são obrigatórios"
  | DuplicateEmail => "Email já cadastrado no sistema"
  | EmailInUse => "Email já está em uso por outro usuário"
  | NotFound userId => "Usuário com ID " +:+ userId +:+ " não encontrado"
  | Unexpected ValidationError => "Invalid value provided"
  | Unexpected ValueOutOfRange => "Value out of range for the type"
  | Unexpected InvalidByteSequence =>
      "invalid byte sequence for encoding UTF8: 0x00"
  | Unexpected SequenceExhausted => "reached maximum value of sequence"
  | Unexpected UniqueConstraintFailed =>
      "Unique constraint failed on the fields: (`email`)"
  | Unexpected RecordNotFound => "Record to update not found."
  end.

Inductive outcome (A : Type) : Type :=
| Ok (a : A)
| Throw (e : error).
Arguments Ok {A} a.
Arguments Throw {A} e.

(** ** The users table *)

Module User.
(** A row of [users]: the columns of the migration, [data_criacao] under
    its client name [createdAt]. Timestamps are in milliseconds. *)
Record t : Type := make {
  id : Z;
  nome : string;
  email : string;
  senha : string;
  foto : option string;
  papel : string;
  createdAt : Z;
  updatedAt : Z
}.

(** The row as the client returns it when nothing is selected. *)
Definition to_object (r : t) : object :=
  list_to_map
    [ ("id", VNum (inject_Z (id r)));
      ("nome", VStr (nome r));
      ("email", VStr (email r));
      ("senha", VStr (senha r));
      ("foto", match foto r with Some f => VStr f | None => VNull end);
      ("papel", VStr (papel r));
      ("createdAt", VDate (createdAt r));
      ("updatedAt", VDate (updatedAt r)) ].
End User.

(** The database: the rows in insertion order and the next value of the
    [SERIAL] sequence behind [id]. *)
Record store : Type := {
  users : list User.t;
  users_id_seq : Z
}.

(** ** Awaited computations over the database *)

Definition M (A : Type) : Type := store → outcome A * store.

Definition ret {A} (a : A) : M A := λ db, (Ok a, db).

Definition throw {A} (e : error) : M A := λ db, (Throw e, db).

Definition bind {A B} (m : M A) (k : A → M B) : M B :=
  λ db,
    match m db with
    | (Ok a, db') => k a db'
    | (Throw e, db') => (Throw e, db')
    end.

Notation "x <- m ;; k" := (bind m (λ x, k))
  (at level 100, m at next level, right associativity).

(** ** The Prisma client, on the in-memory table

    The client is a library the service calls.  What is modelled of it is
    what those calls do to the table of the migration: a lookup by a unique
    column, the whole table in the order asked for, an insert, a write to
    the row of an id, a removal.  A call throws when an argument does not
    have the type of its column; when an id is not an integer of 32 bits,
    the size of the [SERIAL] column; when a text it is given has a NUL
    character; when the sequence behind [id] is exhausted; when it would
    leave two rows with the same email; and when it writes to a row that
    is not there. *)

(** [select: { f: true, ... }]: only the listed fields are returned. *)
Definition select (fields : list string) (o : object) : object :=
  filter (λ kv, kv.1 ∈ fields) o.

(** The rows with a given primary key, with a given email. *)
Definition id_is (k : Z) (r : User.t) : bool := User.id r =? k.

Definition email_is (e : string) (r : User.t) : bool :=
  String.eqb (User.email r) e.

(** A text PostgreSQL stores: one without the NUL character. *)
Definition storable (s : string) : bool := negb (has_char Ascii.zero s).

Definition clean (v : value) : bool :=
  match v with
  | VStr s => storable s
  | _ => true
  end.

(** The columns a call gives values for. *)
Definition columns : list string := ["nome"; "email"; "senha"; "papel"; "foto"].

(** No text among the values of a call has a NUL character. *)
Definition all_clean (data : object) : bool :=
  forallb (λ k, clean (get data k)) columns.

(** The call gives a value to at least one column. *)
Definition writes (data : object) : bool :=
  existsb (λ k, strict_ne (get data k) VUndefined) columns.

Module prisma.

(** An argument of an [Int] column: a Number that is an integer, of 32
    bits.  NaN, an infinite and a fraction do not have the type; an integer
    beyond 32 bits is out of range. *)
Definition Int (n : number) : outcome Z :=
  match n with
  | Finite q =>
      if Qeq_bool q (inject_Z (Qfloor q)) then
        if (- 2 ^ 31 <=? Qfloor q) && (Qfloor q <? 2 ^ 31) then Ok (Qfloor q)
        else Throw (Unexpected ValueOutOfRange)
      else Throw (Unexpected ValidationError)
  | _ => Throw (Unexpected ValidationError)
  end.

Module user.

(** [where: { id: parseInt(userId) }] and [where: { email }]. *)
Inductive UserWhereUniqueInput : Type :=
| where_id (n : number)
| where_email (v : value).

(** The row test of a [where]; an id that is not an [Int] or an email that
    is not a string is rejected by the client, and a text with a NUL
    character by the database, which takes it as a parameter. *)
Definition resolve (w : UserWhereUniqueInput) : outcome (User.t → bool) :=
  match w with
  | where_id n =>
      match Int n with
      | Ok k => Ok (id_is k)
      | Throw e => Throw e
      end
  | where_email (VStr e) =>
      if storable e then Ok (email_is e)
      else Throw (Unexpected InvalidByteSequence)
  | where_email _ => Throw (Unexpected ValidationError)
  end.

Definition project (sel : option (list string)) (r : User.t) : object :=
  match sel with
  | Some fields => select fields (User.to_object r)
  | None => User.to_object r
  end.

Definition findUnique (w : UserWhereUniqueInput) (sel : option (list string))
  : M (option object) :=
  λ db,
    match resolve w with
    | Ok p => (Ok (project sel <$> List.find p (users db)), db)
    | Throw e => (Throw e, db)
    end.

Inductive SortOrder : Type := asc | desc.

Definition createdAt_order (o : SortOrder) : relation User.t :=
  λ x y,
    match o with
    | asc => User.createdAt x ≤ User.createdAt y
    | desc => User.createdAt y ≤ User.createdAt x
    end.

#[global] Instance createdAt_order_dec o x y : Decision (createdAt_order o x y).
Proof. destruct o; unfold createdAt_order; apply _. Defined.

(** [findMany({ select, orderBy: { createdAt: o } })] *)
Definition findMany (sel : option (list string)) (o : SortOrder)
  : M (list object) :=
  λ db, (Ok (project sel <$> merge_sort (createdAt_order o) (users db)), db).

(** A [TEXT NOT NULL] argument. *)
Definition text (v : value) : option string :=
  match v with
  | VStr s => Some s
  | _ => None
  end.

(** A [TEXT NOT NULL DEFAULT d] argument. *)
Definition text_or_default (v : value) (d : string) : option string :=
  match v with
  | VUndefined => Some d
  | VStr s => Some s
  | _ => None
  end.

(** A [TEXT] argument: [null] or nothing at all for NULL. *)
Definition nullable_text (v : value) : option (option string) :=
  match v with
  | VStr s => Some (Some s)
  | VNull | VUndefined => Some None
  | _ => None
  end.

(** [create({ data, select })]: the arguments are checked against the
    column types, a text with a NUL character is refused, [papel] falls
    back to the column default, [id] comes from the sequence, which ends
    at 2^31 - 1, and both timestamps are set to the time of the call. *)
Definition create (data : object) (sel : option (list string)) (now : Z)
  : M object :=
  λ db,
    match text (get data "nome"), text (get data "email"),
          text (get data "senha"),
          text_or_default (get data "papel") "PROFESSOR",
          nullable_text (get data "foto") with
    | Some n, Some e, Some s, Some p, Some f =>
        if negb (all_clean data)
        then (Throw (Unexpected InvalidByteSequence), db)
        else if negb (users_id_seq db <? 2 ^ 31)
        then (Throw (Unexpected SequenceExhausted), db)
        else if existsb (email_is e) (users db)
        then (Throw (Unexpected UniqueConstraintFailed), db)
        else
          let r := User.make (users_id_seq db) n e s f p now now in
          (Ok (project sel r),
           {| users := users db ++ [r];
              users_id_seq := users_id_seq db + 1 |})
    | _, _, _, _, _ => (Throw (Unexpected ValidationError), db)
    end.

(** The new content of a column: [undefined] leaves it as it is. *)
Definition set_text (v : value) (old : string) : option string :=
  match v with
  | VUndefined => Some old
  | VStr s => Some s
  | _ => None
  end.

Definition set_nullable_text (v : value) (old : option string)
  : option (option string) :=
  match v with
  | VUndefined => Some old
  | VNull => Some None
  | VStr s => Some (Some s)
  | _ => None
  end.

(** [update({ where, data, select })].  The declaration of [updatedAt]
    ([prisma/schema.prisma]) is not among the sources; the migration gives
    the column no default, so it is the client that writes it: [create]
    does, and so does an [update] that writes at least one column, with
    the time of the call.  An [update] whose [data] gives no column a
    value returns the row as it is and writes nothing. *)
Definition update (w : UserWhereUniqueInput) (data : object)
  (sel : option (list string)) (now : Z) : M object :=
  λ db,
    match resolve w with
    | Throw e => (Throw e, db)
    | Ok p =>
        match List.find p (users db) with
        | None => (Throw (Unexpected RecordNotFound), db)
        | Some r =>
            match set_text (get data "nome") (User.nome r),
                  set_text (get data "email") (User.email r),
                  set_text (get data "senha") (User.senha r),
                  set_text (get data "papel") (User.papel r),
                  set_nullable_text (get data "foto") (User.foto r) with
            | Some n, Some e, Some s, Some pa, Some f =>
                if negb (writes data) then (Ok (project sel r), db)
                else if negb (all_clean data)
                then (Throw (Unexpected InvalidByteSequence), db)
                else
                  let r' :=
                    User.make (User.id r) n e s f pa (User.createdAt r) now in
                  if existsb (λ x, negb (p x) && email_is e x) (users db)
                  then (Throw (Unexpected UniqueConstraintFailed), db)
                  else
                    (Ok (project sel r'),
                     {| users := (λ x, if p x then r' else x) <$> users db;
                        users_id_seq := users_id_seq db |})
            | _, _, _, _, _ => (Throw (Unexpected ValidationError), db)
            end
        end
    end.

(** [delete({ where })] *)
Definition delete (w : UserWhereUniqueInput) : M object :=
  λ db,
    match resolve w with
    | Throw e => (Throw e, db)
    | Ok p =>
        match List.find p (users db) with
        | None => (Throw (Unexpected RecordNotFound), db)
        | Some r =>
            (Ok (User.to_object r),
             {| users := List.filter (λ x, negb (p x)) (users db);
                users_id_seq := users_id_seq db |})
        end
    end.

End user.
End prisma.

(** ** src/services/userService.js *)

(** The [select] of the read operations: every column but [senha] (and
    [updatedAt]). *)
Definition public_fields : list string :=
  ["id"; "nome"; "email"; "papel"; "foto"; "createdAt"].

Definition getAllUsers : M (list object) :=
  usuarios <- prisma.user.findMany (Some public_fields) prisma.user.desc ;;
  ret usuarios.

(** [!userId || isNaN(userId) || userId <= 0], for the string the route
    hands over. *)
Definition invalid_id (userId : string) : bool :=
  negb (truthy (VStr userId)) || isNaN userId || le_zero userId.

Definition getUserById (userId : string) : M (option object) :=
  if invalid_id userId then throw InvalidInput
  else
    usuario <- prisma.user.findUnique
                 (prisma.user.where_id (parseInt userId)) (Some public_fields) ;;
    ret usuario.

Definition emailExists (email : value) : M bool :=
  usuario <- prisma.user.findUnique (prisma.user.where_email email) None ;;
  ret (bool_decide (is_Some usuario)).

Definition validateUserData (userData : object) : M unit :=
  let nome := get userData "nome" in
  let email := get userData "email" in
  let senha := get userData "senha" in
  if negb (truthy nome) || negb (truthy email) || negb (truthy senha)
  then throw MissingFields
  else ret ().

(** The [data] of the [create] call. *)
Definition create_data (userData : object) : object :=
  list_to_map
    [ ("nome", get userData "nome");
      ("email", get userData "email");
      ("senha", get userData "senha");
      ("papel", js_or (get userData "papel") (VStr "PROFESSOR"));
      ("foto", js_or (get userData "foto") VNull) ].

Definition createUser (now : Z) (userData : object) : M object :=
  _ <- validateUserData userData ;;
  emailJaExiste <- emailExists (get userData "email") ;;
  if emailJaExiste : bool then throw DuplicateEmail
  else
    novoUsuario <-
      prisma.user.create (create_data userData) (Some public_fields) now ;;
    ret novoUsuario.

(** [if (userData.k) dadosAtualizacao.k = userData.k] *)
Definition assign_if_truthy (userData : object) (k : string)
  (dadosAtualizacao : object) : object :=
  if truthy (get userData k) then <[k := get userData k]> dadosAtualizacao
  else dadosAtualizacao.

(** [if (userData.k !== undefined) dadosAtualizacao.k = userData.k] *)
Definition assign_if_defined (userData : object) (k : string)
  (dadosAtualizacao : object) : object :=
  if strict_ne (get userData k) VUndefined
  then <[k := get userData k]> dadosAtualizacao
  else dadosAtualizacao.

Definition dadosAtualizacao (userData : object) : object :=
  assign_if_defined userData "foto"
    (assign_if_truthy userData "papel"
       (assign_if_truthy userData "senha"
          (assign_if_truthy userData "email"
             (assign_if_truthy userData "nome" ∅)))).

(** The [select] of the update: the public fields and [updatedAt]. *)
Definition updated_fields : list string :=
  ["id"; "nome"; "email"; "papel"; "foto"; "createdAt"; "updatedAt"].

Definition updateUser (now : Z) (userId : string) (userData : object)
  : M object :=
  if invalid_id userId then throw InvalidInput
  else
    usuarioExistente <-
      prisma.user.findUnique (prisma.user.where_id (parseInt userId)) None ;;
    match usuarioExistente with
    | None => throw (NotFound userId)
    | Some usuarioExistente =>
        _ <- (if truthy (get userData "email")
                 && strict_ne (get userData "email") (get usuarioExistente "email")
              then
                emailJaExiste <- emailExists (get userData "email") ;;
                if emailJaExiste : bool then throw EmailInUse else ret ()
              else ret ()) ;;
        usuarioAtualizado <-
          prisma.user.update (prisma.user.where_id (parseInt userId))
            (dadosAtualizacao userData)
            (Some updated_fields) now ;;
        ret usuarioAtualizado
    end.

Definition deleteUser (userId : string) : M object :=
  if invalid_id userId then throw InvalidInput
  else
    usuarioExistente <-
      prisma.user.findUnique (prisma.user.where_id (parseInt userId))
        (Some ["id"; "nome"; "email"]) ;;
    match usuarioExistente with
    | None => throw (NotFound userId)
    | Some usuarioExistente =>
        _ <- prisma.user.delete (prisma.user.where_id (parseInt userId)) ;;
        ret usuarioExistente
    end.

(** ** src/controllers/userController.js: GET /users/:id *)

(** [s.includes(sub)] *)
Fixpoint includes (s sub : string) : bool :=
  match strip_prefix sub s with
  | Some _ => true
  | None =>
      match s with
      | String _ r => includes r sub
      | EmptyString => false
      end
  end.

Record response : Type := {
  status : Z;
  success : bool;
  res_message : option string;
  res_data : option object;
  res_error : option string
}.

Definition getById (id : string) : store → response * store :=
  λ db,
    match getUserById id db with
    | (Ok None, db') =>
        ({| status := 404; success := false;
            res_message := Some ("Usuário com ID " +:+ id +:+ " não encontrado");
            res_data := None; res_error := None |}, db')
    | (Ok (Some usuario), db') =>
        ({| status := 200; success := true; res_message := None;
            res_data := Some usuario; res_error := None |}, db')
    | (Throw e, db') =>
        if includes (message e) "inválido" then
          ({| status := 400; success := false;
              res_message := Some (message e);
              res_data := None; res_error := None |}, db')
        else
          ({| status := 500; success := false;
              res_message := Some "Erro ao buscar usuário";
              res_data := None; res_error := Some (message e) |}, db')
    end.


Arguments select : simpl never.
Arguments User.to_object : simpl never.

(** * Vocabulary of the properties *)

(** ** Identifiers written in decimal *)

Definition is_digit (c : ascii) : bool := (48 <=? code c) && (code c <=? 57).

(** A non-empty string of decimal digits. *)
Fixpoint all_digits (s : string) : bool :=
  match s with
  | EmptyString => true
  | String c r => is_digit c && all_digits r
  end.

Definition decimal (s : string) : bool :=
  negb (String.eqb s EmptyString) && all_digits s.

(** The digits of [s], most significant first. *)
Fixpoint digits_of (s : string) : list Z :=
  match s with
  | EmptyString => []
  | String c r => (code c - 48) :: digits_of r
  end.

(** The integer a decimal string denotes. *)
Definition decimal_value (s : string) : Z := digits_value 10 (digits_of s).

(** ** Request bodies *)

Definition is_text (v : value) : bool :=
  match v with
  | VStr _ => true
  | _ => false
  end.

(** A field the client accepts in an update of a [NOT NULL] text column:
    left out by the service (falsy) or a string. *)
Definition ok_text (v : value) : bool := negb (truthy v) || is_text v.

(** Nothing, [null] or a string: what a text field of a request body is. *)
Definition text_or_nothing (v : value) : bool :=
  match v with
  | VUndefined | VNull | VStr _ => true
  | _ => false
  end.

(** An update body whose fields, as the service passes them on, have the
    types of their columns; and one the client can write: no text of it
    has a NUL character either. *)
Definition typed_update (userData : object) : bool :=
  ok_text (get userData "nome") && ok_text (get userData "email")
  && ok_text (get userData "senha") && ok_text (get userData "papel")
  && text_or_nothing (get userData "foto").

Definition acceptable (userData : object) : bool :=
  typed_update userData && all_clean userData.

(** The update body has a field the service passes on: one of [nome],
    [email], [senha], [papel] that is truthy, or a [foto] that is given. *)
Definition merges (userData : object) : bool :=
  truthy (get userData "nome") || truthy (get userData "email")
  || truthy (get userData "senha") || truthy (get userData "papel")
  || strict_ne (get userData "foto") VUndefined.

(** The content of a text column after an update: a non-empty string
    replaces it, anything else leaves it. *)
Definition merge_text (v : value) (old : string) : string :=
  match v with
  | VStr s => if truthy v then s else old
  | _ => old
  end.

Definition merge_foto (v : value) (old : option string) : option string :=
  match v with
  | VStr s => Some s
  | VNull => None
  | _ => old
  end.

(** The row after an update: [updatedAt] moves to the time of the call
    when a field is passed on, and stays otherwise. *)
Definition merge (userData : object) (now : Z) (r : User.t) : User.t :=
  User.make (User.id r)
    (merge_text (get userData "nome") (User.nome r))
    (merge_text (get userData "email") (User.email r))
    (merge_text (get userData "senha") (User.senha r))
    (merge_foto (get userData "foto") (User.foto r))
    (merge_text (get userData "papel") (User.papel r))
    (User.createdAt r)
    (if merges userData then now else User.updatedAt r).

(** A field that is absent ([undefined] or [null]) or the empty string. *)
Definition absent_or_empty (v : value) : Prop :=
  v = VUndefined ∨ v = VNull ∨ v = VStr EmptyString.

(** A creation body with the three required texts given and not empty,
    [papel] and [foto] left out (or falsy) or given as text, and no NUL
    character in a text. *)
Definition well_formed (userData : object) : bool :=
  is_text (get userData "nome") && truthy (get userData "nome")
  && is_text (get userData "email") && truthy (get userData "email")
  && is_text (get userData "senha") && truthy (get userData "senha")
  && ok_text (get userData "papel") && ok_text (get userData "foto")
  && all_clean userData.

(** The sequence behind [id] has a value left to hand out. *)
Definition has_next_id (db : store) : Prop := users_id_seq db < 2 ^ 31.

Definition text_of (v : value) : string :=
  match v with
  | VStr s => s
  | _ => EmptyString
  end.

(** The row [createUser] inserts for a request body. *)
Definition new_row (userData : object) (now : Z) (db : store) : User.t :=
  User.make (users_id_seq db)
    (text_of (get userData "nome"))
    (text_of (get userData "email"))
    (text_of (get userData "senha"))
    (match js_or (get userData "foto") VNull with
     | VStr f => Some f
     | _ => None
     end)
    (text_of (js_or (get userData "papel") (VStr "PROFESSOR")))
    now now.

Definition insert_row (r : User.t) (db : store) : store :=
  {| users := users db ++ [r]; users_id_seq := users_id_seq db + 1 |}.



(** ** Results *)

(** The snapshot [{ id, nome, email }] of a row. *)
Definition snapshot (r : User.t) : object :=
  list_to_map
    [ ("id", VNum (inject_Z (User.id r)));
      ("nome", VStr (User.nome r));
      ("email", VStr (User.email r)) ].


Definition hides_senha (o : object) : Prop := o !! "senha" = None.

(** [P] holds of the value an operation returns, when it returns one. *)
Definition on_success {A} (P : A → Prop) (r : outcome A * store) : Prop :=
  match r.1 with
  | Ok a => P a
  | Throw _ => True
  end.

(** ** Databases *)

(** The constraints of the table (primary key, unique index on [email]),
    ids handed out by the sequence, and emails that are not empty. *)
Record store_ok (db : store) : Prop := {
  ids_unique : NoDup (User.id <$> users db);
  ids_issued : Forall (λ r, 1 ≤ User.id r < users_id_seq db) (users db);
  seq_positive : 1 ≤ users_id_seq db;
  emails_unique : NoDup (User.email <$> users db);
  emails_given : Forall (λ r, User.email r ≠ EmptyString) (users db)
}.

Definition empty_store : store := {| users := []; users_id_seq := 1 |}.


(** The requests of the five routes, and the table after serving them in
    sequence. *)
Inductive request : Type :=
| GET_users
| GET_user (id : string)
| POST_user (now : Z) (body : object)
| PUT_user (now : Z) (id : string) (body : object)
| DELETE_user (id : string).

Definition handle (q : request) (db : store) : store :=
  match q with
  | GET_users => (getAllUsers db).2
  | GET_user id => (getUserById id db).2
  | POST_user now body => (createUser now body db).2
  | PUT_user now id body => (updateUser now id body db).2
  | DELETE_user id => (deleteUser id db).2
  end.

Definition serve (qs : list request) (db : store) : store :=
  fold_left (λ db q, handle q db) qs db.

(** The three required fields pass [validateUserData]. *)
Definition required_given (userData : object) : bool :=
  truthy (get userData "nome") && truthy (get userData "email")
  && truthy (get userData "senha").

(** ** Roles *)

Definition role (s : string) : Prop := s = "ADMIN" ∨ s = "PROFESSOR".

Definition roles_ok (db : store) : Prop :=
  Forall (λ r, role (User.papel r)) (users db).

(** A [papel] of a request body that is left out (or falsy) or one of
    the two roles. *)
Definition role_or_nothing (v : value) : Prop :=
  truthy v = false ∨ v = VStr "ADMIN" ∨ v = VStr "PROFESSOR".

(** The requests that give create and update a role of the enumeration,
    or none. *)
Definition request_role_ok (q : request) : Prop :=
  match q with
  | POST_user _ body | PUT_user _ _ body => role_or_nothing (get body "papel")
  | _ => True
  end.

(** ** A table and bodies to run the operations on *)

Definition maria : User.t :=
  User.make 1 "Prof. Maria Silva" "maria@escola.com" "senha123" None
    "PROFESSOR" 1000 1000.

Definition joao : User.t :=
  User.make 2 "Admin João" "joao@escola.com" "senha456" None "ADMIN" 2000 2000.

Definition escola : store := {| users := [maria; joao]; users_id_seq := 3 |}.

Definition novo_professor : object :=
  list_to_map
    [ ("nome", VStr "Prof. Teste"); ("email", VStr "teste@escola.com");
      ("senha", VStr "senha123") ].

(** The same body with a NUL character in the name, a creation with the
    email of Maria and nothing else, and a table whose sequence has
    handed out its last value. *)
Definition nome_com_nul : object :=
  <["nome" := VStr (String Ascii.zero "Teste")]> novo_professor.

Definition so_email : object := {["email" := VStr "maria@escola.com"]}.

(** The body of a new teacher with a number for a name. *)
Definition nome_zero : object := <["nome" := VNum (inject_Z 0)]> novo_professor.

Definition nome_cinco : object := <["nome" := VNum (inject_Z 5)]> novo_professor.

Definition esgotada : store := {| users := []; users_id_seq := 2 ^ 31 |}.

(** ** src/controllers/userController.js: the other routes *)

(** The body of the answer to [GET /users]: the list and its length. *)
Record listing : Type := {
  list_status : Z;
  list_success : bool;
  list_data : option (list object);
  list_total : option Z;
  list_message : option string;
  list_error : option string
}.

(** The answer of a [catch] branch that reports a failure of the server. *)
Definition failure (what : string) (e : error) : response :=
  {| status := 500; success := false; res_message := Some what;
     res_data := None; res_error := Some (message e) |}.

(** The answer that hands the message of the error to the client. *)
Definition refusal (code : Z) (e : error) : response :=
  {| status := code; success := false; res_message := Some (message e);
     res_data := None; res_error := None |}.

Module userController.

Definition getAll : store → listing * store :=
  λ db,
    match getAllUsers db with
    | (Ok usuarios, db') =>
        ({| list_status := 200; list_success := true;
            list_data := Some usuarios;
            list_total := Some (Z.of_nat (length usuarios));
            list_message := None; list_error := None |}, db')
    | (Throw e, db') =>
        ({| list_status := 500; list_success := false;
            list_data := None; list_total := None;
            list_message := Some "Erro ao listar usuários";
            list_error := Some (message e) |}, db')
    end.

Definition create (now : Z) (body : object) : store → response * store :=
  λ db,
    match createUser now body db with
    | (Ok novoUsuario, db') =>
        ({| status := 201; success := true;
            res_message := Some "Usuário criado com sucesso";
            res_data := Some novoUsuario; res_error := None |}, db')
    | (Throw e, db') =>
        if includes (message e) "obrigatórios"
           || includes (message e) "já cadastrado"
        then (refusal 400 e, db')
        else (failure "Erro ao criar usuário" e, db')
    end.

Definition update (now : Z) (id : string) (body : object)
  : store → response * store :=
  λ db,
    match updateUser now id body db with
    | (Ok usuarioAtualizado, db') =>
        ({| status := 200; success := true;
            res_message := Some "Usuário atualizado com sucesso";
            res_data := Some usuarioAtualizado; res_error := None |}, db')
    | (Throw e, db') =>
        if includes (message e) "já está em uso" then (refusal 400 e, db')
        else if includes (message e) "não encontrado"
        then (refusal 404 e, db')
        else (failure "Erro ao atualizar usuário" e, db')
    end.

Definition remove (id : string) : store → response * store :=
  λ db,
    match deleteUser id db with
    | (Ok usuarioRemovido, db') =>
        ({| status := 200; success := true;
            res_message := Some "Usuário removido com sucesso";
            res_data := Some usuarioRemovido; res_error := None |}, db')
    | (Throw e, db') =>
        if includes (message e) "não encontrado" then (refusal 404 e, db')
        else (failure "Erro ao remover usuário" e, db')
    end.

End userController.

(** ** src/controllers/userController.js, as it was before the service

    The first version of the controller (with [create], [getAll] and
    [getById] only) calls the client itself. *)

Module userController_v1.

Definition create (now : Z) (body : object) : store → response * store :=
  λ db,
    let nome := get body "nome" in
    let email := get body "email" in
    let senha := get body "senha" in
    if negb (truthy nome) || negb (truthy email) || negb (truthy senha) then
      ({| status := 400; success := false;
          res_message := Some "Nome, email e senha são obrigatórios";
          res_data := None; res_error := None |}, db)
    else
      match prisma.user.findUnique (prisma.user.where_email email) None db with
      | (Throw e, db') => (failure "Erro ao criar usuário" e, db')
      | (Ok (Some emailExistente), db') =>
          ({| status := 400; success := false;
              res_message := Some "Email já cadastrado no sistema";
              res_data := None; res_error := None |}, db')
      | (Ok None, db') =>
          match prisma.user.create (create_data body) (Some public_fields)
                  now db' with
          | (Ok novoUsuario, db'') =>
              ({| status := 201; success := true;
                  res_message := Some "Usuário criado com sucesso";
                  res_data := Some novoUsuario; res_error := None |}, db'')
          | (Throw e, db'') => (failure "Erro ao criar usuário" e, db'')
          end
      end.

Definition getAll : store → listing * store :=
  λ db,
    match prisma.user.findMany (Some public_fields) prisma.user.desc db with
    | (Ok usuarios, db') =>
        ({| list_status := 200; list_success := true;
            list_data := Some usuarios;
            list_total := Some (Z.of_nat (length usuarios));
            list_message := None; list_error := None |}, db')
    | (Throw e, db') =>
        ({| list_status := 500; list_success := false;
            list_data := None; list_total := None;
            list_message := Some "Erro ao listar usuários";
            list_error := Some (message e) |}, db')
    end.

Definition getById (id : string) : store → response * store :=
  λ db,
    let userId := parseInt id in
    match userId with
    | NaN =>
        ({| status := 400; success := false;
            res_message := Some "ID inválido. Deve ser um número";
            res_data := None; res_error := None |}, db)
    | _ =>
        match prisma.user.findUnique (prisma.user.where_id userId)
                (Some public_fields) db with
        | (Ok None, db') =>
            ({| status := 404; success := false;
                res_message :=
                  Some ("Usuário com ID " +:+ String_of_Number userId
                        +:+ " não encontrado");
                res_data := None; res_error := None |}, db')
        | (Ok (Some usuario), db') =>
            ({| status := 200; success := true; res_message := None;
                res_data := Some usuario; res_error := None |}, db')
        | (Throw e, db') => (failure "Erro ao buscar usuário" e, db')
        end
    end.

End userController_v1.

(** ** Failures *)


(** An operation that fails leaves the table as it found it. *)
Definition fails_cleanly {A} (m : M A) (db : store) : Prop :=
  match (m db).1 with
  | Ok _ => True
  | Throw _ => (m db).2 = db
  end.

(** ** Answers *)



(** ** Fields *)

(** An object with exactly the fields of a list. *)
Definition has_fields (fields : list string) (o : object) : Prop :=
  dom o = (list_to_set fields : gset string).

Definition data_has_fields (fields : list string) (a : response) : Prop :=
  ∀ o, res_data a = Some o → has_fields fields o.

Definition list_has_fields (fields : list string) (a : listing) : Prop :=
  ∀ l, list_data a = Some l → Forall (has_fields fields) l.

(** ** Bodies for the table [escola] *)

(** A creation that takes the email of Maria, and updates. *)
Definition outra_maria : object :=
  <["email" := VStr "maria@escola.com"]> novo_professor.

Definition novo_nome : object := {["nome" := VStr "Maria S."]}.

Definition email_de_maria : object := {["email" := VStr "maria@escola.com"]}.

Definition professor_teste : User.t :=
  User.make 3 "Prof. Teste" "teste@escola.com" "senha123" None "PROFESSOR"
    9000 9000.

Definition maria_s : User.t :=
  User.make 1 "Maria S." "maria@escola.com" "senha123" None "PROFESSOR"
    1000 3000.

(** * Properties *)

(** ** Trimming *)

Lemma strip_prefix_length p s r :
  strip_prefix p s = Some r →
  String.length s = (String.length p + String.length r)%nat.
Proof.
  revert s. induction p as [|a p IH]; intros s; simpl.
  - by intros [= ->].
  - destruct s as [|b s]; [done|]. destruct (Ascii.eqb a b); [|done].
    intros Hp. simpl. by rewrite (IH s Hp).
Qed.

Lemma strip_any_shorter pats s r :
  Forall (λ p, p ≠ EmptyString) pats → strip_any pats s = Some r →
  (String.length r < String.length s)%nat.
Proof.
  induction 1 as [|p pats Hp _ IH]; simpl; [done|].
  destruct (strip_prefix p s) as [r'|] eqn:Hstrip; [|exact IH].
  intros [= ->]. apply strip_prefix_length in Hstrip.
  destruct p; [done|]. simpl in Hstrip. lia.
Qed.

(** The length of the string is fuel enough: what [trim_go] returns starts
    with none of the patterns. *)
Lemma trim_go_done pats fuel s :
  Forall (λ p, p ≠ EmptyString) pats → (String.length s ≤ fuel)%nat →
  strip_any pats (trim_go fuel pats s) = None.
Proof.
  intros Hpats. revert s. induction fuel as [|fuel IH]; intros s Hlen; simpl.
  - destruct (strip_any pats s) as [r|] eqn:Hstrip; [|done].
    apply (strip_any_shorter pats s r Hpats) in Hstrip. lia.
  - destruct (strip_any pats s) as [r|] eqn:Hstrip; [|done].
    apply IH. apply (strip_any_shorter pats s r Hpats) in Hstrip. lia.
Qed.

Lemma StrWhiteSpaceChar_nonempty :
  Forall (λ p, p ≠ EmptyString) StrWhiteSpaceChar.
Proof. repeat constructor; discriminate. Qed.

Lemma trimStart_done s : strip_any StrWhiteSpaceChar (trimStart s) = None.
Proof. by apply trim_go_done; [apply StrWhiteSpaceChar_nonempty|]. Qed.

(** ** Decimal identifiers *)

Ltac ascii_cases c :=
  destruct c as [[] [] [] [] [] [] [] []]; try discriminate.

Lemma digit_val_digit c :
  is_digit c = true → digit_val 10 c = Some (code c - 48).
Proof. ascii_cases c; intros _; reflexivity. Qed.

Lemma take_digits_all s :
  all_digits s = true → take_digits 10 s = (digits_of s, EmptyString).
Proof.
  induction s as [|c r IH]; simpl; [done|].
  intros [Hc Hr]%andb_prop. rewrite (digit_val_digit c Hc), (IH Hr). done.
Qed.

Lemma strip_ws_digit c r :
  is_digit c = true → strip_any StrWhiteSpaceChar (String c r) = None.
Proof. ascii_cases c; intros _; reflexivity. Qed.

Lemma strip_ws_rev_digit c r :
  is_digit c = true →
  strip_any (map String.rev StrWhiteSpaceChar) (String c r) = None.
Proof. ascii_cases c; intros _; reflexivity. Qed.

Lemma trim_go_digit fuel c r :
  is_digit c = true → trim_go fuel StrWhiteSpaceChar (String c r) = String c r.
Proof.
  intros Hc. destruct fuel; [done|]. cbn [trim_go]. by rewrite strip_ws_digit.
Qed.

Lemma trim_go_rev_digit fuel c r :
  is_digit c = true →
  trim_go fuel (map String.rev StrWhiteSpaceChar) (String c r) = String c r.
Proof.
  intros Hc. destruct fuel; [done|]. cbn [trim_go].
  by rewrite strip_ws_rev_digit.
Qed.

Lemma rev_app_rev_app s a :
  String.rev_app (String.rev_app s a) EmptyString = String.rev_app a s.
Proof.
  revert a. induction s as [|c s IH]; intros a; simpl; [done|]. by rewrite IH.
Qed.

Lemma rev_rev s : String.rev (String.rev s) = s.
Proof. unfold String.rev. by rewrite rev_app_rev_app. Qed.

Lemma all_digits_rev_app s a :
  all_digits s = true → all_digits a = true →
  all_digits (String.rev_app s a) = true.
Proof.
  revert a. induction s as [|c s IH]; intros a; simpl; [done|].
  intros [Hc Hs]%andb_prop Ha. apply IH; [done|]. simpl. by rewrite Hc.
Qed.

Lemma rev_app_nonempty s a :
  a ≠ EmptyString → String.rev_app s a ≠ EmptyString.
Proof.
  revert a. induction s as [|c s IH]; intros a Ha; simpl; [done|].
  by apply IH.
Qed.

Lemma decimal_inv s :
  decimal s = true →
  ∃ c r, s = String c r ∧ is_digit c = true ∧ all_digits r = true.
Proof.
  destruct s as [|c r]; [done|]. unfold decimal. simpl.
  intros [Hc Hr]%andb_prop. eauto.
Qed.

Lemma trimStart_decimal s : decimal s = true → trimStart s = s.
Proof.
  intros (c & r & -> & Hc & _)%decimal_inv. by apply trim_go_digit.
Qed.

Lemma trim_decimal s : decimal s = true → trim s = s.
Proof.
  intros Hs. unfold trim. rewrite (trimStart_decimal s Hs). unfold trimEnd.
  destruct (decimal_inv s Hs) as (c & r & -> & Hc & Hr).
  assert (Hd : decimal (String.rev (String c r)) = true).
  { unfold decimal, String.rev. simpl String.rev_app.
    assert (Hne : String.rev_app r (String c EmptyString) ≠ EmptyString)
      by (by apply rev_app_nonempty).
    rewrite all_digits_rev_app; [|done|by simpl; rewrite Hc].
    destruct (String.rev_app r (String c EmptyString)); [done|reflexivity]. }
  destruct (decimal_inv _ Hd) as (c' & r' & Heq & Hc' & _).
  rewrite Heq, trim_go_rev_digit by done. rewrite <- Heq. apply rev_rev.
Qed.

Lemma NonDecimalIntegerLiteral_decimal s :
  decimal s = true → NonDecimalIntegerLiteral s = None.
Proof.
  intros (c & r & -> & Hc & Hr)%decimal_inv.
  destruct r as [|c2 r2].
  - revert Hc. ascii_cases c; intros _; reflexivity.
  - simpl in Hr. apply andb_prop in Hr as [Hc2 _].
    revert Hc. ascii_cases c; intros _; try reflexivity.
    revert Hc2. ascii_cases c2; intros _; reflexivity.
Qed.

Lemma strip_sign_digit c r :
  is_digit c = true → strip_sign (String c r) = (false, String c r).
Proof. ascii_cases c; intros _; reflexivity. Qed.

Lemma not_Infinity_digit c r :
  is_digit c = true → String.eqb (String c r) "Infinity" = false.
Proof. ascii_cases c; intros _; reflexivity. Qed.

Lemma digits_of_nonempty s : decimal s = true → digits_of s ≠ [].
Proof. by intros (c & r & -> & _)%decimal_inv. Qed.

Lemma all_digits_decimal s : decimal s = true → all_digits s = true.
Proof. unfold decimal. by intros [_ H]%andb_prop. Qed.

Lemma StrUnsignedDecimalLiteral_decimal s :
  decimal s = true →
  StrUnsignedDecimalLiteral s = Some (inject_Z (decimal_value s) * 1)%Q.
Proof.
  intros Hs. unfold StrUnsignedDecimalLiteral.
  rewrite (take_digits_all s (all_digits_decimal s Hs)).
  rewrite app_nil_r. unfold decimal_value.
  pose proof (digits_of_nonempty s Hs) as Hne.
  destruct (digits_of s); [done|reflexivity].
Qed.

Lemma StringToNumber_decimal s :
  decimal s = true →
  StringToNumber s = Finite (inject_Z (decimal_value s) * 1)%Q.
Proof.
  intros Hs. unfold StringToNumber. rewrite (trim_decimal s Hs).
  rewrite (NonDecimalIntegerLiteral_decimal s Hs).
  pose proof (StrUnsignedDecimalLiteral_decimal s Hs) as Hlit.
  destruct (decimal_inv s Hs) as (c & r & -> & Hc & _).
  rewrite (strip_sign_digit c r Hc), (not_Infinity_digit c r Hc), Hlit.
  reflexivity.
Qed.

Lemma half_min_double_small : 1 < Z.pos (Qden half_min_double).
Proof. vm_compute. reflexivity. Qed.

Lemma le_zero_decimal s :
  decimal s = true → 1 ≤ decimal_value s → le_zero s = false.
Proof.
  intros Hs Hv. unfold le_zero. rewrite (StringToNumber_decimal s Hs).
  apply Bool.not_true_is_false. rewrite Qle_bool_iff. unfold Qle.
  pose proof half_min_double_small as Hsmall.
  change (Qnum half_min_double) with 1.
  cbn [Qnum Qden inject_Z Qmult].
  generalize dependent (Qden half_min_double). intros P HP. nia.
Qed.

Lemma parseInt_decimal s :
  decimal s = true → parseInt s = Number_of_integer false (decimal_value s).
Proof.
  intros Hs. unfold parseInt. rewrite (trimStart_decimal s Hs).
  pose proof (take_digits_all s (all_digits_decimal s Hs)) as Htake.
  pose proof (digits_of_nonempty s Hs) as Hne.
  destruct (decimal_inv s Hs) as (c & r & -> & Hc & Hr).
  rewrite (strip_sign_digit c r Hc).
  assert (Hradix :
    match String c r with
    | String "0" (String x r0) =>
        if Ascii.eqb x "x" || Ascii.eqb x "X" then (16, r0) else (10, String c r)
    | _ => (10, String c r)
    end = (10, String c r)).
  { destruct r as [|c2 r2].
    - revert Hc. ascii_cases c; intros _; reflexivity.
    - simpl in Hr. apply andb_prop in Hr as [Hc2 _].
      revert Hc. ascii_cases c; intros _; try reflexivity.
      revert Hc2. ascii_cases c2; intros _; reflexivity. }
  rewrite Hradix, Htake. unfold decimal_value.
  destruct (digits_of (String c r)); [done|reflexivity].
Qed.

Lemma decimal_value_nonneg_digits s :
  all_digits s = true → ∀ acc, 0 ≤ acc →
  0 ≤ fold_left (λ a d, a * 10 + d) (digits_of s) acc.
Proof.
  induction s as [|c r IH]; intros Hs acc Hacc; [done|].
  cbn [all_digits] in Hs. apply andb_prop in Hs as [Hc Hr].
  cbn [digits_of fold_left]. apply IH; [done|].
  unfold is_digit in Hc. apply andb_prop in Hc as [Hlo _]. lia.
Qed.

Lemma decimal_value_nonneg s : decimal s = true → 0 ≤ decimal_value s.
Proof.
  intros Hs. unfold decimal_value, digits_value.
  apply decimal_value_nonneg_digits; [by apply all_digits_decimal|done].
Qed.

(** ** Identifiers of 32 bits *)

Lemma Int_integer k :
  prisma.Int (Finite (inject_Z k)) =
    if (- 2 ^ 31 <=? k) && (k <? 2 ^ 31) then Ok k
    else Throw (Unexpected ValueOutOfRange).
Proof.
  unfold prisma.Int. rewrite Qfloor_Z.
  assert (Qeq_bool (inject_Z k) (inject_Z k) = true) as ->
    by (by apply Qeq_bool_iff).
  done.
Qed.

Lemma Number_of_small k :
  0 ≤ k < 2 ^ 53 → Number_of_integer false k = Finite (inject_Z k).
Proof.
  intros [Hlo Hhi]. unfold Number_of_integer, nearest_double.
  apply Z.ltb_lt in Hhi as Hhi'. rewrite Hhi'.
  assert ((2 ^ 1024 <=? k) = false) as ->; [|done].
  apply Z.leb_gt. eapply Z.lt_trans; [exact Hhi|]. by vm_compute.
Qed.

Lemma Int_of_integer k :
  0 ≤ k < 2 ^ 31 → prisma.Int (Number_of_integer false k) = Ok k.
Proof.
  intros [Hlo Hhi].
  assert (H31 : (2 ^ 31 : Z) < 2 ^ 53) by (by vm_compute).
  rewrite Number_of_small by lia. rewrite Int_integer.
  assert (((- 2 ^ 31 <=? k) && (k <? 2 ^ 31)) = true) as ->; [|done].
  apply andb_true_intro. split; [apply Z.leb_le|apply Z.ltb_lt]; lia.
Qed.

Lemma Int_decimal s :
  decimal s = true → decimal_value s < 2 ^ 31 →
  prisma.Int (parseInt s) = Ok (decimal_value s).
Proof.
  intros Hs Hv. rewrite (parseInt_decimal s Hs).
  apply Int_of_integer. split; [by apply decimal_value_nonneg|done].
Qed.

(** The client refuses a number with an error of its own. *)
Lemma Int_errors n e :
  prisma.Int n = Throw e →
  e = Unexpected ValidationError ∨ e = Unexpected ValueOutOfRange.
Proof.
  unfold prisma.Int. destruct n as [|q|neg]; [intros [= <-]; eauto| |].
  - destruct (Qeq_bool q (inject_Z (Qfloor q)));
      [|intros [= <-]; eauto].
    destruct ((- 2 ^ 31 <=? Qfloor q) && (Qfloor q <? 2 ^ 31));
      [done|intros [= <-]; eauto].
  - intros [= <-]; eauto.
Qed.

Lemma Int_Unexpected n e :
  prisma.Int n = Throw e → ∃ p, e = Unexpected p.
Proof. intros [->| ->]%Int_errors; eauto. Qed.


(** What the client takes for the id of a row is an integer of 32 bits. *)
Lemma Int_range n k :
  prisma.Int n = Ok k → - 2 ^ 31 ≤ k < 2 ^ 31.
Proof.
  unfold prisma.Int. destruct n as [|q|neg]; [done| |done].
  destruct (Qeq_bool q (inject_Z (Qfloor q))); [|done].
  destruct ((- 2 ^ 31 <=? Qfloor q) && (Qfloor q <? 2 ^ 31)) eqn:Hr; [|done].
  intros [= <-]. apply andb_prop in Hr as [Hlo Hhi].
  apply Z.leb_le in Hlo. apply Z.ltb_lt in Hhi. done.
Qed.




(** A number the client takes for an id is printed as that integer. *)
Lemma Int_Ok n k :
  prisma.Int n = Ok k → n ≠ NaN ∧ String_of_Number n = Number_toString k.
Proof.
  unfold prisma.Int. destruct n as [|q|neg]; [done| |done].
  destruct (Qeq_bool q (inject_Z (Qfloor q))); [|done].
  destruct ((- 2 ^ 31 <=? Qfloor q) && (Qfloor q <? 2 ^ 31)); [|done].
  by intros [= <-].
Qed.

Lemma uint_all_digits d :
  all_digits (DecimalString.NilEmpty.string_of_uint d) = true.
Proof. induction d; simpl; auto. Qed.

Lemma uint_value_acc d acc :
  fold_left (λ a x, a * 10 + x)
    (digits_of (DecimalString.NilEmpty.string_of_uint d)) (Z.pos acc)
  = Z.pos (Pos.of_uint_acc d acc).
Proof.
  revert acc. induction d; intros acc; simpl; [done|..];
    rewrite <- IHd; f_equal; unfold code; simpl; lia.
Qed.

Lemma uint_value d :
  decimal_value (DecimalString.NilEmpty.string_of_uint d)
  = Z.of_N (Pos.of_uint d).
Proof.
  unfold decimal_value, digits_value.
  induction d; simpl; [done|exact IHd|..]; apply uint_value_acc.
Qed.

Lemma Number_toString_pos p :
  Number_toString (Z.pos p)
  = DecimalString.NilEmpty.string_of_uint (Pos.to_uint p).
Proof.
  unfold Number_toString. simpl.
  pose proof (DecimalPos.Unsigned.to_uint_nonnil p) as Hne.
  destruct (Pos.to_uint p); [done|reflexivity..].
Qed.

(** A positive integer written out in decimal reads back as itself. *)
Lemma Number_toString_decimal n :
  1 ≤ n →
  decimal (Number_toString n) = true ∧ decimal_value (Number_toString n) = n.
Proof.
  intros Hn. destruct n as [|p|p]; [lia| |lia].
  rewrite Number_toString_pos. split.
  - unfold decimal. rewrite uint_all_digits, andb_true_r.
    pose proof (DecimalPos.Unsigned.to_uint_nonnil p) as Hne.
    destruct (Pos.to_uint p); [done|reflexivity..].
  - rewrite uint_value, DecimalPos.Unsigned.of_to. done.
Qed.

Lemma invalid_id_decimal s :
  decimal s = true → 1 ≤ decimal_value s → invalid_id s = false.
Proof.
  intros Hs Hv. unfold invalid_id, isNaN.
  rewrite (le_zero_decimal s Hs Hv), (StringToNumber_decimal s Hs).
  destruct (decimal_inv s Hs) as (c & r & -> & _). reflexivity.
Qed.

(** ** Objects and projections *)

Lemma select_lookup_in (fields : list string) (o : object) k :
  k ∈ fields → select fields o !! k = o !! k.
Proof.
  intros Hk. unfold select. destruct (o !! k) as [v|] eqn:Hv.
  - by apply map_lookup_filter_Some.
  - apply map_lookup_filter_None. by left.
Qed.

Lemma select_lookup_notin (fields : list string) (o : object) k :
  k ∉ fields → select fields o !! k = None.
Proof.
  intros Hk. unfold select. apply map_lookup_filter_None. right.
  intros v _ Hin. by apply Hk.
Qed.

Lemma to_object_id r :
  User.to_object r !! "id" = Some (VNum (inject_Z (User.id r))).
Proof. reflexivity. Qed.
Lemma to_object_nome r : User.to_object r !! "nome" = Some (VStr (User.nome r)).
Proof. reflexivity. Qed.
Lemma to_object_email r : User.to_object r !! "email" = Some (VStr (User.email r)).
Proof. reflexivity. Qed.
Lemma to_object_senha r : User.to_object r !! "senha" = Some (VStr (User.senha r)).
Proof. reflexivity. Qed.

Lemma senha_not_public : "senha" ∉ public_fields.
Proof. compute_done. Qed.

(** ** Running the service, one await at a time *)

Lemma bind_ret {A} (m : M A) db : (x <- m ;; ret x) db = m db.
Proof. unfold bind, ret. by destruct (m db) as [[a|e] db']. Qed.

Lemma find_existsb {A B} (p : A → bool) (f : A → B) l :
  bool_decide (is_Some (f <$> List.find p l)) = existsb p l.
Proof.
  induction l as [|x l IH]; simpl; [done|].
  by destruct (p x).
Qed.

Lemma emailExists_text e db :
  emailExists (VStr e) db =
    if storable e then (Ok (existsb (email_is e) (users db)), db)
    else (Throw (Unexpected InvalidByteSequence), db).
Proof.
  unfold emailExists, bind, prisma.user.findUnique, ret. simpl.
  destruct (storable e); [|done]. by rewrite find_existsb.
Qed.

Lemma emailExists_not_text v db :
  prisma.user.text v = None →
  emailExists v db = (Throw (Unexpected ValidationError), db).
Proof. by destruct v. Qed.

Lemma resolve_Int n k :
  prisma.Int n = Ok k →
  prisma.user.resolve (prisma.user.where_id n) = Ok (id_is k).
Proof. intros Hn. unfold prisma.user.resolve. by rewrite Hn. Qed.

Lemma resolve_not_Int n e :
  prisma.Int n = Throw e →
  prisma.user.resolve (prisma.user.where_id n) = Throw e.
Proof. intros Hn. unfold prisma.user.resolve. by rewrite Hn. Qed.

Lemma getUserById_unfold userId db :
  getUserById userId db =
    if invalid_id userId then (Throw InvalidInput, db)
    else
      match prisma.Int (parseInt userId) with
      | Ok k =>
          match List.find (id_is k) (users db) with
          | Some r => (Ok (Some (select public_fields (User.to_object r))), db)
          | None => (Ok None, db)
          end
      | Throw e => (Throw e, db)
      end.
Proof.
  unfold getUserById. destruct (invalid_id userId); [done|].
  rewrite bind_ret. unfold prisma.user.findUnique, prisma.user.resolve.
  destruct (prisma.Int (parseInt userId)) as [k|e0]; [|done].
  by destruct (List.find (id_is k) (users db)).
Qed.

Lemma createUser_unfold now userData db :
  createUser now userData db =
    if negb (truthy (get userData "nome")) || negb (truthy (get userData "email"))
       || negb (truthy (get userData "senha"))
    then (Throw MissingFields, db)
    else
      match get userData "email" with
      | VStr e =>
          if negb (storable e)
          then (Throw (Unexpected InvalidByteSequence), db)
          else if existsb (email_is e) (users db)
          then (Throw DuplicateEmail, db)
          else prisma.user.create (create_data userData) (Some public_fields)
                 now db
      | _ => (Throw (Unexpected ValidationError), db)
      end.
Proof.
  unfold createUser, validateUserData.
  unfold bind at 1.
  destruct (negb (truthy (get userData "nome")) || _ || _); [done|].
  unfold ret at 1. unfold bind at 1.
  destruct (get userData "email") as [| | | |e|] eqn:He; try done.
  rewrite emailExists_text.
  destruct (storable e); [|done]. cbn [negb].
  destruct (existsb (email_is e) (users db)); [done|].
  by rewrite bind_ret.
Qed.

Lemma get_dados_truthy userData k :
  k ∈ ["nome"; "email"; "senha"; "papel"] →
  get (dadosAtualizacao userData) k =
    if truthy (get userData k) then get userData k else VUndefined.
Proof.
  intros Hk. unfold dadosAtualizacao, assign_if_defined, assign_if_truthy, get.
  repeat (apply elem_of_cons in Hk as [->|Hk]);
    [..|by apply elem_of_nil in Hk];
    repeat case_match; simplify_map_eq; done.
Qed.

Lemma get_dados_foto userData :
  get (dadosAtualizacao userData) "foto" = get userData "foto".
Proof.
  unfold dadosAtualizacao, assign_if_defined, assign_if_truthy, get.
  repeat case_match; simplify_map_eq; try done;
    by destruct (userData !! "foto") as [[]|].
Qed.

(** ** Rows and keys *)

Lemma find_id_Some l k r :
  List.find (id_is k) l = Some r → r ∈ l ∧ User.id r = k.
Proof.
  intros [Hin Hk]%find_some. split; [by apply list_elem_of_In|].
  unfold id_is in Hk. lia.
Qed.

Lemma find_id_None l k :
  List.find (id_is k) l = None ↔ ∀ r, r ∈ l → User.id r ≠ k.
Proof.
  split.
  - intros Hnone r Hin%list_elem_of_In Hk.
    pose proof (find_none _ _ Hnone r Hin) as Hf. unfold id_is in Hf. lia.
  - intros Hall. destruct (List.find (id_is k) l) as [r|] eqn:Hf; [|done].
    apply find_id_Some in Hf as [Hin Hk]. by destruct (Hall r Hin).
Qed.

Lemma existsb_email l e :
  existsb (email_is e) l = true ↔ ∃ r, r ∈ l ∧ User.email r = e.
Proof.
  rewrite existsb_exists. unfold email_is.
  split; intros (r & Hin & Heq); exists r;
    apply list_elem_of_In in Hin; apply String.eqb_eq in Heq; done.
Qed.

Lemma existsb_email_false l e :
  existsb (email_is e) l = false ↔ ∀ r, r ∈ l → User.email r ≠ e.
Proof.
  rewrite <- Bool.not_true_iff_false, existsb_email. split.
  - intros Hno r Hin He. apply Hno. eauto.
  - intros Hall (r & Hin & He). by apply (Hall r).
Qed.

(** Where the row of a primary key sits in the table. *)
Lemma find_id_split l k r :
  NoDup (User.id <$> l) → List.find (id_is k) l = Some r →
  ∃ l1 l2, l = l1 ++ r :: l2 ∧ User.id r = k
           ∧ Forall (λ x, id_is k x = false) l1
           ∧ Forall (λ x, id_is k x = false) l2.
Proof.
  induction l as [|x l IH]; simpl; [done|].
  intros [Hx Hnd]%NoDup_cons Hfind.
  destruct (id_is k x) eqn:Hkx.
  - injection Hfind as ->. exists [], l. unfold id_is in Hkx.
    split_and!; [done|lia|constructor|].
    apply Forall_forall. intros y Hy. unfold id_is.
    apply Z.eqb_neq. intros Heq. apply Hx.
    apply list_elem_of_fmap. exists y. split; [lia|done].
  - destruct (IH Hnd Hfind) as (l1 & l2 & -> & Hk & H1 & H2).
    exists (x :: l1), l2. split_and!; [done|done|by constructor|done].
Qed.

Lemma replace_at_split (p : User.t → bool) l1 l2 r r' :
  Forall (λ x, p x = false) l1 → Forall (λ x, p x = false) l2 → p r = true →
  (λ x, if p x then r' else x) <$> (l1 ++ r :: l2) = l1 ++ r' :: l2.
Proof.
  intros H1 H2 Hr.
  assert (Hid : ∀ l, Forall (λ x, p x = false) l →
                     (λ x, if p x then r' else x) <$> l = l).
  { induction 1 as [|x l Hx _ IH]; csimpl; [done|]. by rewrite Hx, IH. }
  rewrite fmap_app, fmap_cons, Hr, !Hid by done. done.
Qed.

Lemma remove_at_split (p : User.t → bool) l1 l2 r :
  Forall (λ x, p x = false) l1 → Forall (λ x, p x = false) l2 → p r = true →
  List.filter (λ x, negb (p x)) (l1 ++ r :: l2) = l1 ++ l2.
Proof.
  intros H1 H2 Hr.
  assert (Hid : ∀ l, Forall (λ x, p x = false) l →
                     List.filter (λ x, negb (p x)) l = l).
  { induction 1 as [|x l Hx _ IH]; simpl; [done|]. by rewrite Hx, IH. }
  rewrite List.filter_app. simpl. rewrite Hr, !Hid by done. done.
Qed.

(** ** Consistent databases *)

Lemma empty_store_ok : store_ok empty_store.
Proof. split; simpl; try constructor; lia. Qed.

(** ** What an update writes *)

Lemma set_text_dados userData k old :
  k ∈ ["nome"; "email"; "senha"; "papel"] →
  prisma.user.set_text (get (dadosAtualizacao userData) k) old =
    if ok_text (get userData k) then Some (merge_text (get userData k) old)
    else None.
Proof.
  intros Hk. rewrite (get_dados_truthy userData k Hk). unfold ok_text.
  destruct (get userData k) as [| |[]|q|s|]; simpl; try done.
  - by destruct (Qeq_bool q 0).
  - by destruct (String.eqb s EmptyString).
Qed.

Lemma set_foto_dados userData old :
  prisma.user.set_nullable_text (get (dadosAtualizacao userData) "foto") old =
    if text_or_nothing (get userData "foto")
    then Some (merge_foto (get userData "foto") old) else None.
Proof. rewrite get_dados_foto. by destruct (get userData "foto"). Qed.

Lemma clean_passed_on v :
  clean (if truthy v then v else VUndefined) = clean v.
Proof.
  destruct v as [| |[]|q|s|]; simpl; try done.
  - by destruct (Qeq_bool q 0).
  - by destruct s.
Qed.

Lemma clean_dados userData :
  all_clean (dadosAtualizacao userData) = all_clean userData.
Proof.
  unfold all_clean, columns. cbn [forallb].
  rewrite !get_dados_truthy, get_dados_foto by compute_done.
  by rewrite !clean_passed_on.
Qed.

Lemma written_passed_on v :
  strict_ne (if truthy v then v else VUndefined) VUndefined = truthy v.
Proof.
  destruct v as [| |[]|q|s|]; simpl; try done.
  - by destruct (Qeq_bool q 0).
  - by destruct (String.eqb s EmptyString).
Qed.

Lemma writes_dados userData :
  writes (dadosAtualizacao userData) = merges userData.
Proof.
  unfold writes, merges, columns. cbn [existsb].
  rewrite !get_dados_truthy, get_dados_foto by compute_done.
  rewrite !written_passed_on. by rewrite orb_false_r, !orb_assoc.
Qed.

(** A falsy value has no NUL character: only bodies that pass a field on
    can be refused for one. *)
Lemma falsy_clean v : truthy v = false → clean v = true.
Proof. destruct v as [| |[]|q|s|]; simpl; try done. by destruct s. Qed.

Lemma unclean_merges userData :
  all_clean userData = false → merges userData = true.
Proof.
  unfold all_clean, merges, columns. cbn [forallb].
  destruct (truthy (get userData "nome")) eqn:Hn; [done|].
  destruct (truthy (get userData "email")) eqn:He; [done|].
  destruct (truthy (get userData "senha")) eqn:Hs; [done|].
  destruct (truthy (get userData "papel")) eqn:Hp; [done|].
  rewrite !falsy_clean by done. cbn [andb orb].
  by destruct (get userData "foto").
Qed.

(** A row is what an update that passes no field on leaves. *)
Lemma merge_nothing userData now r :
  merges userData = false → merge userData now r = r.
Proof.
  intros Hm. unfold merge. rewrite Hm. unfold merges in Hm.
  apply orb_false_elim in Hm as [Hm Hfoto].
  apply orb_false_elim in Hm as [Hm Hpapel].
  apply orb_false_elim in Hm as [Hm Hsenha].
  apply orb_false_elim in Hm as [Hnome Hemail].
  assert (Htext : ∀ v old, truthy v = false → merge_text v old = old).
  { intros v old Hv. unfold merge_text. destruct v; try done. by rewrite Hv. }
  rewrite !Htext by done.
  destruct (get userData "foto"); try done. by destruct r.
Qed.

Lemma update_found w k data sel now db r :
  prisma.user.resolve w = Ok (id_is k) →
  List.find (id_is k) (users db) = Some r →
  prisma.user.update w data sel now db =
    match prisma.user.set_text (get data "nome") (User.nome r),
          prisma.user.set_text (get data "email") (User.email r),
          prisma.user.set_text (get data "senha") (User.senha r),
          prisma.user.set_text (get data "papel") (User.papel r),
          prisma.user.set_nullable_text (get data "foto") (User.foto r) with
    | Some n, Some e, Some s, Some pa, Some f =>
        if negb (writes data) then (Ok (prisma.user.project sel r), db)
        else if negb (all_clean data)
        then (Throw (Unexpected InvalidByteSequence), db)
        else
          let r' := User.make (User.id r) n e s f pa (User.createdAt r) now in
          if existsb (λ x, negb (id_is k x) && email_is e x) (users db)
          then (Throw (Unexpected UniqueConstraintFailed), db)
          else
            (Ok (prisma.user.project sel r'),
             {| users := (λ x, if id_is k x then r' else x) <$> users db;
                users_id_seq := users_id_seq db |})
    | _, _, _, _, _ => (Throw (Unexpected ValidationError), db)
    end.
Proof.
  intros Hw Hfind. unfold prisma.user.update. by rewrite Hw, Hfind.
Qed.

Lemma update_dados w k userData sel now db r :
  prisma.user.resolve w = Ok (id_is k) →
  List.find (id_is k) (users db) = Some r →
  prisma.user.update w (dadosAtualizacao userData) sel now db =
    if acceptable userData then
      if merges userData then
        if existsb
             (λ x, negb (id_is k x)
                   && email_is (User.email (merge userData now r)) x)
             (users db)
        then (Throw (Unexpected UniqueConstraintFailed), db)
        else
          (Ok (prisma.user.project sel (merge userData now r)),
           {| users := (λ x, if id_is k x then merge userData now r else x)
                         <$> users db;
              users_id_seq := users_id_seq db |})
      else (Ok (prisma.user.project sel r), db)
    else
      (Throw (Unexpected (if typed_update userData then InvalidByteSequence
                          else ValidationError)), db).
Proof.
  intros Hw Hfind. rewrite (update_found w k _ sel now db r Hw Hfind).
  rewrite !set_text_dados, set_foto_dados by compute_done.
  rewrite writes_dados, clean_dados.
  unfold acceptable, typed_update.
  destruct (ok_text (get userData "nome")); [|done].
  destruct (ok_text (get userData "email")); [|done].
  destruct (ok_text (get userData "senha")); [|done].
  destruct (ok_text (get userData "papel")); [|done].
  destruct (text_or_nothing (get userData "foto")); [|done].
  cbn [andb]. destruct (all_clean userData) eqn:Hclean.
  - destruct (merges userData) eqn:Hm; [|done]. cbn [negb].
    unfold merge. by rewrite Hm.
  - by rewrite (unclean_merges userData Hclean).
Qed.

Lemma updateUser_unfold now userId userData db :
  updateUser now userId userData db =
    if invalid_id userId then (Throw InvalidInput, db)
    else
      match prisma.Int (parseInt userId) with
      | Throw e => (Throw e, db)
      | Ok k =>
          match List.find (id_is k) (users db) with
          | None => (Throw (NotFound userId), db)
          | Some r =>
              if truthy (get userData "email")
                 && strict_ne (get userData "email") (VStr (User.email r))
              then
                match get userData "email" with
                | VStr e =>
                    if negb (storable e)
                    then (Throw (Unexpected InvalidByteSequence), db)
                    else if existsb (email_is e) (users db)
                    then (Throw EmailInUse, db)
                    else prisma.user.update
                           (prisma.user.where_id (parseInt userId))
                           (dadosAtualizacao userData)
                           (Some updated_fields) now db
                | _ => (Throw (Unexpected ValidationError), db)
                end
              else prisma.user.update (prisma.user.where_id (parseInt userId))
                     (dadosAtualizacao userData) (Some updated_fields) now db
          end
      end.
Proof.
  unfold updateUser. destruct (invalid_id userId); [done|].
  unfold bind at 1, prisma.user.findUnique at 1.
  unfold prisma.user.resolve at 1.
  destruct (prisma.Int (parseInt userId)) as [k|e0]; [|done].
  destruct (List.find (id_is k) (users db)) as [r|]; [|done].
  change (prisma.user.project None <$> Some r) with (Some (User.to_object r)).
  cbv iota beta.
  change (get (User.to_object r) "email") with (VStr (User.email r)).
  unfold bind at 1.
  destruct (truthy (get userData "email")
            && strict_ne (get userData "email") (VStr (User.email r))).
  - destruct (get userData "email") as [| | | |e|] eqn:He; try done.
    unfold bind at 1. rewrite emailExists_text.
    destruct (storable e); [|done]. cbn [negb].
    destruct (existsb (email_is e) (users db)); [done|].
    unfold ret at 1. apply bind_ret.
  - unfold ret at 1. apply bind_ret.
Qed.

Lemma deleteUser_unfold userId db :
  deleteUser userId db =
    if invalid_id userId then (Throw InvalidInput, db)
    else
      match prisma.Int (parseInt userId) with
      | Throw e => (Throw e, db)
      | Ok k =>
          match List.find (id_is k) (users db) with
          | None => (Throw (NotFound userId), db)
          | Some r =>
              (Ok (select ["id"; "nome"; "email"] (User.to_object r)),
               {| users := List.filter (λ x, negb (id_is k x)) (users db);
                  users_id_seq := users_id_seq db |})
          end
      end.
Proof.
  unfold deleteUser. destruct (invalid_id userId); [done|].
  unfold bind at 1, prisma.user.findUnique at 1.
  destruct (prisma.Int (parseInt userId)) as [k|e0] eqn:Hint;
    [|by rewrite (resolve_not_Int _ _ Hint)].
  rewrite (resolve_Int _ _ Hint).
  destruct (List.find (id_is k) (users db)) as [r|] eqn:Hr; [|done].
  unfold bind, prisma.user.delete, ret.
  rewrite (resolve_Int _ _ Hint).
  change (prisma.user.project (Some ["id"; "nome"; "email"]) <$> Some r)
    with (Some (select ["id"; "nome"; "email"] (User.to_object r))).
  cbv iota beta. by rewrite Hr.
Qed.

(** ** What a create writes *)

Lemma papel_default v :
  prisma.user.text_or_default (js_or v (VStr "PROFESSOR")) "PROFESSOR" =
    if ok_text v then Some (text_of (js_or v (VStr "PROFESSOR"))) else None.
Proof.
  unfold js_or, ok_text. destruct v as [| |[]|q|s|]; simpl; try done.
  - by destruct (Qeq_bool q 0).
  - by destruct (String.eqb s EmptyString).
Qed.

Lemma foto_default v :
  prisma.user.nullable_text (js_or v VNull) =
    if ok_text v
    then Some (match js_or v VNull with VStr f => Some f | _ => None end)
    else None.
Proof.
  unfold js_or, ok_text. destruct v as [| |[]|q|s|]; simpl; try done.
  - by destruct (Qeq_bool q 0).
  - by destruct (String.eqb s EmptyString).
Qed.

Lemma clean_js_or v d : clean d = true → clean (js_or v d) = clean v.
Proof.
  intros Hd. unfold js_or. destruct (truthy v) eqn:Hv; [done|].
  by rewrite Hd, falsy_clean.
Qed.

Lemma clean_create_data userData :
  all_clean (create_data userData) = all_clean userData.
Proof.
  unfold all_clean, columns. cbn [forallb].
  change (get (create_data userData) "nome") with (get userData "nome").
  change (get (create_data userData) "email") with (get userData "email").
  change (get (create_data userData) "senha") with (get userData "senha").
  change (get (create_data userData) "papel")
    with (js_or (get userData "papel") (VStr "PROFESSOR")).
  change (get (create_data userData) "foto")
    with (js_or (get userData "foto") VNull).
  by rewrite !clean_js_or.
Qed.

Lemma create_create_data userData sel now db :
  prisma.user.create (create_data userData) sel now db =
    if is_text (get userData "nome") && is_text (get userData "email")
       && is_text (get userData "senha") && ok_text (get userData "papel")
       && ok_text (get userData "foto")
    then
      if negb (all_clean userData)
      then (Throw (Unexpected InvalidByteSequence), db)
      else if negb (users_id_seq db <? 2 ^ 31)
      then (Throw (Unexpected SequenceExhausted), db)
      else if existsb (email_is (text_of (get userData "email"))) (users db)
      then (Throw (Unexpected UniqueConstraintFailed), db)
      else (Ok (prisma.user.project sel (new_row userData now db)),
            insert_row (new_row userData now db) db)
    else (Throw (Unexpected ValidationError), db).
Proof.
  unfold prisma.user.create. rewrite clean_create_data.
  change (get (create_data userData) "nome") with (get userData "nome").
  change (get (create_data userData) "email") with (get userData "email").
  change (get (create_data userData) "senha") with (get userData "senha").
  change (get (create_data userData) "papel")
    with (js_or (get userData "papel") (VStr "PROFESSOR")).
  change (get (create_data userData) "foto")
    with (js_or (get userData "foto") VNull).
  rewrite papel_default, foto_default. unfold new_row.
  destruct (get userData "nome"); try done.
  destruct (get userData "email"); try done.
  destruct (get userData "senha"); try done.
  destruct (ok_text (get userData "papel")); [|done].
  destruct (ok_text (get userData "foto")); done.
Qed.

Lemma createUser_run now userData db :
  createUser now userData db =
    if negb (truthy (get userData "nome")) || negb (truthy (get userData "email"))
       || negb (truthy (get userData "senha"))
    then (Throw MissingFields, db)
    else if negb (is_text (get userData "email"))
    then (Throw (Unexpected ValidationError), db)
    else if negb (storable (text_of (get userData "email")))
    then (Throw (Unexpected InvalidByteSequence), db)
    else if existsb (email_is (text_of (get userData "email"))) (users db)
    then (Throw DuplicateEmail, db)
    else if is_text (get userData "nome") && is_text (get userData "senha")
            && ok_text (get userData "papel") && ok_text (get userData "foto")
    then
      if negb (all_clean userData)
      then (Throw (Unexpected InvalidByteSequence), db)
      else if negb (users_id_seq db <? 2 ^ 31)
      then (Throw (Unexpected SequenceExhausted), db)
      else
        (Ok (select public_fields (User.to_object (new_row userData now db))),
         insert_row (new_row userData now db) db)
    else (Throw (Unexpected ValidationError), db).
Proof.
  rewrite createUser_unfold.
  destruct (negb (truthy (get userData "nome")) || _ || _); [done|].
  pose proof (create_create_data userData (Some public_fields) now db) as Hc.
  destruct (get userData "email") as [| | | |e|] eqn:He; try done.
  cbn [is_text negb text_of] in *.
  destruct (storable e); [|done]. cbn [negb].
  destruct (existsb (email_is e) (users db)); [done|].
  rewrite Hc, andb_true_r.
  destruct (is_text (get userData "nome") && is_text (get userData "senha")
            && ok_text (get userData "papel") && ok_text (get userData "foto"));
    [|done].
  destruct (negb (all_clean userData)); [done|].
  by destruct (negb (users_id_seq db <? 2 ^ 31)).
Qed.

(** ** The constraints are kept *)

Lemma store_ok_insert db r :
  store_ok db → User.id r = users_id_seq db → User.email r ≠ EmptyString →
  (∀ x, x ∈ users db → User.email x ≠ User.email r) →
  store_ok (insert_row r db).
Proof.
  intros [Hids Hiss Hseq Hem Hgiv] Hid Hne Hfresh. split; simpl.
  - rewrite fmap_app. apply NoDup_app. split_and!; [done| |apply NoDup_singleton].
    intros i Hi ->%list_elem_of_singleton.
    apply list_elem_of_fmap in Hi as (x & Hx & Hin).
    rewrite Forall_forall in Hiss. specialize (Hiss x Hin). lia.
  - apply Forall_app. split.
    + eapply Forall_impl; [exact Hiss|]. intros x Hx. simpl in Hx. lia.
    + apply Forall_singleton. lia.
  - lia.
  - rewrite fmap_app. apply NoDup_app. split_and!; [done| |apply NoDup_singleton].
    intros e He ->%list_elem_of_singleton.
    apply list_elem_of_fmap in He as (x & Hx & Hin). by apply (Hfresh x Hin).
  - apply Forall_app. split; [done|by apply Forall_singleton].
Qed.

Lemma store_ok_replace l1 l2 r r' seq :
  store_ok {| users := l1 ++ r :: l2; users_id_seq := seq |} →
  User.id r' = User.id r → User.email r' ≠ EmptyString →
  (∀ x, x ∈ l1 ++ l2 → User.email x ≠ User.email r') →
  store_ok {| users := l1 ++ r' :: l2; users_id_seq := seq |}.
Proof.
  intros [Hids Hiss Hseq Hem Hgiv] Hid Hne Hfresh. simpl in *. split; simpl.
  - rewrite fmap_app, fmap_cons in *. by rewrite Hid.
  - apply Forall_app in Hiss as [H1 [Hr H2]%Forall_cons].
    apply Forall_app. split; [done|]. apply Forall_cons. split; [lia|done].
  - done.
  - rewrite fmap_app, fmap_cons in *.
    apply NoDup_app in Hem as (Hn1 & Hdisj & [Hr Hn2]%NoDup_cons).
    apply NoDup_app. split_and!; [done| |].
    + intros e He [->|He2]%elem_of_cons.
      * apply list_elem_of_fmap in He as (x & Hx & Hin).
        apply (Hfresh x); [apply elem_of_app; by left|done].
      * apply (Hdisj e He). by right.
    + apply NoDup_cons. split; [|done].
      intros (x & Hx & Hin)%list_elem_of_fmap.
      apply (Hfresh x); [apply elem_of_app; by right|done].
  - apply Forall_app in Hgiv as [H1 [Hr H2]%Forall_cons].
    apply Forall_app. split; [done|]. by apply Forall_cons.
Qed.

Lemma store_ok_remove l1 l2 r seq :
  store_ok {| users := l1 ++ r :: l2; users_id_seq := seq |} →
  store_ok {| users := l1 ++ l2; users_id_seq := seq |}.
Proof.
  intros [Hids Hiss Hseq Hem Hgiv]. simpl in *. split; simpl.
  - rewrite fmap_app, fmap_cons in *.
    apply NoDup_app in Hids as (Hn1 & Hdisj & [Hr Hn2]%NoDup_cons).
    apply NoDup_app. split_and!; [done| |done].
    intros e He He2. apply (Hdisj e He). by right.
  - apply Forall_app in Hiss as [H1 [Hr H2]%Forall_cons].
    apply Forall_app. by split.
  - done.
  - rewrite fmap_app, fmap_cons in *.
    apply NoDup_app in Hem as (Hn1 & Hdisj & [Hr Hn2]%NoDup_cons).
    apply NoDup_app. split_and!; [done| |done].
    intros e He He2. apply (Hdisj e He). by right.
  - apply Forall_app in Hgiv as [H1 [Hr H2]%Forall_cons].
    apply Forall_app. by split.
Qed.

(** In a consistent table no other row has the email of [r]. *)
Lemma email_owner l1 l2 r seq x :
  store_ok {| users := l1 ++ r :: l2; users_id_seq := seq |} →
  x ∈ l1 ++ l2 → User.email x ≠ User.email r.
Proof.
  intros [_ _ _ Hem _] Hin Heq. simpl in Hem.
  rewrite fmap_app, fmap_cons in Hem.
  apply NoDup_app in Hem as (Hn1 & Hdisj & [Hr Hn2]%NoDup_cons).
  apply elem_of_app in Hin as [Hin|Hin].
  - apply (Hdisj (User.email x)); [by apply list_elem_of_fmap_2|].
    rewrite Heq. by left.
  - apply Hr. rewrite <- Heq. by apply list_elem_of_fmap_2.
Qed.

Lemma merge_text_given v old : old ≠ EmptyString → merge_text v old ≠ EmptyString.
Proof.
  intros Hold. destruct v as [| | | |s|]; simpl; try done.
  destruct (String.eqb s EmptyString) eqn:Hs; simpl; [done|].
  by apply String.eqb_neq in Hs.
Qed.

Lemma split_others k (l1 l2 : list User.t) x :
  Forall (λ y, id_is k y = false) l1 → Forall (λ y, id_is k y = false) l2 →
  x ∈ l1 ++ l2 → id_is k x = false.
Proof.
  intros H1 H2 Hin. rewrite Forall_forall in H1, H2.
  apply elem_of_app in Hin as [Hin|Hin]; auto.
Qed.

(** ** Outcomes of the writes *)

Lemma update_dados_cases w k userData now db r l1 l2 :
  store_ok db → prisma.user.resolve w = Ok (id_is k) →
  users db = l1 ++ r :: l2 → id_is k r = true →
  Forall (λ x, id_is k x = false) l1 → Forall (λ x, id_is k x = false) l2 →
  List.find (id_is k) (users db) = Some r →
  let m := merge userData now r in
  let run := prisma.user.update w
               (dadosAtualizacao userData) (Some updated_fields) now db in
  (∃ e, run = (Throw (Unexpected e), db))
  ∨ (acceptable userData = true
     ∧ (∀ x, x ∈ l1 ++ l2 → User.email x ≠ User.email m)
     ∧ run = (Ok (select updated_fields (User.to_object m)),
              {| users := l1 ++ m :: l2; users_id_seq := users_id_seq db |})).
Proof.
  intros Hok Hw Hl Hr H1 H2 Hfind m run. unfold run.
  rewrite (update_dados w k userData _ now db r Hw Hfind). fold m.
  destruct (acceptable userData); [|left; eauto].
  destruct (merges userData) eqn:Hm; cycle 1.
  { right. unfold m. rewrite (merge_nothing _ _ _ Hm).
    destruct db as [us seq]. simpl in *. subst us.
    split_and!; [done| |done].
    intros x Hin. by apply (email_owner l1 l2 r seq). }
  destruct (existsb _ (users db)) eqn:Hex; [left; eauto|].
  right. split; [done|]. split.
  - intros x Hin Heq.
    assert (Hx : x ∈ users db).
    { rewrite Hl. apply elem_of_app in Hin as [Hin|Hin];
        apply elem_of_app; [by left|right; by right]. }
    apply list_elem_of_In in Hx.
    apply Bool.not_true_iff_false in Hex.
    apply Hex, existsb_exists. exists x. split; [done|].
    rewrite (split_others k l1 l2 x H1 H2 Hin). simpl.
    unfold email_is. by apply String.eqb_eq.
  - simpl. rewrite Hl, (replace_at_split (id_is k) l1 l2 r m); done.
Qed.

Lemma updateUser_cases now userId userData db :
  store_ok db →
  (∃ e, updateUser now userId userData db = (Throw e, db))
  ∨ (∃ k r l1 l2,
       invalid_id userId = false ∧ prisma.Int (parseInt userId) = Ok k
       ∧ users db = l1 ++ r :: l2 ∧ User.id r = k
       ∧ acceptable userData = true
       ∧ (∀ x, x ∈ l1 ++ l2 →
               User.email x ≠ User.email (merge userData now r))
       ∧ updateUser now userId userData db =
           (Ok (select updated_fields (User.to_object (merge userData now r))),
            {| users := l1 ++ merge userData now r :: l2;
               users_id_seq := users_id_seq db |})).
Proof.
  intros Hok. rewrite updateUser_unfold.
  destruct (invalid_id userId); [left; eauto|].
  destruct (prisma.Int (parseInt userId)) as [k|e0] eqn:Hint; [|left; eauto].
  destruct (List.find (id_is k) (users db)) as [r|] eqn:Hfind; [|left; eauto].
  destruct (find_id_split _ k r (ids_unique db Hok) Hfind)
    as (l1 & l2 & Hl & Hk & H1 & H2).
  assert (Hr : id_is k r = true) by (unfold id_is; lia).
  pose proof (update_dados_cases _ k userData now db r l1 l2 Hok
                (resolve_Int _ _ Hint) Hl Hr H1 H2 Hfind) as Hupd.
  cbv zeta in Hupd.
  assert (Hgoal :
    (∃ e, prisma.user.update (prisma.user.where_id (parseInt userId))
            (dadosAtualizacao userData) (Some updated_fields) now db
          = (Throw e, db))
    ∨ (∃ k0 r0 l3 l4,
         false = false ∧ Ok k = Ok k0
         ∧ users db = l3 ++ r0 :: l4
         ∧ User.id r0 = k0 ∧ acceptable userData = true
         ∧ (∀ x, x ∈ l3 ++ l4 →
                 User.email x ≠ User.email (merge userData now r0))
         ∧ prisma.user.update (prisma.user.where_id (parseInt userId))
             (dadosAtualizacao userData) (Some updated_fields) now db =
             (Ok (select updated_fields
                    (User.to_object (merge userData now r0))),
              {| users := l3 ++ merge userData now r0 :: l4;
                 users_id_seq := users_id_seq db |}))).
  { destruct Hupd as [[e He]|(Hacc & Hfree & Hrun)]; [left; eauto|].
    right. exists k, r, l1, l2. done. }
  destruct (truthy (get userData "email") && _); [|done].
  destruct (get userData "email") as [| | | |e|]; try (left; eauto; fail).
  destruct (storable e); cbn [negb]; [|left; eauto].
  destruct (existsb _ (users db)); [left; eauto|done].
Qed.

Lemma deleteUser_cases userId db :
  store_ok db →
  (∃ e, deleteUser userId db = (Throw e, db))
  ∨ (∃ k r l1 l2,
       invalid_id userId = false ∧ prisma.Int (parseInt userId) = Ok k
       ∧ users db = l1 ++ r :: l2 ∧ User.id r = k
       ∧ (∀ x, x ∈ l1 ++ l2 → User.id x ≠ k)
       ∧ deleteUser userId db =
           (Ok (select ["id"; "nome"; "email"] (User.to_object r)),
            {| users := l1 ++ l2; users_id_seq := users_id_seq db |})).
Proof.
  intros Hok. rewrite deleteUser_unfold.
  destruct (invalid_id userId); [left; eauto|].
  destruct (prisma.Int (parseInt userId)) as [k|e0]; [|left; eauto].
  destruct (List.find (id_is k) (users db)) as [r|] eqn:Hfind; [|left; eauto].
  destruct (find_id_split _ k r (ids_unique db Hok) Hfind)
    as (l1 & l2 & Hl & Hk & H1 & H2).
  assert (Hr : id_is k r = true) by (unfold id_is; lia).
  right. exists k, r, l1, l2. split_and!; try done.
  - intros x Hin. pose proof (split_others k l1 l2 x H1 H2 Hin) as Hx.
    unfold id_is in Hx. lia.
  - by rewrite Hl, (remove_at_split (id_is k) l1 l2 r).
Qed.

Lemma createUser_cases now userData db :
  (∃ e, createUser now userData db = (Throw e, db))
  ∨ (User.email (new_row userData now db) ≠ EmptyString
     ∧ (∀ x, x ∈ users db →
             User.email x ≠ User.email (new_row userData now db))
     ∧ createUser now userData db =
         (Ok (select public_fields (User.to_object (new_row userData now db))),
          insert_row (new_row userData now db) db)).
Proof.
  rewrite createUser_run.
  destruct (negb (truthy (get userData "nome")) || _ || _) eqn:Hreq;
    [left; eauto|].
  destruct (negb (is_text (get userData "email"))) eqn:Htext; [left; eauto|].
  destruct (negb (storable _)); [left; eauto|].
  destruct (existsb _ (users db)) eqn:Hex; [left; eauto|].
  destruct (is_text (get userData "nome") && _ && _ && _); [|left; eauto].
  destruct (negb (all_clean userData)); [left; eauto|].
  destruct (negb (users_id_seq db <? 2 ^ 31)); [left; eauto|].
  right. split; [|split; [by apply existsb_email_false|done]].
  apply orb_false_elim in Hreq as [[_ He]%orb_false_elim _].
  apply negb_false_iff in He. unfold new_row. cbn [User.email].
  destruct (get userData "email") as [| | | |e|]; try done.
  simpl in He. apply negb_true_iff, String.eqb_neq in He. done.
Qed.

(** ** The operations at work *)

Example ids_rejected :
  invalid_id EmptyString = true ∧ invalid_id "abc" = true
  ∧ invalid_id "0" = true ∧ invalid_id "-3" = true
  ∧ invalid_id "12px" = true ∧ invalid_id "1e-400" = true.
Proof. repeat split; vm_compute; reflexivity. Qed.

Example ids_accepted :
  (invalid_id "7" = false ∧ prisma.Int (parseInt "7") = Ok 7)
  ∧ (invalid_id " 42 " = false ∧ prisma.Int (parseInt " 42 ") = Ok 42)
  ∧ (invalid_id "1.5" = false ∧ prisma.Int (parseInt "1.5") = Ok 1)
  ∧ (invalid_id "0.5" = false ∧ prisma.Int (parseInt "0.5") = Ok 0)
  ∧ (invalid_id "1e3" = false ∧ prisma.Int (parseInt "1e3") = Ok 1)
  ∧ (invalid_id "0x10" = false ∧ prisma.Int (parseInt "0x10") = Ok 16)
  ∧ (invalid_id "2147483647" = false
     ∧ prisma.Int (parseInt "2147483647") = Ok 2147483647)
  ∧ (invalid_id "2147483648" = false
     ∧ prisma.Int (parseInt "2147483648")
       = Throw (Unexpected ValueOutOfRange))
  ∧ (invalid_id "9007199254740993" = false
     ∧ parseInt "9007199254740993" = Finite (inject_Z 9007199254740992))
  ∧ (invalid_id "Infinity" = false ∧ parseInt "Infinity" = NaN).
Proof. repeat split; vm_compute; reflexivity. Qed.

(** The scenario of the specification: a user is created, a second one
    with the same email is refused, the first is renamed, removed, and
    then no longer found. *)
Example scenario :
  let body : object :=
    list_to_map
      [ ("nome", VStr "A"); ("email", VStr "a@x.com");
        ("senha", VStr "secret1") ] in
  let a := User.make 1 "A" "a@x.com" "secret1" None "PROFESSOR" 1000 1000 in
  let b := User.make 1 "B" "a@x.com" "secret1" None "PROFESSOR" 1000 3000 in
  let db1 := {| users := [a]; users_id_seq := 2 |} in
  let db2 := {| users := [b]; users_id_seq := 2 |} in
  let db3 := {| users := []; users_id_seq := 2 |} in
  createUser 1000 body empty_store
  = (Ok (select public_fields (User.to_object a)), db1)
  ∧ createUser 2000 body db1 = (Throw DuplicateEmail, db1)
  ∧ updateUser 3000 "1" {["nome" := VStr "B"]} db1
    = (Ok (select updated_fields (User.to_object b)), db2)
  ∧ deleteUser "1" db2 = (Ok (snapshot b), db3)
  ∧ getUserById "1" db3 = (Ok None, db3)
  ∧ status (getById "1" db3).1 = 404.
Proof. repeat split; vm_compute; reflexivity. Qed.

(** * The claims *)

Lemma senha_not_updated : "senha" ∉ updated_fields.
Proof. compute_done. Qed.

Lemma senha_not_snapshot : "senha" ∉ ["id"; "nome"; "email"].
Proof. compute_done. Qed.

Lemma update_hides_senha w k userData now db r :
  prisma.user.resolve w = Ok (id_is k) →
  List.find (id_is k) (users db) = Some r →
  on_success hides_senha
    (prisma.user.update w
       (dadosAtualizacao userData) (Some updated_fields) now db).
Proof.
  intros Hw Hfind. rewrite (update_dados w k userData _ now db r Hw Hfind).
  unfold on_success.
  destruct (acceptable userData); [|done].
  destruct (merges userData);
    [|apply select_lookup_notin, senha_not_updated].
  destruct (existsb _ (users db)); [done|].
  apply select_lookup_notin, senha_not_updated.
Qed.

(** C1. For every table and every one of the five operations (list,
    getById, create, update, delete), whatever arguments it is given, a
    value it returns has no [senha] field: every element of the list, the
    user found by id, the created record, the updated record and the
    snapshot of the removed one. *)
Theorem senha_never_returned now userId userData db :
  on_success (Forall hides_senha) (getAllUsers db)
  ∧ on_success (λ found, ∀ usuario, found = Some usuario → hides_senha usuario)
      (getUserById userId db)
  ∧ on_success hides_senha (createUser now userData db)
  ∧ on_success hides_senha (updateUser now userId userData db)
  ∧ on_success hides_senha (deleteUser userId db).
Proof.
  split; [|split; [|split; [|split]]].
  - unfold getAllUsers. rewrite bind_ret. unfold on_success, prisma.user.findMany.
    cbn [fst]. apply Forall_fmap, Forall_forall. intros r _.
    unfold hides_senha, compose.
    apply select_lookup_notin, senha_not_public.
  - rewrite getUserById_unfold. unfold on_success.
    destruct (invalid_id userId); [done|].
    destruct (prisma.Int (parseInt userId)) as [k|e0]; [|done].
    destruct (List.find (id_is k) (users db)) as [r|]; cbn [fst]; [|done].
    intros usuario Heq.
    assert (usuario = select public_fields (User.to_object r)) as ->
      by congruence.
    apply select_lookup_notin, senha_not_public.
  - destruct (createUser_cases now userData db) as [[e ->]|(_ & _ & ->)];
      [done|]. apply select_lookup_notin, senha_not_public.
  - rewrite updateUser_unfold.
    destruct (invalid_id userId); [done|].
    destruct (prisma.Int (parseInt userId)) as [k|e0] eqn:Hint; [|done].
    destruct (List.find (id_is k) (users db)) as [r|] eqn:Hfind; [|done].
    pose proof (update_hides_senha _ k userData now db r
                  (resolve_Int _ _ Hint) Hfind) as Hupd.
    destruct (truthy (get userData "email") && _); [|done].
    destruct (get userData "email") as [| | | |e|]; try done.
    destruct (storable e); [|done].
    destruct (existsb _ (users db)); done.
  - rewrite deleteUser_unfold. unfold on_success.
    destruct (invalid_id userId); [done|].
    destruct (prisma.Int (parseInt userId)) as [k|e0]; [|done].
    destruct (List.find (id_is k) (users db)) as [r|]; [|done].
    apply select_lookup_notin, senha_not_snapshot.
Qed.

#[local] Instance newest_first_transitive :
  Transitive (prisma.user.createdAt_order prisma.user.desc).
Proof. intros x y z. unfold prisma.user.createdAt_order. lia. Qed.

#[local] Instance newest_first_total :
  Total (prisma.user.createdAt_order prisma.user.desc).
Proof. intros x y. unfold prisma.user.createdAt_order. lia. Qed.


(** ** Bodies with a field set or left out *)

Lemma get_insert (d : object) k v : get (<[k := v]> d) k = v.
Proof. unfold get. by rewrite lookup_insert_eq. Qed.

Lemma get_insert_ne (d : object) k k' v :
  k ≠ k' → get (<[k := v]> d) k' = get d k'.
Proof. intros Hk. unfold get. by rewrite lookup_insert_ne. Qed.

Lemma get_delete (d : object) k : get (delete k d) k = VUndefined.
Proof. unfold get. by rewrite lookup_delete_eq. Qed.

Lemma get_delete_ne (d : object) k k' :
  k ≠ k' → get (delete k d) k' = get d k'.
Proof. intros Hk. unfold get. by rewrite lookup_delete_ne. Qed.

Lemma get_absent (d : object) k : d !! k = None → get d k = VUndefined.
Proof. intros Hk. unfold get. by rewrite Hk. Qed.

Lemma js_or_falsy v w : truthy v = false → js_or v w = w.
Proof. intros Hv. unfold js_or. by rewrite Hv. Qed.

Lemma ok_text_falsy v : truthy v = false → ok_text v = true.
Proof. intros Hv. unfold ok_text. by rewrite Hv. Qed.

Lemma createUser_falsy_papel now userData db v :
  truthy v = false →
  createUser now (<["papel" := v]> userData) db
  = createUser now (delete "papel" userData) db.
Proof.
  intros Hv. rewrite !createUser_run. unfold new_row, all_clean, columns.
  cbn [forallb].
  rewrite !get_insert, !get_delete, !get_insert_ne, !get_delete_ne by done.
  by rewrite !(js_or_falsy v), !(ok_text_falsy v), !(falsy_clean v).
Qed.

Lemma createUser_falsy_foto now userData db v :
  truthy v = false →
  createUser now (<["foto" := v]> userData) db
  = createUser now (delete "foto" userData) db.
Proof.
  intros Hv. rewrite !createUser_run. unfold new_row, all_clean, columns.
  cbn [forallb].
  rewrite !get_insert, !get_delete, !get_insert_ne, !get_delete_ne by done.
  by rewrite !(js_or_falsy v), !(ok_text_falsy v), !(falsy_clean v).
Qed.

(** What a successful [createUser] has done. *)
Lemma createUser_Ok now userData db o db' :
  createUser now userData db = (Ok o, db') →
  o = select public_fields (User.to_object (new_row userData now db))
  ∧ db' = insert_row (new_row userData now db) db.
Proof.
  intros Hrun.
  destruct (createUser_cases now userData db) as [[e He]|(_ & _ & Hok)];
    rewrite Hrun in *; split; congruence.
Qed.

Lemma to_object_papel r :
  User.to_object r !! "papel" = Some (VStr (User.papel r)).
Proof. reflexivity. Qed.

Lemma to_object_foto r :
  User.to_object r !! "foto"
  = Some (match User.foto r with Some f => VStr f | None => VNull end).
Proof. reflexivity. Qed.

Lemma papel_public : "papel" ∈ public_fields.
Proof. compute_done. Qed.

Lemma foto_public : "foto" ∈ public_fields.
Proof. compute_done. Qed.

(** C10. A creation body whose [papel] or [foto] is present but falsy
    (the empty string, [null], [0], [false]) is treated exactly as the
    body without that field: same outcome, same table.  When the creation
    succeeds, the stored and returned role is PROFESSOR, respectively the
    stored photo is NULL and the returned one [null]. *)
Theorem createUser_falsy_as_omitted now userData db v :
  truthy v = false →
  createUser now (<["papel" := v]> userData) db
    = createUser now (delete "papel" userData) db
  ∧ createUser now (<["foto" := v]> userData) db
    = createUser now (delete "foto" userData) db
  ∧ (∀ o db', createUser now (<["papel" := v]> userData) db = (Ok o, db') →
       ∃ r, users db' = users db ++ [r] ∧ User.papel r = "PROFESSOR"
            ∧ o !! "papel" = Some (VStr "PROFESSOR"))
  ∧ (∀ o db', createUser now (<["foto" := v]> userData) db = (Ok o, db') →
       ∃ r, users db' = users db ++ [r] ∧ User.foto r = None
            ∧ o !! "foto" = Some VNull).
Proof.
  intros Hv.
  split; [by apply createUser_falsy_papel|].
  split; [by apply createUser_falsy_foto|].
  split.
  - intros o db' (-> & ->)%createUser_Ok.
    exists (new_row (<["papel" := v]> userData) now db).
    assert (Hp : User.papel (new_row (<["papel" := v]> userData) now db)
                 = "PROFESSOR").
    { unfold new_row. cbn [User.papel]. by rewrite get_insert, js_or_falsy. }
    split; [done|]. split; [done|].
    rewrite (select_lookup_in _ _ _ papel_public), to_object_papel.
    by rewrite Hp.
  - intros o db' (-> & ->)%createUser_Ok.
    exists (new_row (<["foto" := v]> userData) now db).
    assert (Hf : User.foto (new_row (<["foto" := v]> userData) now db) = None).
    { unfold new_row. cbn [User.foto]. by rewrite get_insert, js_or_falsy. }
    split; [done|]. split; [done|].
    rewrite (select_lookup_in _ _ _ foto_public), to_object_foto.
    by rewrite Hf.
Qed.

(** The body of C10 run on the empty table: an empty [papel] gives the
    same record as the body without it, with the role PROFESSOR. *)
Lemma createUser_falsy_as_omitted_witness :
  truthy (VStr EmptyString) = false
  ∧ createUser 1000 (<["papel" := VStr EmptyString]> novo_professor) empty_store
    = createUser 1000 (delete "papel" novo_professor) empty_store
  ∧ ∃ r o,
      createUser 1000 (<["papel" := VStr EmptyString]> novo_professor) empty_store
      = (Ok o, {| users := [r]; users_id_seq := 2 |})
      ∧ User.papel r = "PROFESSOR".
Proof.
  split; [reflexivity|].
  pose proof (createUser_falsy_as_omitted 1000 novo_professor empty_store
                (VStr EmptyString) eq_refl) as (Hsame & _ & Hrole & _).
  split; [exact Hsame|].
  pose (r0 := User.make 1 "Prof. Teste" "teste@escola.com" "senha123" None
                "PROFESSOR" 1000 1000).
  assert (Hrun :
    createUser 1000 (<["papel" := VStr EmptyString]> novo_professor) empty_store
    = (Ok (select public_fields (User.to_object r0)),
       {| users := [r0]; users_id_seq := 2 |}))
    by (vm_compute; reflexivity).
  exists r0, (select public_fields (User.to_object r0)).
  split; [exact Hrun|].
  destruct (Hrole _ _ Hrun) as (r & _ & _ & _). reflexivity.
Defined.

(** ** Serving requests keeps the table consistent *)

Lemma store_ok_split db l1 l2 r :
  store_ok db → users db = l1 ++ r :: l2 →
  store_ok {| users := l1 ++ r :: l2; users_id_seq := users_id_seq db |}.
Proof. intros Hok Hl. destruct db as [us s]. simpl in *. by subst us. Qed.

Lemma createUser_keeps_ok now userData db :
  store_ok db → store_ok (createUser now userData db).2.
Proof.
  intros Hok.
  destruct (createUser_cases now userData db) as [[e ->]|(Hne & Hfree & ->)];
    [done|].
  cbn [snd]. by apply store_ok_insert.
Qed.

Lemma updateUser_keeps_ok now userId userData db :
  store_ok db → store_ok (updateUser now userId userData db).2.
Proof.
  intros Hok.
  destruct (updateUser_cases now userId userData db Hok)
    as [[e ->]|(k & r & l1 & l2 & _ & _ & Hl & Hk & _ & Hfree & ->)]; [done|].
  cbn [snd]. pose proof (store_ok_split db l1 l2 r Hok Hl) as Hok'.
  apply (store_ok_replace l1 l2 r); [done|done| |done].
  apply merge_text_given.
  pose proof (emails_given _ Hok') as Hg. simpl in Hg.
  apply Forall_app in Hg as [_ [Hr _]%Forall_cons]. done.
Qed.

Lemma deleteUser_keeps_ok userId db :
  store_ok db → store_ok (deleteUser userId db).2.
Proof.
  intros Hok.
  destruct (deleteUser_cases userId db Hok)
    as [[e ->]|(k & r & l1 & l2 & _ & _ & Hl & _ & _ & ->)]; [done|].
  cbn [snd]. apply (store_ok_remove l1 l2 r). by apply store_ok_split.
Qed.

Lemma getAllUsers_reads db : (getAllUsers db).2 = db.
Proof. unfold getAllUsers. by rewrite bind_ret. Qed.

Lemma getUserById_reads userId db : (getUserById userId db).2 = db.
Proof.
  rewrite getUserById_unfold.
  destruct (invalid_id userId); [done|].
  destruct (prisma.Int (parseInt userId)) as [k|e0]; [|done].
  by destruct (List.find (id_is k) (users db)).
Qed.

Lemma handle_keeps_ok q db : store_ok db → store_ok (handle q db).
Proof.
  intros Hok. destruct q as [|id|now body|now id body|id]; unfold handle.
  - by rewrite getAllUsers_reads.
  - by rewrite getUserById_reads.
  - by apply createUser_keeps_ok.
  - by apply updateUser_keeps_ok.
  - by apply deleteUser_keeps_ok.
Qed.

Lemma serve_keeps_ok qs db : store_ok db → store_ok (serve qs db).
Proof.
  revert db. induction qs as [|q qs IH]; intros db Hok; [done|].
  unfold serve. cbn [fold_left]. apply IH. by apply handle_keeps_ok.
Qed.

Lemma clean_email userData e :
  all_clean userData = true → get userData "email" = VStr e →
  storable e = true.
Proof.
  unfold all_clean, columns. cbn [forallb]. intros Hc He.
  rewrite He in Hc. cbn [clean] in Hc.
  by destruct (clean (get userData "nome")), (storable e).
Qed.

Lemma createUser_well_formed now userData db :
  well_formed userData = true → has_next_id db →
  (∀ x, x ∈ users db → User.email x ≠ text_of (get userData "email")) →
  createUser now userData db
  = (Ok (select public_fields (User.to_object (new_row userData now db))),
     insert_row (new_row userData now db) db).
Proof.
  unfold well_formed, has_next_id. intros Hwf Hseq Hfree.
  rewrite createUser_run.
  repeat (apply andb_prop in Hwf as [Hwf ?]).
  apply existsb_email_false in Hfree.
  assert (Hst : storable (text_of (get userData "email")) = true).
  { destruct (get userData "email") as [| | | |e|] eqn:He; try done.
    by apply (clean_email userData). }
  assert (Hlt : (users_id_seq db <? 2 ^ 31) = true) by (apply Z.ltb_lt; lia).
  rewrite Hst, Hlt.
  repeat match goal with H : _ = true |- _ => rewrite H; clear H end.
  by rewrite Hfree.
Qed.

Lemma createUser_duplicate now userData db e :
  required_given userData = true → get userData "email" = VStr e →
  storable e = true →
  (∃ r, r ∈ users db ∧ User.email r = e) →
  createUser now userData db = (Throw DuplicateEmail, db).
Proof.
  unfold required_given. intros Hreq He Hst Hheld. rewrite createUser_run.
  repeat (apply andb_prop in Hreq as [Hreq ?]).
  apply existsb_email in Hheld.
  repeat match goal with H : truthy _ = true |- _ => rewrite H; clear H end.
  rewrite He. cbn [is_text negb orb text_of]. by rewrite Hst, Hheld.
Qed.

Lemma well_formed_required userData :
  well_formed userData = true → required_given userData = true.
Proof.
  unfold well_formed, required_given. intros H.
  repeat (apply andb_prop in H as [H ?]).
  by repeat (apply andb_true_intro; split).
Qed.

Lemma well_formed_clean userData :
  well_formed userData = true → all_clean userData = true.
Proof. unfold well_formed. by intros [_ H]%andb_prop. Qed.




(** ** Roles *)

Lemma role_new_row userData now db :
  role_or_nothing (get userData "papel") →
  role (User.papel (new_row userData now db)).
Proof.
  unfold new_row, role. cbn [User.papel].
  intros [Hv|[->| ->]]; [|by left|by right].
  rewrite js_or_falsy by done. by right.
Qed.

Lemma role_merge userData now r :
  role_or_nothing (get userData "papel") → role (User.papel r) →
  role (User.papel (merge userData now r)).
Proof.
  unfold merge, role. cbn [User.papel].
  intros [Hv|[->| ->]] Hold; [|by left|by right].
  unfold merge_text. destruct (get userData "papel"); try done.
  by rewrite Hv.
Qed.

Lemma createUser_keeps_roles now userData db :
  roles_ok db → role_or_nothing (get userData "papel") →
  roles_ok (createUser now userData db).2.
Proof.
  intros Hroles Hrole.
  destruct (createUser_cases now userData db) as [[e ->]|(_ & _ & ->)];
    [done|].
  unfold roles_ok, insert_row. cbn [snd users]. apply Forall_app.
  split; [done|]. apply Forall_singleton. by apply role_new_row.
Qed.

Lemma updateUser_keeps_roles now userId userData db :
  store_ok db → roles_ok db → role_or_nothing (get userData "papel") →
  roles_ok (updateUser now userId userData db).2.
Proof.
  intros Hok Hroles Hrole.
  destruct (updateUser_cases now userId userData db Hok)
    as [[e ->]|(k & r & l1 & l2 & _ & _ & Hl & _ & _ & _ & ->)]; [done|].
  unfold roles_ok in *. cbn [snd users]. rewrite Hl in Hroles.
  apply Forall_app in Hroles as [H1 [Hr H2]%Forall_cons].
  apply Forall_app. split; [done|]. apply Forall_cons.
  split; [by apply role_merge|done].
Qed.

Lemma deleteUser_keeps_roles userId db :
  store_ok db → roles_ok db → roles_ok (deleteUser userId db).2.
Proof.
  intros Hok Hroles.
  destruct (deleteUser_cases userId db Hok)
    as [[e ->]|(k & r & l1 & l2 & _ & _ & Hl & _ & _ & ->)]; [done|].
  unfold roles_ok in *. cbn [snd users]. rewrite Hl in Hroles.
  apply Forall_app in Hroles as [H1 [Hr H2]%Forall_cons].
  apply Forall_app. by split.
Qed.

Lemma serve_keeps_roles qs db :
  store_ok db → roles_ok db → Forall request_role_ok qs →
  roles_ok (serve qs db).
Proof.
  revert db. induction qs as [|q qs IH]; intros db Hok Hroles Hqs; [done|].
  apply Forall_cons in Hqs as [Hq Hqs].
  unfold serve. cbn [fold_left]. apply IH; [by apply handle_keeps_ok| |done].
  destruct q as [|id|now body|now id body|id]; unfold handle.
  - by rewrite getAllUsers_reads.
  - by rewrite getUserById_reads.
  - by apply createUser_keeps_roles.
  - by apply updateUser_keeps_roles.
  - by apply deleteUser_keeps_roles.
Qed.

(** C8, as the code has it.  The role is a text that is not checked
    against the enumeration: create stores the given role when it is a
    non-empty string and PROFESSOR when it is left out; update stores a
    given non-empty role.  So the roles of the table are ADMIN or
    PROFESSOR after any sequence of requests in which every role given to
    create or update is one of the two, or is left out. *)
Theorem roles_as_requested qs now userId userData db o db' p :
  (Forall request_role_ok qs → roles_ok (serve qs empty_store))
  ∧ (createUser now userData db = (Ok o, db') →
     ∃ r, users db' = users db ++ [r]
          ∧ (userData !! "papel" = None → User.papel r = "PROFESSOR")
          ∧ (get userData "papel" = VStr p → p ≠ EmptyString → User.papel r = p))
  ∧ (store_ok db → updateUser now userId userData db = (Ok o, db') →
     get userData "papel" = VStr p → p ≠ EmptyString →
     o !! "papel" = Some (VStr p)).
Proof.
  split; [|split].
  - apply serve_keeps_roles; [apply empty_store_ok|constructor].
  - intros (-> & ->)%createUser_Ok. exists (new_row userData now db).
    split; [done|]. unfold new_row. cbn [User.papel]. split.
    + intros Habs. by rewrite (get_absent _ _ Habs).
    + intros -> Hp. unfold js_or. simpl.
      apply String.eqb_neq in Hp. by rewrite Hp.
  - intros Hok Hrun Hp Hne.
    destruct (updateUser_cases now userId userData db Hok)
      as [[e He]|(k & r & l1 & l2 & _ & _ & _ & _ & _ & _ & Hupd)];
      rewrite Hrun in *; [congruence|].
    assert (o = select updated_fields
                  (User.to_object (merge userData now r))) as -> by congruence.
    rewrite select_lookup_in by compute_done.
    rewrite to_object_papel. unfold merge. cbn [User.papel].
    rewrite Hp. simpl. apply String.eqb_neq in Hne. by rewrite Hne.
Qed.

(** C8 as stated fails: a body with the role ALUNO is accepted, and the
    row is stored and returned with it. *)
Lemma role_outside_enumeration_stored :
  createUser 3000 (<["papel" := VStr "ALUNO"]> novo_professor) escola
  = (Ok (select public_fields
           (User.to_object
              (User.make 3 "Prof. Teste" "teste@escola.com" "senha123" None
                 "ALUNO" 3000 3000))),
     {| users :=
          [maria; joao;
           User.make 3 "Prof. Teste" "teste@escola.com" "senha123" None
             "ALUNO" 3000 3000];
        users_id_seq := 4 |})
  ∧ ¬ role "ALUNO".
Proof.
  split.
  - vm_compute. reflexivity.
  - intros [H|H]; discriminate H.
Qed.

(** The requests of C8 at work: a teacher created without a role, then
    promoted to ADMIN. *)
Lemma roles_as_requested_witness :
  roles_ok
    (serve [POST_user 1000 novo_professor;
            PUT_user 2000 "1" {["papel" := VStr "ADMIN"]}] empty_store)
  ∧ users (serve [POST_user 1000 novo_professor;
                  PUT_user 2000 "1" {["papel" := VStr "ADMIN"]}] empty_store)
    = [User.make 1 "Prof. Teste" "teste@escola.com" "senha123" None "ADMIN"
         1000 2000].
Proof.
  split.
  - refine (proj1
      (roles_as_requested
         [POST_user 1000 novo_professor;
          PUT_user 2000 "1" {["papel" := VStr "ADMIN"]}]
         0 EmptyString ∅ empty_store ∅ empty_store EmptyString) _).
    apply Forall_cons. split; [left; reflexivity|].
    apply Forall_cons. split; [right; left; reflexivity|constructor].
  - vm_compute. reflexivity.
Defined.

(** ** Looking up what was created *)

Lemma find_id_app k l1 l2 :
  List.find (id_is k) (l1 ++ l2) =
    match List.find (id_is k) l1 with
    | Some r => Some r
    | None => List.find (id_is k) l2
    end.
Proof.
  induction l1 as [|x l1 IH]; simpl; [done|]. by destruct (id_is k x).
Qed.

(** [getUserById] on an id written as a positive decimal integer. *)
Lemma getUserById_decimal s db :
  decimal s = true → 1 ≤ decimal_value s < 2 ^ 31 →
  getUserById s db =
    match List.find (id_is (decimal_value s)) (users db) with
    | Some r => (Ok (Some (select public_fields (User.to_object r))), db)
    | None => (Ok None, db)
    end.
Proof.
  intros Hs [Hv Hv']. rewrite getUserById_unfold.
  by rewrite (invalid_id_decimal s Hs Hv), (Int_decimal s Hs Hv').
Qed.

Lemma getUserById_created db r :
  store_ok db → has_next_id db → User.id r = users_id_seq db →
  getUserById (Number_toString (User.id r)) (insert_row r db)
  = (Ok (Some (select public_fields (User.to_object r))), insert_row r db).
Proof.
  unfold has_next_id. intros Hok Hnext Hid.
  pose proof (seq_positive db Hok) as Hseq.
  destruct (Number_toString_decimal (User.id r)) as [Hdec Hval]; [lia|].
  rewrite (getUserById_decimal _ _ Hdec) by lia.
  rewrite Hval. unfold insert_row. cbn [users]. rewrite find_id_app.
  assert (Hnone : List.find (id_is (User.id r)) (users db) = None).
  { apply find_id_None. intros x Hx.
    pose proof (ids_issued db Hok) as Hiss. rewrite Forall_forall in Hiss.
    specialize (Hiss x Hx). lia. }
  rewrite Hnone. simpl. unfold id_is. by rewrite Z.eqb_refl.
Qed.

Lemma falsy_text_or_nothing v :
  text_or_nothing v = true → truthy v = false ↔ absent_or_empty v.
Proof.
  unfold absent_or_empty. destruct v as [| |b|q|s|]; simpl; try done.
  - intros _. split; [by left|done].
  - intros _. split; [right; by left|done].
  - intros _. rewrite negb_false_iff, String.eqb_eq. split.
    + intros ->. right. by right.
    + intros [H|[H|H]]; congruence.
Qed.

Lemma nome_public : "nome" ∈ public_fields.
Proof. compute_done. Qed.

Lemma email_public : "email" ∈ public_fields.
Proof. compute_done. Qed.

Lemma id_public : "id" ∈ public_fields.
Proof. compute_done. Qed.

Lemma text_of_text v :
  is_text v = true → VStr (text_of v) = v.
Proof. by destruct v. Qed.

Lemma createUser_MissingFields now userData db :
  (createUser now userData db).1 = Throw MissingFields
  ↔ required_given userData = false.
Proof.
  rewrite createUser_run. unfold required_given.
  destruct (truthy (get userData "nome")),
    (truthy (get userData "email")), (truthy (get userData "senha"));
    cbn [negb orb andb fst]; try done.
  split; [|done].
  destruct (negb (is_text (get userData "email"))); [done|].
  destruct (negb (storable _)); [done|].
  destruct (existsb _ (users db)); [done|].
  destruct (is_text (get userData "nome") && _ && _ && _); [|done].
  destruct (negb (all_clean userData)); [done|].
  by destruct (negb (users_id_seq db <? 2 ^ 31)).
Qed.

(** C2, as the code has it.  [createUser] fails with MissingFields exactly
    when [nome], [email] or [senha] is falsy: absent, [null], empty, but
    also [0] or [false]; for a body whose required fields are texts when
    given, that is exactly when one of them is absent or empty.  For a
    well-formed body (the three given as texts and not empty, [papel] and
    [foto] texts or falsy, no NUL character in a text, which the database
    refuses) with an email no row has, on a consistent table whose id
    sequence is not exhausted, it appends one row, with the next id of the
    sequence, the three texts of the body, the role PROFESSOR when [papel]
    is left out and no photo when [foto] is left out, both timestamps at
    the time of the call; it returns that row without [senha]; and
    [getUserById] on the returned id, written in decimal, then finds a
    record with the same [nome] and [email]. *)
Theorem createUser_spec now userData db :
  ((createUser now userData db).1 = Throw MissingFields
   ↔ truthy (get userData "nome") && truthy (get userData "email")
     && truthy (get userData "senha") = false)
  ∧ (text_or_nothing (get userData "nome") = true →
     text_or_nothing (get userData "email") = true →
     text_or_nothing (get userData "senha") = true →
     (createUser now userData db).1 = Throw MissingFields
     ↔ absent_or_empty (get userData "nome")
       ∨ absent_or_empty (get userData "email")
       ∨ absent_or_empty (get userData "senha"))
  ∧ (store_ok db → has_next_id db → well_formed userData = true →
     (∀ x, x ∈ users db → VStr (User.email x) ≠ get userData "email") →
     ∃ r o,
       createUser now userData db = (Ok o, insert_row r db)
       ∧ User.id r = users_id_seq db
       ∧ VStr (User.nome r) = get userData "nome"
       ∧ VStr (User.email r) = get userData "email"
       ∧ VStr (User.senha r) = get userData "senha"
       ∧ (userData !! "papel" = None → User.papel r = "PROFESSOR")
       ∧ (userData !! "foto" = None → User.foto r = None)
       ∧ User.createdAt r = now ∧ User.updatedAt r = now
       ∧ o = select public_fields (User.to_object r)
       ∧ hides_senha o
       ∧ o !! "id" = Some (VNum (inject_Z (User.id r)))
       ∧ o !! "nome" = Some (get userData "nome")
       ∧ o !! "email" = Some (get userData "email")
       ∧ ∃ found,
           getUserById (Number_toString (User.id r)) (insert_row r db)
           = (Ok (Some found), insert_row r db)
           ∧ found !! "nome" = Some (get userData "nome")
           ∧ found !! "email" = Some (get userData "email")
           ∧ hides_senha found).
Proof.
  split; [apply createUser_MissingFields|]. split.
  - intros Hn He Hs. rewrite createUser_MissingFields. unfold required_given.
    rewrite <- (falsy_text_or_nothing _ Hn), <- (falsy_text_or_nothing _ He),
      <- (falsy_text_or_nothing _ Hs).
    destruct (truthy (get userData "nome")),
      (truthy (get userData "email")), (truthy (get userData "senha"));
      cbn [andb]; try (split; [auto|done]).
    split; [done|intros [H|[H|H]]; discriminate H].
  - intros Hok Hnext Hwf Hfree.
    assert (Hrun := createUser_well_formed now userData db Hwf Hnext).
    unfold well_formed in Hwf.
    repeat (apply andb_prop in Hwf as [Hwf ?]).
    set (r := new_row userData now db) in *.
    assert (Hnome : VStr (User.nome r) = get userData "nome")
      by by apply text_of_text.
    assert (Hemail : VStr (User.email r) = get userData "email")
      by by apply text_of_text.
    assert (Hsenha : VStr (User.senha r) = get userData "senha")
      by by apply text_of_text.
    exists r, (select public_fields (User.to_object r)).
    split; [|split; [done|]].
    { apply Hrun. intros x Hx Heq. apply (Hfree x Hx).
      rewrite <- Hemail. by f_equal. }
    do 3 (split; [done|]).
    split.
    { intros Habs. unfold r, new_row. cbn [User.papel].
      by rewrite (get_absent _ _ Habs). }
    split.
    { intros Habs. unfold r, new_row. cbn [User.foto].
      by rewrite (get_absent _ _ Habs). }
    do 3 (split; [done|]).
    split; [apply select_lookup_notin, senha_not_public|].
    split; [by rewrite (select_lookup_in _ _ _ id_public), to_object_id|].
    split.
    { by rewrite (select_lookup_in _ _ _ nome_public), to_object_nome, Hnome. }
    split.
    { by rewrite (select_lookup_in _ _ _ email_public), to_object_email,
        Hemail. }
    exists (select public_fields (User.to_object r)).
    split; [by apply getUserById_created|].
    split.
    { by rewrite (select_lookup_in _ _ _ nome_public), to_object_nome, Hnome. }
    split.
    { by rewrite (select_lookup_in _ _ _ email_public), to_object_email,
        Hemail. }
    apply select_lookup_notin, senha_not_public.
Qed.

(** C2 as stated fails, on bodies whose [nome], [email] and [senha] are
    all present and not empty and whose email no row of [escola] has.  A
    name that is the number 0 is refused with MissingFields; a name that is
    the number 5 or has a NUL character passes the check of the fields and
    is refused by the client or the database, the table left as it is; so
    is every creation once the id sequence is exhausted. *)
Lemma present_fields_not_created :
  (∀ body, body ∈ [nome_zero; nome_cinco; nome_com_nul; novo_professor] →
     ¬ absent_or_empty (get body "nome")
     ∧ ¬ absent_or_empty (get body "email")
     ∧ ¬ absent_or_empty (get body "senha")
     ∧ ∀ x, x ∈ users escola → VStr (User.email x) ≠ get body "email")
  ∧ createUser 3000 nome_zero escola = (Throw MissingFields, escola)
  ∧ createUser 3000 nome_cinco escola
    = (Throw (Unexpected ValidationError), escola)
  ∧ createUser 3000 nome_com_nul escola
    = (Throw (Unexpected InvalidByteSequence), escola)
  ∧ createUser 3000 novo_professor esgotada
    = (Throw (Unexpected SequenceExhausted), esgotada).
Proof.
  split; [|repeat split; vm_compute; reflexivity].
  intros body Hbody.
  assert (Hno : ∀ v, (v = VNum (inject_Z 0) ∨ v = VNum (inject_Z 5)
                      ∨ (∃ a s, v = VStr (String a s))) →
                     ¬ absent_or_empty v).
  { intros v [->|[->|(a & s & ->)]] [H|[H|H]]; discriminate H. }
  repeat (apply elem_of_cons in Hbody as [->|Hbody]);
    [..|by apply elem_of_nil in Hbody];
    (split; [apply Hno; vm_compute; eauto|]);
    (split; [apply Hno; vm_compute; eauto|]);
    (split; [apply Hno; vm_compute; eauto|]);
    intros x Hx;
    repeat (apply elem_of_cons in Hx as [->|Hx]);
    try (by apply elem_of_nil in Hx); vm_compute; discriminate.
Qed.

(** The body of C2 run on the empty table, and without its [nome]. *)
Lemma createUser_spec_witness :
  (createUser 1000 (delete "nome" novo_professor) empty_store).1
  = Throw MissingFields
  ∧ ∃ r o,
      createUser 1000 novo_professor empty_store = (Ok o, insert_row r empty_store)
      ∧ User.id r = 1
      ∧ ∃ found,
          getUserById (Number_toString (User.id r)) (insert_row r empty_store)
          = (Ok (Some found), insert_row r empty_store)
          ∧ found !! "nome" = Some (VStr "Prof. Teste")
          ∧ found !! "email" = Some (VStr "teste@escola.com").
Proof.
  split.
  - apply (proj1 (proj2 (createUser_spec 1000 (delete "nome" novo_professor)
                           empty_store))); [reflexivity..|].
    left. left. reflexivity.
  - destruct (proj2 (proj2 (createUser_spec 1000 novo_professor empty_store))
                empty_store_ok)
      as (r & o & Hrun & Hid & _ & _ & _ & _ & _ & _ & _ & _ & _ & _ & _ & _
          & found & Hget & Hnome & Hemail & _).
    { unfold has_next_id. simpl. lia. }
    { reflexivity. }
    { intros x Hx. by apply elem_of_nil in Hx. }
    exists r, o. split; [exact Hrun|]. split; [exact Hid|].
    exists found. split; [exact Hget|]. split; [exact Hnome|exact Hemail].
Defined.

(** ** The checks of an update *)

Lemma get_Some (d : object) k v :
  v ≠ VUndefined → get d k = v → d !! k = Some v.
Proof. unfold get. destruct (d !! k); simpl; congruence. Qed.

Lemma get_lookup (d : object) k v : d !! k = Some v → get d k = v.
Proof. intros Hk. unfold get. by rewrite Hk. Qed.

Lemma unique_row l r r' :
  NoDup (User.id <$> l) → r ∈ l → r' ∈ l → User.id r = User.id r' → r = r'.
Proof.
  induction l as [|x l IH]; simpl; [by intros _ ?%elem_of_nil|].
  intros [Hx Hnd]%NoDup_cons [->|Hr]%elem_of_cons [->|Hr']%elem_of_cons Hid.
  - done.
  - destruct Hx. rewrite Hid. by apply list_elem_of_fmap_2.
  - destruct Hx. rewrite <- Hid. by apply list_elem_of_fmap_2.
  - by apply IH.
Qed.

Lemma find_id_unique l k r :
  NoDup (User.id <$> l) → r ∈ l → User.id r = k →
  List.find (id_is k) l = Some r.
Proof.
  intros Hnd Hr Hk. destruct (List.find (id_is k) l) as [r'|] eqn:Hfind.
  - apply find_id_Some in Hfind as [Hr' Hk']. f_equal.
    apply (unique_row l); [done..|lia].
  - rewrite find_id_None in Hfind. by destruct (Hfind r Hr).
Qed.

Lemma update_never_EmailInUse w k data sel now db r :
  prisma.user.resolve w = Ok (id_is k) →
  List.find (id_is k) (users db) = Some r →
  (prisma.user.update w data sel now db).1 ≠ Throw EmailInUse.
Proof.
  intros Hw Hfind. rewrite (update_found w k data sel now db r Hw Hfind).
  destruct (prisma.user.set_text (get data "nome") _); [|done].
  destruct (prisma.user.set_text (get data "email") _); [|done].
  destruct (prisma.user.set_text (get data "senha") _); [|done].
  destruct (prisma.user.set_text (get data "papel") _); [|done].
  destruct (prisma.user.set_nullable_text (get data "foto") _); [|done].
  destruct (negb (writes data)); [done|].
  destruct (negb (all_clean data)); [done|].
  cbv zeta. by destruct (existsb _ (users db)).
Qed.

Lemma strict_ne_text e e' :
  strict_ne (VStr e) (VStr e') = true ↔ e ≠ e'.
Proof. simpl. by rewrite negb_true_iff, String.eqb_neq. Qed.

Lemma truthy_text e : truthy (VStr e) = true ↔ e ≠ EmptyString.
Proof. simpl. by rewrite negb_true_iff, String.eqb_neq. Qed.

Lemma updateUser_EmailInUse now userId userData db :
  store_ok db →
  (updateUser now userId userData db).1 = Throw EmailInUse
  ↔ invalid_id userId = false
    ∧ ∃ k r e,
        prisma.Int (parseInt userId) = Ok k ∧ r ∈ users db ∧ User.id r = k
        ∧ userData !! "email" = Some (VStr e) ∧ storable e = true
        ∧ e ≠ User.email r
        ∧ ∃ x, x ∈ users db ∧ User.id x ≠ k ∧ User.email x = e.
Proof.
  intros Hok. rewrite updateUser_unfold. split.
  - destruct (invalid_id userId); [done|].
    destruct (prisma.Int (parseInt userId)) as [k|e0] eqn:Hint;
      [|by destruct (Int_Unexpected _ _ Hint) as [p ->]].
    destruct (List.find (id_is k) (users db)) as [r|] eqn:Hfind; [|done].
    pose proof (update_never_EmailInUse _ k (dadosAtualizacao userData)
                  (Some updated_fields) now db r (resolve_Int _ _ Hint) Hfind)
      as Hnever.
    destruct (truthy (get userData "email") && _) eqn:Hcond; [|done].
    destruct (get userData "email") as [| | | |e|] eqn:He; try done.
    destruct (storable e) eqn:Hst; [|done]. cbn [negb].
    destruct (existsb _ (users db)) eqn:Hex; [|done].
    intros _. split; [done|].
    apply andb_prop in Hcond as [_ Hne%strict_ne_text].
    apply existsb_email in Hex as (x & Hx & Hxe).
    pose proof (find_id_Some _ _ _ Hfind) as [Hr Hk].
    exists k, r, e. split_and!; try done.
    { by apply get_Some. }
    exists x. split_and!; [done| |done].
    intros Hxk. apply Hne. rewrite <- Hxe. f_equal.
    apply (unique_row (users db)); [apply Hok|done..|lia].
  - intros (Hvalid & k & r & e & Hparse & Hr & Hk & He & Hst & Hne
            & x & Hx & Hxk & Hxe).
    rewrite Hvalid, Hparse.
    rewrite (find_id_unique _ k r (ids_unique db Hok) Hr Hk).
    rewrite (get_lookup _ _ _ He).
    assert (Hgiven : e ≠ EmptyString).
    { pose proof (emails_given db Hok) as Hg. rewrite Forall_forall in Hg.
      rewrite <- Hxe. by apply Hg. }
    apply truthy_text in Hgiven. apply strict_ne_text in Hne.
    rewrite Hgiven, Hne, Hst. cbn [andb negb].
    assert (Hex : existsb (email_is e) (users db) = true)
      by (apply existsb_email; eauto).
    by rewrite Hex.
Qed.

(** C4, as the code has it.  On a consistent table, [updateUser] fails
    with EmailInUse exactly when the id passes the validation and
    [parseInt] of it is an integer of 32 bits, a row has that id, the body
    gives an email (a text without a NUL character, as the database holds
    them), that email is not the one of the row, and another row has it.
    In particular a body that gives the row its own email never fails
    with EmailInUse.  An id that does not pass the validation gives
    InvalidInput whatever the table and the body.  An id that passes it
    gives NotFound whatever the body when [parseInt] of it is an integer
    of 32 bits that no row has; when it is no such integer (2^31 and
    above), the lookup itself fails, with the error of the client and
    neither NotFound nor EmailInUse.  A failure of any kind leaves the
    table as it was. *)
Theorem updateUser_checks now userId userData db :
  store_ok db →
  ((updateUser now userId userData db).1 = Throw EmailInUse
   ↔ invalid_id userId = false
     ∧ ∃ k r e,
         prisma.Int (parseInt userId) = Ok k ∧ r ∈ users db ∧ User.id r = k
         ∧ userData !! "email" = Some (VStr e) ∧ storable e = true
         ∧ e ≠ User.email r
         ∧ ∃ x, x ∈ users db ∧ User.id x ≠ k ∧ User.email x = e)
  ∧ (∀ r, r ∈ users db → prisma.Int (parseInt userId) = Ok (User.id r) →
          userData !! "email" = Some (VStr (User.email r)) →
          (updateUser now userId userData db).1 ≠ Throw EmailInUse)
  ∧ (invalid_id userId = true →
     updateUser now userId userData db = (Throw InvalidInput, db))
  ∧ (invalid_id userId = false → ∀ k, prisma.Int (parseInt userId) = Ok k →
     (∀ r, r ∈ users db → User.id r ≠ k) →
     updateUser now userId userData db = (Throw (NotFound userId), db))
  ∧ (invalid_id userId = false → ∀ e, prisma.Int (parseInt userId) = Throw e →
     updateUser now userId userData db = (Throw e, db)
     ∧ ∃ p, e = Unexpected p)
  ∧ (∀ e, (updateUser now userId userData db).1 = Throw e →
          (updateUser now userId userData db).2 = db).
Proof.
  intros Hok. split; [by apply updateUser_EmailInUse|].
  split; [|split; [|split; [|split]]].
  - intros r Hr Hparse He.
    rewrite (updateUser_EmailInUse _ _ _ _ Hok).
    intros (_ & k & r' & e & Hparse' & Hr' & Hk' & He' & _ & Hne & _).
    assert (r = r') as <-.
    { apply (unique_row (users db)); [apply Hok|done..|congruence]. }
    congruence.
  - intros Hinv. rewrite updateUser_unfold. by rewrite Hinv.
  - intros Hvalid k Hparse Hnone. rewrite updateUser_unfold.
    rewrite Hvalid, Hparse. apply find_id_None in Hnone. by rewrite Hnone.
  - intros Hvalid e Hparse. rewrite updateUser_unfold.
    rewrite Hvalid, Hparse. split; [done|]. by apply (Int_Unexpected _ _ Hparse).
  - intros e.
    destruct (updateUser_cases now userId userData db Hok)
      as [[e' ->]|(k & r & l1 & l2 & _ & _ & _ & _ & _ & _ & ->)]; [done|].
    cbn [fst]. intros Habs. discriminate Habs.
Qed.

Lemma escola_ok : store_ok escola.
Proof.
  split; simpl.
  - apply NoDup_cons. split; [by intros ?%list_elem_of_singleton|].
    apply NoDup_singleton.
  - repeat (apply Forall_cons; split; [simpl; lia|]). constructor.
  - lia.
  - apply NoDup_cons. split; [by intros ?%list_elem_of_singleton|].
    apply NoDup_singleton.
  - repeat (apply Forall_cons; split; [done|]). constructor.
Qed.

(** C4 as stated fails: with the id 2147483648, which passes the
    validation and which no row of [escola] has, and a body that asks for
    the email of Maria, the update fails with the error of the client for
    a value out of range, not with NotFound. *)
Lemma absent_row_not_NotFound :
  invalid_id "2147483648" = false
  ∧ (∀ r, r ∈ users escola → User.id r ≠ 2147483648)
  ∧ updateUser 3000 "2147483648" so_email escola
    = (Throw (Unexpected ValueOutOfRange), escola)
  ∧ (updateUser 3000 "2147483648" so_email escola).1
    ≠ Throw (NotFound "2147483648").
Proof.
  split; [vm_compute; reflexivity|]. split.
  - intros r [->|[->|Hr%elem_of_nil]%elem_of_cons]%elem_of_cons;
      [discriminate..|done].
  - assert (Hrun : updateUser 3000 "2147483648" so_email escola
                   = (Throw (Unexpected ValueOutOfRange), escola))
      by (vm_compute; reflexivity).
    split; [exact Hrun|]. rewrite Hrun. discriminate.
Qed.

(** The checks of C4 on [escola]: João asking for Maria's email, Maria
    asking for her own, an id that is not a number, an id without a row. *)
Lemma updateUser_checks_witness :
  (updateUser 3000 "2" {["email" := VStr "maria@escola.com"]} escola).1
  = Throw EmailInUse
  ∧ (updateUser 3000 "1" {["email" := VStr "maria@escola.com"]} escola).1
    ≠ Throw EmailInUse
  ∧ updateUser 3000 "abc" {["email" := VStr "maria@escola.com"]} escola
    = (Throw InvalidInput, escola)
  ∧ updateUser 3000 "99" {["email" := VStr "maria@escola.com"]} escola
    = (Throw (NotFound "99"), escola).
Proof.
  split; [|split; [|split]].
  - apply (proj1 (updateUser_checks 3000 "2"
                    {["email" := VStr "maria@escola.com"]} escola escola_ok)).
    split; [reflexivity|].
    exists 2, joao, "maria@escola.com".
    split; [reflexivity|]. split; [apply elem_of_cons; right; by left|].
    split; [reflexivity|]. split; [reflexivity|]. split; [reflexivity|].
    split; [discriminate|].
    exists maria. split; [by left|]. split; [discriminate|reflexivity].
  - apply (proj1 (proj2 (updateUser_checks 3000 "1"
                           {["email" := VStr "maria@escola.com"]} escola
                           escola_ok)) maria); [by left|reflexivity..].
  - apply (proj1 (proj2 (proj2 (updateUser_checks 3000 "abc"
                                  {["email" := VStr "maria@escola.com"]}
                                  escola escola_ok)))).
    reflexivity.
  - apply (proj1 (proj2 (proj2 (proj2 (updateUser_checks 3000 "99"
                                         {["email" := VStr "maria@escola.com"]}
                                         escola escola_ok)))) eq_refl 99);
      [reflexivity|].
    intros r [->|[->|Hr%elem_of_nil]%elem_of_cons]%elem_of_cons;
      [discriminate..|done].
Defined.

(** ** What an update merges *)

Lemma no_conflict now userData db k r l1 l2 :
  store_ok db → users db = l1 ++ r :: l2 → User.id r = k →
  Forall (λ x, id_is k x = false) l1 → Forall (λ x, id_is k x = false) l2 →
  (∀ e x, get userData "email" = VStr e → x ∈ users db →
          User.email x = e → User.id x = k) →
  existsb
    (λ x, negb (id_is k x) && email_is (User.email (merge userData now r)) x)
    (users db) = false.
Proof.
  intros Hok Hl Hk H1 H2 Hfree.
  apply Bool.not_true_iff_false. intros Hex.
  apply existsb_exists in Hex as (x & Hx%list_elem_of_In & Hcond).
  apply andb_prop in Hcond as [Hxk%negb_true_iff Hxe]. unfold email_is in Hxe.
  apply String.eqb_eq in Hxe. unfold id_is in Hxk. apply Z.eqb_neq in Hxk.
  unfold merge in Hxe. cbn [User.email] in Hxe.
  assert (Hother : x ∈ l1 ++ l2).
  { rewrite Hl in Hx. apply elem_of_app in Hx as [Hx|[->|Hx]%elem_of_cons];
      [apply elem_of_app; by left|done|apply elem_of_app; by right]. }
  pose proof (email_owner l1 l2 r (users_id_seq db) x
                (store_ok_split db l1 l2 r Hok Hl) Hother) as Hown.
  unfold merge_text in Hxe.
  destruct (get userData "email") as [| | | |e|] eqn:He; try done.
  destruct (truthy (VStr e)); [|done].
  apply Hxk. by apply (Hfree e x).
Qed.

Lemma updateUser_ok now userId userData db k r :
  store_ok db → invalid_id userId = false → prisma.Int (parseInt userId) = Ok k →
  r ∈ users db → User.id r = k → acceptable userData = true →
  (∀ e x, get userData "email" = VStr e → x ∈ users db →
          User.email x = e → User.id x = k) →
  ∃ l1 l2,
    users db = l1 ++ r :: l2
    ∧ updateUser now userId userData db
      = (Ok (select updated_fields (User.to_object (merge userData now r))),
         {| users := l1 ++ merge userData now r :: l2;
            users_id_seq := users_id_seq db |}).
Proof.
  intros Hok Hvalid Hparse Hr Hk Hacc Hfree.
  pose proof (find_id_unique _ k r (ids_unique db Hok) Hr Hk) as Hfind.
  destruct (find_id_split _ k r (ids_unique db Hok) Hfind)
    as (l1 & l2 & Hl & _ & H1 & H2).
  exists l1, l2. split; [done|].
  assert (Hidr : id_is k r = true) by (unfold id_is; lia).
  assert (Hupd :
    prisma.user.update (prisma.user.where_id (parseInt userId))
      (dadosAtualizacao userData) (Some updated_fields) now db
    = (Ok (select updated_fields (User.to_object (merge userData now r))),
       {| users := l1 ++ merge userData now r :: l2;
          users_id_seq := users_id_seq db |})).
  { rewrite (update_dados _ k userData _ now db r (resolve_Int _ _ Hparse)
               Hfind), Hacc.
    destruct (merges userData) eqn:Hm.
    - rewrite (no_conflict now userData db k r l1 l2) by done.
      unfold prisma.user.project.
      by rewrite Hl, (replace_at_split (id_is k) l1 l2 r).
    - rewrite (merge_nothing _ _ _ Hm). unfold prisma.user.project.
      rewrite <- Hl. by destruct db. }
  assert (Hclean : all_clean userData = true).
  { unfold acceptable in Hacc. by apply andb_prop in Hacc as [_ ?]. }
  rewrite updateUser_unfold, Hvalid, Hparse, Hfind.
  destruct (truthy (get userData "email") && _) eqn:Hcond; [|done].
  apply andb_prop in Hcond as [Htruthy Hne].
  assert (Htext : is_text (get userData "email") = true).
  { unfold acceptable, typed_update in Hacc.
    repeat (apply andb_prop in Hacc as [Hacc ?]).
    assert (Hoe : ok_text (get userData "email") = true) by done.
    unfold ok_text in Hoe. by rewrite Htruthy in Hoe. }
  destruct (get userData "email") as [| | | |e|] eqn:He; try done.
  rewrite (clean_email userData e Hclean He). cbn [negb].
  apply strict_ne_text in Hne.
  assert (Hex : existsb (email_is e) (users db) = false).
  { apply existsb_email_false. intros x Hx Hxe.
    apply Hne. rewrite <- Hxe. f_equal.
    apply (unique_row (users db)); [apply Hok|done..|].
    rewrite (Hfree e x); done. }
  by rewrite Hex.
Qed.






(** ** Reading one user *)

Lemma getById_status id db :
  status (getById id db).1 =
    match (getUserById id db).1 with
    | Ok None => 404
    | Ok (Some _) => 200
    | Throw e => if includes (message e) "inválido" then 400 else 500
    end.
Proof.
  unfold getById. destruct (getUserById id db) as [[[usuario|]|e] db'];
    cbn [fst]; try done.
  by destruct (includes (message e) "inválido").
Qed.


(** An id passes the validation exactly when it is not empty and reads,
    as a Number, as a value that rounds to a double above zero. *)
Lemma invalid_id_false userId :
  invalid_id userId = false
  ↔ userId ≠ EmptyString
    ∧ ((∃ q, StringToNumber userId = Finite q ∧ (half_min_double < q)%Q)
       ∨ StringToNumber userId = Infinity false).
Proof.
  unfold invalid_id, isNaN, le_zero.
  rewrite !orb_false_iff, negb_false_iff, truthy_text.
  destruct (StringToNumber userId) as [|q|neg].
  - split; [intros [[_ Hnan] _]; discriminate Hnan|].
    intros [_ [(q & Hq & _)|Hinf]]; [discriminate Hq|discriminate Hinf].
  - rewrite <- (Bool.not_true_iff_false (Qle_bool q half_min_double)).
    rewrite Qle_bool_iff. split.
    + intros [[Hne _] Hq]. split; [done|]. left. exists q.
      split; [done|]. by apply Qnot_le_lt.
    + intros [Hne [(q' & Heq & Hq)|Hinf]]; [|discriminate Hinf].
      assert (q' = q) as -> by congruence.
      split; [done|]. by apply Qlt_not_le.
  - split.
    + intros [[Hne _] ->]. split; [done|]. by right.
    + intros [Hne [(q & Hq & _)|Hinf]]; [discriminate Hq|].
      assert (neg = false) as -> by congruence. done.
Qed.





(** ** Removing a user *)

Lemma select_snapshot r :
  select ["id"; "nome"; "email"] (User.to_object r) = snapshot r.
Proof. reflexivity. Qed.

(** C7, as the code has it.  [deleteUser] fails with InvalidInput on an
    id that does not pass the validation of [getUserById] (which lets a
    positive number that is not an integer through, to be cut by
    [parseInt]).  For an id that passes and whose [parseInt] is an integer
    k of 32 bits: when no row has the id k it fails with NotFound and
    leaves the table as it is; when a row of a consistent table has it, it
    removes that row and no other and returns exactly the snapshot
    [{ id, nome, email }] of the row as it was before; after that no row
    has the id k, [getUserById] on the same id returns the sentinel [null]
    and the controller answers 404.  For an id that passes and whose
    [parseInt] is no such integer (2^31 and above), the lookup fails with
    the error of the client, not with NotFound, and the table is left as
    it is. *)
Theorem deleteUser_spec userId db :
  (invalid_id userId = true →
   deleteUser userId db = (Throw InvalidInput, db))
  ∧ (invalid_id userId = false → ∀ k, prisma.Int (parseInt userId) = Ok k →
     ((∀ r, r ∈ users db → User.id r ≠ k) →
      deleteUser userId db = (Throw (NotFound userId), db))
     ∧ (∀ r, store_ok db → r ∈ users db → User.id r = k →
        ∃ l1 l2 db',
          users db = l1 ++ r :: l2
          ∧ db' = {| users := l1 ++ l2; users_id_seq := users_id_seq db |}
          ∧ deleteUser userId db = (Ok (snapshot r), db')
          ∧ (∀ x, x ∈ users db' → User.id x ≠ k)
          ∧ getUserById userId db' = (Ok None, db')
          ∧ status (getById userId db').1 = 404))
  ∧ (invalid_id userId = false → ∀ e, prisma.Int (parseInt userId) = Throw e →
     deleteUser userId db = (Throw e, db) ∧ ∃ p, e = Unexpected p).
Proof.
  split; [|split]; cycle 2.
  { intros Hvalid e Hparse. rewrite deleteUser_unfold, Hvalid, Hparse.
    split; [done|]. by apply (Int_Unexpected _ _ Hparse). }
  - intros Hinv. by rewrite deleteUser_unfold, Hinv.
  - intros Hvalid k Hparse. split.
    + intros Hnone. apply find_id_None in Hnone.
      by rewrite deleteUser_unfold, Hvalid, Hparse, Hnone.
    + intros r Hok Hr Hk.
      pose proof (find_id_unique _ k r (ids_unique db Hok) Hr Hk) as Hfind.
      destruct (find_id_split _ k r (ids_unique db Hok) Hfind)
        as (l1 & l2 & Hl & _ & H1 & H2).
      assert (Hidr : id_is k r = true) by (unfold id_is; lia).
      assert (Hgone : ∀ x, x ∈ l1 ++ l2 → User.id x ≠ k).
      { intros x Hx. pose proof (split_others k l1 l2 x H1 H2 Hx) as Hxk.
        unfold id_is in Hxk. lia. }
      exists l1, l2, {| users := l1 ++ l2; users_id_seq := users_id_seq db |}.
      split; [done|]. split; [done|]. split.
      { rewrite deleteUser_unfold, Hvalid, Hparse, Hfind, select_snapshot.
        by rewrite Hl, (remove_at_split (id_is k) l1 l2 r). }
      split; [done|].
      assert (Hrun :
        getUserById userId
          {| users := l1 ++ l2; users_id_seq := users_id_seq db |}
        = (Ok None, {| users := l1 ++ l2; users_id_seq := users_id_seq db |})).
      { rewrite getUserById_unfold, Hvalid, Hparse. cbn [users].
        apply find_id_None in Hgone. by rewrite Hgone. }
      split; [done|]. by rewrite getById_status, Hrun.
Qed.

(** C7 as stated fails.  "1.5" is not a positive integer, and
    [deleteUser] does not reject it: it removes the user of id 1.  And
    2147483648 is a positive integer that no row of [escola] has, on which
    [deleteUser] does not fail with NotFound but with the error of the
    client for a value out of range. *)
Lemma fractional_id_deletes :
  (decimal "1.5" = false
   ∧ (deleteUser "1.5" escola).1 ≠ Throw InvalidInput
   ∧ deleteUser "1.5" escola
     = (Ok (snapshot maria), {| users := [joao]; users_id_seq := 3 |}))
  ∧ (decimal "2147483648" = true
     ∧ decimal_value "2147483648" = 2147483648
     ∧ (∀ r, r ∈ users escola → User.id r ≠ 2147483648)
     ∧ deleteUser "2147483648" escola
       = (Throw (Unexpected ValueOutOfRange), escola)).
Proof.
  split.
  - split; [vm_compute; reflexivity|].
    assert (Hrun :
      deleteUser "1.5" escola
      = (Ok (snapshot maria), {| users := [joao]; users_id_seq := 3 |}))
      by (vm_compute; reflexivity).
    split; [by rewrite Hrun|exact Hrun].
  - split; [vm_compute; reflexivity|]. split; [vm_compute; reflexivity|].
    split; [|vm_compute; reflexivity].
    intros r [->|[->|Hr%elem_of_nil]%elem_of_cons]%elem_of_cons;
      [discriminate..|done].
Qed.

(** The outcomes of C7 on [escola]: an id that is not a number, an id
    without a row, and João removed and looked up again. *)
Lemma deleteUser_spec_witness :
  deleteUser "abc" escola = (Throw InvalidInput, escola)
  ∧ deleteUser "99" escola = (Throw (NotFound "99"), escola)
  ∧ ∃ l1 l2 db',
      users escola = l1 ++ joao :: l2
      ∧ deleteUser "2" escola = (Ok (snapshot joao), db')
      ∧ getUserById "2" db' = (Ok None, db')
      ∧ status (getById "2" db').1 = 404.
Proof.
  split; [|split].
  - apply (proj1 (deleteUser_spec "abc" escola)). reflexivity.
  - apply (proj1 (proj1 (proj2 (deleteUser_spec "99" escola))
                    eq_refl 99 eq_refl)).
    intros r [->|[->|Hr%elem_of_nil]%elem_of_cons]%elem_of_cons;
      [discriminate..|done].
  - destruct (proj2 (proj1 (proj2 (deleteUser_spec "2" escola))
                       eq_refl 2 eq_refl) joao escola_ok)
      as (l1 & l2 & db' & Hl & _ & Hrun & _ & Hget & Hstatus).
    + apply elem_of_cons. right. by left.
    + reflexivity.
    + exists l1, l2, db'.
      split; [exact Hl|]. split; [exact Hrun|].
      split; [exact Hget|exact Hstatus].
Defined.

(** * The controllers, and what else the operations guarantee *)

(** ** Characters and substrings *)

Lemma append_cons c p s : String c p +:+ s = String c (p +:+ s).
Proof. reflexivity. Qed.

Lemma includes_app_l p s sub :
  includes s sub = true → includes (p +:+ s) sub = true.
Proof.
  intros Hs. induction p as [|c p IH]; [done|].
  rewrite append_cons. cbn [includes].
  by destruct (strip_prefix sub (String c (p +:+ s))).
Qed.

Lemma includes_first_char s c sub :
  includes s (String c sub) = true → has_char c s = true.
Proof.
  induction s as [|a r IH]; [discriminate|].
  cbn [includes strip_prefix has_char].
  destruct (Ascii.eqb c a) eqn:Hca.
  - apply Ascii.eqb_eq in Hca as ->. by rewrite Ascii.eqb_refl.
  - intros Hr. rewrite IH; [apply orb_true_r|done].
Qed.

Lemma has_char_app c a b :
  has_char c (a +:+ b) = has_char c a || has_char c b.
Proof.
  induction a as [|x a IH]; [done|].
  rewrite append_cons. cbn [has_char]. by rewrite IH, orb_assoc.
Qed.

Lemma has_char_rev_app c s a :
  has_char c (String.rev_app s a) = has_char c s || has_char c a.
Proof.
  revert a. induction s as [|x s IH]; intros a; [done|].
  cbn [String.rev_app has_char]. rewrite IH. cbn [has_char].
  destruct (Ascii.eqb x c), (has_char c s), (has_char c a); done.
Qed.

Lemma has_char_rev c s : has_char c (String.rev s) = has_char c s.
Proof. unfold String.rev. rewrite has_char_rev_app. apply orb_false_r. Qed.

Lemma strip_prefix_chars c p s r :
  strip_prefix p s = Some r → has_char c s = has_char c p || has_char c r.
Proof.
  revert s. induction p as [|a p IH]; intros s; cbn [strip_prefix].
  - by intros [= ->].
  - destruct s as [|b s]; [discriminate|].
    destruct (Ascii.eqb a b) eqn:Hab; [|discriminate].
    apply Ascii.eqb_eq in Hab as ->. intros Hr.
    cbn [has_char]. by rewrite (IH _ Hr), orb_assoc.
Qed.

Lemma strip_any_chars c pats s r :
  Forall (λ p, has_char c p = false) pats → strip_any pats s = Some r →
  has_char c s = has_char c r.
Proof.
  induction 1 as [|p ps Hp _ IH]; cbn [strip_any]; [discriminate|].
  destruct (strip_prefix p s) as [r'|] eqn:Hs; [|done].
  intros [= ->]. by rewrite (strip_prefix_chars c p s r Hs), Hp.
Qed.

Lemma trim_go_chars c pats fuel s :
  Forall (λ p, has_char c p = false) pats →
  has_char c (trim_go fuel pats s) = has_char c s.
Proof.
  intros Hp. revert s. induction fuel as [|f IH]; intros s; [done|].
  cbn [trim_go]. destruct (strip_any pats s) as [r|] eqn:Hs; [|done].
  by rewrite IH, (strip_any_chars c pats s r Hp Hs).
Qed.

(** The letter j is in no white space. *)
Lemma StrWhiteSpaceChar_j :
  Forall (λ p, has_char "j" p = false) StrWhiteSpaceChar.
Proof. repeat constructor. Qed.

Lemma StrWhiteSpaceChar_rev_j :
  Forall (λ p, has_char "j" p = false) (map String.rev StrWhiteSpaceChar).
Proof. repeat constructor. Qed.

Lemma trim_j s : has_char "j" (trim s) = has_char "j" s.
Proof.
  unfold trim, trimEnd, trimStart.
  rewrite has_char_rev, (trim_go_chars _ _ _ _ StrWhiteSpaceChar_rev_j).
  by rewrite has_char_rev, (trim_go_chars _ _ _ _ StrWhiteSpaceChar_j).
Qed.

Lemma take_digits_chars c radix s ds rest :
  digit_val radix c = None → take_digits radix s = (ds, rest) →
  has_char c s = has_char c rest.
Proof.
  intros Hc. revert ds. induction s as [|a s IH]; intros ds; cbn [take_digits].
  - by intros [= _ <-].
  - destruct (digit_val radix a) as [d|] eqn:Ha; [|by intros [= _ <-]].
    destruct (take_digits radix s) as [ds' rest'] eqn:Hs.
    intros [= _ <-]. cbn [has_char].
    destruct (Ascii.eqb a c) eqn:Hac.
    { apply Ascii.eqb_eq in Hac as ->. congruence. }
    by rewrite (IH ds').
Qed.

Lemma strip_sign_j t : has_char "j" (strip_sign t).2 = has_char "j" t.
Proof. destruct t as [|c r]; [done|]. ascii_cases c; reflexivity. Qed.

Lemma NonDecimalIntegerLiteral_j t n :
  NonDecimalIntegerLiteral t = Some n → has_char "j" t = false.
Proof.
  destruct t as [|c t]; [discriminate|]. ascii_cases c.
  destruct t as [|x r]; [discriminate|]. ascii_cases x;
    cbn [NonDecimalIntegerLiteral Ascii.eqb Bool.eqb orb];
    (destruct (take_digits _ r) as [[|d ds] [|a rest]] eqn:Hd; try discriminate);
    intros _; cbn [has_char Ascii.eqb Bool.eqb orb];
    by rewrite (λ H, take_digits_chars "j" _ r _ _ H Hd).
Qed.

Lemma fraction_j r1 fp r2 :
  match r1 with
  | String "." r => take_digits 10 r
  | _ => ([], r1)
  end = (fp, r2) →
  has_char "j" r1 = has_char "j" r2.
Proof.
  destruct r1 as [|c r]; [by intros [= _ <-]|].
  ascii_cases c; intros H;
    first [ by injection H as _ <-
          | exact (take_digits_chars "j" 10 r fp r2 eq_refl H) ].
Qed.

Lemma StrUnsignedDecimalLiteral_j u q :
  StrUnsignedDecimalLiteral u = Some q → has_char "j" u = false.
Proof.
  unfold StrUnsignedDecimalLiteral.
  destruct (take_digits 10 u) as [ip r1] eqn:H1.
  rewrite (take_digits_chars "j" 10 u ip r1 eq_refl H1).
  match goal with
  | |- context [match ?m with (_, _) => _ end] =>
      destruct m as [fp r2] eqn:H2
  end.
  rewrite (fraction_j r1 fp r2 H2).
  destruct (ip ++ fp) as [|d ds]; [discriminate|].
  destruct r2 as [|e r3]; [done|].
  destruct (Ascii.eqb e "e" || Ascii.eqb e "E") eqn:He; [|discriminate].
  destruct (strip_sign r3) as [neg r4] eqn:H3.
  destruct (take_digits 10 r4) as [[|x xs] [|y ys]] eqn:H4; try discriminate.
  intros _. pose proof (strip_sign_j r3) as Hr3. rewrite H3 in Hr3.
  cbn [snd] in Hr3. cbn [has_char].
  rewrite <- Hr3, (take_digits_chars "j" 10 r4 _ _ eq_refl H4).
  apply orb_true_iff in He as [->%Ascii.eqb_eq| ->%Ascii.eqb_eq]; reflexivity.
Qed.

(** A string that [Number] reads as a number has no letter j in it. *)
Lemma number_j s : isNaN s = false → has_char "j" s = false.
Proof.
  unfold isNaN, StringToNumber. rewrite <- (trim_j s).
  generalize (trim s) as t. intros t. cbv zeta.
  destruct (String.eqb t EmptyString) eqn:Ht.
  { by apply String.eqb_eq in Ht as ->. }
  destruct (NonDecimalIntegerLiteral t) as [n|] eqn:Hn.
  { intros _. by apply (NonDecimalIntegerLiteral_j t n). }
  pose proof (strip_sign_j t) as Hsign.
  destruct (strip_sign t) as [neg u]. cbn [snd] in Hsign. rewrite <- Hsign.
  destruct (String.eqb u "Infinity") eqn:Hi.
  { by apply String.eqb_eq in Hi as ->. }
  destruct (StrUnsignedDecimalLiteral u) as [q|] eqn:Hq; [|discriminate].
  intros _. by apply (StrUnsignedDecimalLiteral_j u q).
Qed.

Lemma invalid_id_isNaN userId : invalid_id userId = false → isNaN userId = false.
Proof.
  unfold invalid_id. by intros [[_ H]%orb_false_elim _]%orb_false_elim.
Qed.

(** ** The messages the controllers look into *)

Lemma message_NotFound userId :
  includes (message (NotFound userId)) "não encontrado" = true.
Proof.
  cbn [message]. do 2 apply includes_app_l. vm_compute. reflexivity.
Qed.

Lemma message_NotFound_not_in_use userId :
  invalid_id userId = false →
  includes (message (NotFound userId)) "já está em uso" = false.
Proof.
  intros Hid. apply Bool.not_true_iff_false. intros Hin.
  apply includes_first_char in Hin. cbn [message] in Hin.
  rewrite !has_char_app, (number_j userId (invalid_id_isNaN _ Hid)) in Hin.
  discriminate.
Qed.

(** ** Rows of the table [escola] *)

Lemma escola_free e :
  e ≠ "maria@escola.com" → e ≠ "joao@escola.com" →
  ∀ x, x ∈ users escola → User.email x ≠ e.
Proof.
  intros Hm Hj x [->|[->|Hx%elem_of_nil]%elem_of_cons]%elem_of_cons;
    [by intros <-|by intros <-|done].
Qed.

Lemma escola_no_99 : ∀ r, r ∈ users escola → User.id r ≠ 99.
Proof.
  intros r [->|[->|Hr%elem_of_nil]%elem_of_cons]%elem_of_cons;
    [discriminate..|done].
Qed.

Lemma maria_in_escola : maria ∈ users escola.
Proof. by left. Qed.

Lemma joao_in_escola : joao ∈ users escola.
Proof. right. by left. Qed.

(** ** What a failing call leaves behind *)

Lemma updateUser_Throw now userId userData db e :
  store_ok db → (updateUser now userId userData db).1 = Throw e →
  updateUser now userId userData db = (Throw e, db).
Proof.
  intros Hok He.
  destruct (updateUser_cases now userId userData db Hok)
    as [[e' Hrun]|(k & r & l1 & l2 & _ & _ & _ & _ & _ & _ & Hrun)];
    rewrite Hrun in He |- *; simpl in He; [congruence|discriminate].
Qed.

Lemma deleteUser_Throw userId db e :
  store_ok db → (deleteUser userId db).1 = Throw e →
  deleteUser userId db = (Throw e, db).
Proof.
  intros Hok He.
  destruct (deleteUser_cases userId db Hok)
    as [[e' Hrun]|(k & r & l1 & l2 & _ & _ & _ & _ & _ & Hrun)];
    rewrite Hrun in He |- *; simpl in He; [congruence|discriminate].
Qed.

Lemma createUser_Throw now userData db e :
  (createUser now userData db).1 = Throw e →
  createUser now userData db = (Throw e, db).
Proof.
  intros He.
  destruct (createUser_cases now userData db) as [[e' Hrun]|(_ & _ & Hrun)];
    rewrite Hrun in He |- *; simpl in He; [congruence|discriminate].
Qed.

(** ** The answers of the routes *)

Lemma getAllUsers_run db :
  getAllUsers db =
    (Ok (select public_fields ∘ User.to_object
           <$> merge_sort (prisma.user.createdAt_order prisma.user.desc)
                 (users db)), db).
Proof. unfold getAllUsers. by rewrite bind_ret. Qed.

Lemma getAll_run db :
  userController.getAll db =
    ({| list_status := 200; list_success := true;
        list_data :=
          Some (select public_fields ∘ User.to_object
                  <$> merge_sort (prisma.user.createdAt_order prisma.user.desc)
                        (users db));
        list_total := Some (Z.of_nat (length (users db)));
        list_message := None; list_error := None |}, db).
Proof.
  unfold userController.getAll. rewrite getAllUsers_run.
  by rewrite length_fmap,
    (Permutation_length (merge_sort_Permutation _ (users db))).
Qed.

(** X1. [GET /users] answers 200 with the list the service returns and,
    as [total], the number of rows of the table, which it leaves as it
    is.  (On the in-memory table the query itself cannot fail, so the 500
    of the [catch] is never taken.) *)
Theorem getAll_answers db :
  ∃ usuarios,
    getAllUsers db = (Ok usuarios, db)
    ∧ userController.getAll db =
        ({| list_status := 200; list_success := true;
            list_data := Some usuarios;
            list_total := Some (Z.of_nat (length (users db)));
            list_message := None; list_error := None |}, db)
    ∧ length usuarios = length (users db).
Proof.
  eexists. split; [apply getAllUsers_run|]. split; [apply getAll_run|].
  by rewrite length_fmap,
    (Permutation_length (merge_sort_Permutation _ (users db))).
Qed.


Lemma required_given_false userData :
  required_given userData = false →
  negb (truthy (get userData "nome")) || negb (truthy (get userData "email"))
  || negb (truthy (get userData "senha")) = true.
Proof.
  unfold required_given.
  by destruct (truthy (get userData "nome")),
    (truthy (get userData "email")), (truthy (get userData "senha")).
Qed.

(** X2. [POST /users].  A body in which one of [nome], [email], [senha] is
    missing or falsy is answered 400 with the message of the service; a
    body with the three given whose email (a text without a NUL
    character) a row already has is answered 400 with "Email já
    cadastrado no sistema"; a well-formed body (no NUL character in a
    text) with an email no row has, on a table whose id sequence is not
    exhausted, is answered 201 with the created record, and the row is
    appended to the table.  Whenever the answer is not 201 the table is
    unchanged. *)
Theorem create_answers now body db :
  (required_given body = false →
   userController.create now body db = (refusal 400 MissingFields, db))
  ∧ (∀ e, required_given body = true → get body "email" = VStr e →
          storable e = true →
          (∃ r, r ∈ users db ∧ User.email r = e) →
          userController.create now body db = (refusal 400 DuplicateEmail, db))
  ∧ (well_formed body = true → has_next_id db →
     (∀ x, x ∈ users db → User.email x ≠ text_of (get body "email")) →
     userController.create now body db =
       ({| status := 201; success := true;
           res_message := Some "Usuário criado com sucesso";
           res_data :=
             Some (select public_fields
                     (User.to_object (new_row body now db)));
           res_error := None |},
        insert_row (new_row body now db) db))
  ∧ (status (userController.create now body db).1 ≠ 201 →
     (userController.create now body db).2 = db).
Proof.
  split; [|split; [|split]].
  - intros Hreq. unfold userController.create.
    by rewrite createUser_run, (required_given_false body Hreq).
  - intros e Hreq He Hst Hdup. unfold userController.create.
    by rewrite (createUser_duplicate now body db e Hreq He Hst Hdup).
  - intros Hwf Hnext Hfree. unfold userController.create.
    by rewrite (createUser_well_formed now body db Hwf Hnext Hfree).
  - unfold userController.create.
    destruct (createUser_cases now body db) as [[e Hrun]|(_ & _ & Hrun)];
      rewrite Hrun; [|done].
    by destruct (includes (message e) "obrigatórios" || _).
Qed.

(** The three answers of X2 on [escola]. *)
Lemma create_answers_witness :
  userController.create 3000 (delete "nome" novo_professor) escola
  = (refusal 400 MissingFields, escola)
  ∧ userController.create 3000 outra_maria escola
    = (refusal 400 DuplicateEmail, escola)
  ∧ status (userController.create 3000 novo_professor escola).1 = 201.
Proof.
  split; [|split].
  - apply (proj1 (create_answers 3000 (delete "nome" novo_professor) escola)).
    reflexivity.
  - apply (proj1 (proj2 (create_answers 3000 outra_maria escola))
             "maria@escola.com"); [reflexivity..|].
    exists maria. split; [apply maria_in_escola|reflexivity].
  - rewrite (proj1 (proj2 (proj2
               (create_answers 3000 novo_professor escola))));
      [reflexivity..|].
    by apply escola_free.
Defined.

(** X3. [PUT /users/:id] on a consistent table, for an id that passes the
    validation and whose [parseInt] is an integer k of 32 bits.  When no
    row has the id k the answer is 404 with the message that names the id
    as it was given; when the body gives an email (a text without a NUL
    character) that differs from that of the row and that another row
    has, the answer is 400 with "Email já está em uso por outro usuário";
    both leave the table unchanged.  When the body is one the client and
    the database accept (no NUL character in a text) and its email is not
    that of another row, the answer is 200 with the merged record,
    written in place of the row; its [updatedAt] is the time of the call
    when a field is merged, and when none is the record is the row as it
    was and the table is unchanged. *)
Theorem update_answers now id body db k :
  store_ok db → invalid_id id = false → prisma.Int (parseInt id) = Ok k →
  ((∀ r, r ∈ users db → User.id r ≠ k) →
   userController.update now id body db = (refusal 404 (NotFound id), db))
  ∧ (∀ r e, r ∈ users db → User.id r = k →
            body !! "email" = Some (VStr e) → storable e = true →
            e ≠ User.email r →
            (∃ x, x ∈ users db ∧ User.email x = e) →
            userController.update now id body db = (refusal 400 EmailInUse, db))
  ∧ (∀ r, r ∈ users db → User.id r = k → acceptable body = true →
          (∀ e x, get body "email" = VStr e → x ∈ users db →
                  User.email x = e → User.id x = k) →
          ∃ l1 l2,
            users db = l1 ++ r :: l2
            ∧ userController.update now id body db =
                ({| status := 200; success := true;
                    res_message := Some "Usuário atualizado com sucesso";
                    res_data :=
                      Some (select updated_fields
                              (User.to_object (merge body now r)));
                    res_error := None |},
                 {| users := l1 ++ merge body now r :: l2;
                    users_id_seq := users_id_seq db |})
            ∧ (merges body = true → User.updatedAt (merge body now r) = now)
            ∧ (merges body = false →
               merge body now r = r
               ∧ (userController.update now id body db).2 = db)).
Proof.
  intros Hok Hid Hk. split; [|split].
  - intros Hnone. apply find_id_None in Hnone.
    unfold userController.update.
    rewrite updateUser_unfold, Hid, Hk, Hnone.
    by rewrite (message_NotFound_not_in_use id Hid), message_NotFound.
  - intros r e Hr Hrk He Hst Hne (x & Hx & Hxe).
    assert (Hthrow : (updateUser now id body db).1 = Throw EmailInUse).
    { apply updateUser_EmailInUse; [done|]. split; [done|].
      exists k, r, e. split_and!; try done. exists x. split_and!; try done.
      intros Hxk. apply Hne. rewrite <- Hxe.
      f_equal. apply (unique_row (users db)); [apply Hok|done..|congruence]. }
    unfold userController.update.
    by rewrite (updateUser_Throw now id body db _ Hok Hthrow).
  - intros r Hr Hrk Hacc Hfree.
    destruct (updateUser_ok now id body db k r Hok Hid Hk Hr Hrk Hacc Hfree)
      as (l1 & l2 & Hl & Hrun).
    exists l1, l2. split; [done|].
    unfold userController.update. rewrite Hrun. split; [done|]. split.
    + intros Hm. unfold merge. by rewrite Hm.
    + intros Hm. split; [by apply merge_nothing|].
      cbn [snd]. rewrite (merge_nothing _ _ _ Hm), <- Hl. by destruct db.
Qed.

(** X3 on [escola]: João cannot take the email of Maria. *)
Lemma update_answers_witness :
  userController.update 3000 "2" email_de_maria escola
  = (refusal 400 EmailInUse, escola).
Proof.
  destruct (update_answers 3000 "2" email_de_maria escola 2)
    as (_ & Hin_use & _); [exact escola_ok|reflexivity..|].
  apply (Hin_use joao "maria@escola.com");
    [apply joao_in_escola|reflexivity|reflexivity|reflexivity|discriminate|].
  exists maria. split; [apply maria_in_escola|reflexivity].
Defined.

(** X4. [DELETE /users/:id] on a consistent table, for an id that passes
    the validation and whose [parseInt] is an integer k of 32 bits.  When
    no row has the id k the
    answer is 404 with the message that names the id as it was given, and
    the table is unchanged; when a row has it, the answer is 200 with
    "Usuário removido com sucesso" and the snapshot [{ id, nome, email }]
    of the row, and that row is gone. *)
Theorem remove_answers id db k :
  store_ok db → invalid_id id = false → prisma.Int (parseInt id) = Ok k →
  ((∀ r, r ∈ users db → User.id r ≠ k) →
   userController.remove id db = (refusal 404 (NotFound id), db))
  ∧ (∀ r, r ∈ users db → User.id r = k →
          ∃ l1 l2,
            users db = l1 ++ r :: l2
            ∧ userController.remove id db =
                ({| status := 200; success := true;
                    res_message := Some "Usuário removido com sucesso";
                    res_data := Some (snapshot r); res_error := None |},
                 {| users := l1 ++ l2; users_id_seq := users_id_seq db |})).
Proof.
  intros Hok Hid Hk. split.
  - intros Hnone. apply find_id_None in Hnone.
    unfold userController.remove.
    by rewrite deleteUser_unfold, Hid, Hk, Hnone, message_NotFound.
  - intros r Hr Hrk.
    pose proof (find_id_unique _ k r (ids_unique db Hok) Hr Hrk) as Hfind.
    destruct (find_id_split _ k r (ids_unique db Hok) Hfind)
      as (l1 & l2 & Hl & _ & H1 & H2).
    assert (Hidr : id_is k r = true) by (unfold id_is; lia).
    exists l1, l2. split; [done|]. unfold userController.remove.
    rewrite deleteUser_unfold, Hid, Hk, Hfind, select_snapshot.
    by rewrite Hl, (remove_at_split (id_is k) l1 l2 r).
Qed.

(** X4 on [escola]: an id without a row, and João removed. *)
Lemma remove_answers_witness :
  userController.remove "99" escola = (refusal 404 (NotFound "99"), escola)
  ∧ ∃ l1 l2,
      users escola = l1 ++ joao :: l2
      ∧ userController.remove "2" escola =
          ({| status := 200; success := true;
              res_message := Some "Usuário removido com sucesso";
              res_data := Some (snapshot joao); res_error := None |},
           {| users := l1 ++ l2; users_id_seq := 3 |}).
Proof.
  split.
  - apply (remove_answers "99" escola 99); [exact escola_ok|reflexivity..|].
    apply escola_no_99.
  - apply (remove_answers "2" escola 2);
      [exact escola_ok|reflexivity..|apply joao_in_escola|reflexivity].
Defined.

(** X5. An id that fails the validation is answered 400 by
    [GET /users/:id] only: the [catch] of [update] looks for "já está em
    uso" and "não encontrado" in the message, that of [remove] for "não
    encontrado", and the message "ID inválido. Deve ser um número
    positivo" has neither, so [PUT] and [DELETE] answer 500.  The table is
    unchanged in the three cases. *)
Theorem invalid_id_answers now id body db :
  invalid_id id = true →
  getById id db = (refusal 400 InvalidInput, db)
  ∧ userController.update now id body db
    = (failure "Erro ao atualizar usuário" InvalidInput, db)
  ∧ userController.remove id db
    = (failure "Erro ao remover usuário" InvalidInput, db).
Proof.
  intros Hid. split; [|split].
  - unfold getById. by rewrite getUserById_unfold, Hid.
  - unfold userController.update. by rewrite updateUser_unfold, Hid.
  - unfold userController.remove. by rewrite deleteUser_unfold, Hid.
Qed.

(** X5 on [escola], for the id [abc]. *)
Lemma invalid_id_answers_witness :
  getById "abc" escola = (refusal 400 InvalidInput, escola)
  ∧ userController.update 3000 "abc" novo_nome escola
    = (failure "Erro ao atualizar usuário" InvalidInput, escola)
  ∧ userController.remove "abc" escola
    = (failure "Erro ao remover usuário" InvalidInput, escola).
Proof.
  apply (invalid_id_answers 3000 "abc" novo_nome escola). reflexivity.
Defined.


(** ** The controller before the service *)

Lemma findUnique_id n k sel db :
  prisma.Int n = Ok k →
  prisma.user.findUnique (prisma.user.where_id n) sel db =
    (Ok (prisma.user.project sel <$> List.find (id_is k) (users db)), db).
Proof.
  intros Hn. unfold prisma.user.findUnique. by rewrite (resolve_Int _ _ Hn).
Qed.

Lemma findUnique_no_id n e sel db :
  prisma.Int n = Throw e →
  prisma.user.findUnique (prisma.user.where_id n) sel db = (Throw e, db).
Proof.
  intros Hn. unfold prisma.user.findUnique.
  by rewrite (resolve_not_Int _ _ Hn).
Qed.



Lemma v1_getById_NaN id db :
  parseInt id = NaN →
  userController_v1.getById id db =
    ({| status := 400; success := false;
        res_message := Some "ID inválido. Deve ser um número";
        res_data := None; res_error := None |}, db).
Proof. intros Hk. unfold userController_v1.getById. by rewrite Hk. Qed.

Lemma v1_getById_run id db k :
  prisma.Int (parseInt id) = Ok k →
  userController_v1.getById id db =
    match List.find (id_is k) (users db) with
    | Some r =>
        ({| status := 200; success := true; res_message := None;
            res_data := Some (select public_fields (User.to_object r));
            res_error := None |}, db)
    | None =>
        ({| status := 404; success := false;
            res_message :=
              Some ("Usuário com ID " +:+ Number_toString k
                    +:+ " não encontrado");
            res_data := None; res_error := None |}, db)
    end.
Proof.
  intros Hk. destruct (Int_Ok _ _ Hk) as [Hnan Hstr].
  unfold userController_v1.getById. cbv zeta.
  rewrite (findUnique_id _ k _ db Hk), Hstr.
  destruct (parseInt id); [done| |];
    by destruct (List.find _ (users db)).
Qed.

Lemma v1_getById_Throw id db e :
  parseInt id ≠ NaN → prisma.Int (parseInt id) = Throw e →
  userController_v1.getById id db = (failure "Erro ao buscar usuário" e, db).
Proof.
  intros Hnan Hk. unfold userController_v1.getById. cbv zeta.
  rewrite (findUnique_no_id _ e _ db Hk). by destruct (parseInt id).
Qed.

Lemma getById_run id db k :
  invalid_id id = false → prisma.Int (parseInt id) = Ok k →
  getById id db =
    match List.find (id_is k) (users db) with
    | Some r =>
        ({| status := 200; success := true; res_message := None;
            res_data := Some (select public_fields (User.to_object r));
            res_error := None |}, db)
    | None =>
        ({| status := 404; success := false;
            res_message :=
              Some ("Usuário com ID " +:+ id +:+ " não encontrado");
            res_data := None; res_error := None |}, db)
    end.
Proof.
  intros Hid Hk. unfold getById. rewrite getUserById_unfold, Hid, Hk.
  by destruct (List.find _ (users db)).
Qed.


Lemma getById_decimal id db :
  decimal id = true → 1 ≤ decimal_value id < 2 ^ 31 →
  getById id db =
    match List.find (id_is (decimal_value id)) (users db) with
    | Some r =>
        ({| status := 200; success := true; res_message := None;
            res_data := Some (select public_fields (User.to_object r));
            res_error := None |}, db)
    | None =>
        ({| status := 404; success := false;
            res_message :=
              Some ("Usuário com ID " +:+ id +:+ " não encontrado");
            res_data := None; res_error := None |}, db)
    end.
Proof.
  intros Hdec [Hpos Hint].
  apply getById_run; [by apply invalid_id_decimal|by apply Int_decimal].
Qed.

Lemma issued_ids_positive db k :
  store_ok db → k < 1 → List.find (id_is k) (users db) = None.
Proof.
  intros Hok Hlow. apply find_id_None. intros r Hr.
  pose proof (ids_issued db Hok) as Hids.
  rewrite Forall_forall in Hids. specialize (Hids r Hr). lia.
Qed.


(** X6. [getById] of the first controller validates with
    [isNaN(parseInt(id))] alone.  It answers 400 exactly on the ids
    [parseInt] reads no integer from.  For an id read as an integer k of
    32 bits it answers 404 (with k, not the text of the id, in the
    message) when no row has the id k, and 200 with the row without
    [senha] when a row of a consistent table has it; so zero and the
    negative integers from -2^31 on are looked up, and answered 404 on a
    consistent table.  For an id read as a number that is no integer of 32
    bits (2^31 and above, below -2^31) the lookup fails and the answer is
    500, with the message of the client in [error]. *)
Theorem v1_getById_answers id db :
  (status (userController_v1.getById id db).1 = 400 ↔ parseInt id = NaN)
  ∧ (parseInt id = NaN →
     userController_v1.getById id db =
       ({| status := 400; success := false;
           res_message := Some "ID inválido. Deve ser um número";
           res_data := None; res_error := None |}, db))
  ∧ (∀ k, prisma.Int (parseInt id) = Ok k →
       - 2 ^ 31 ≤ k < 2 ^ 31
       ∧ ((∀ r, r ∈ users db → User.id r ≠ k) →
          userController_v1.getById id db =
            ({| status := 404; success := false;
                res_message :=
                  Some ("Usuário com ID " +:+ Number_toString k
                        +:+ " não encontrado");
                res_data := None; res_error := None |}, db))
       ∧ (∀ r, store_ok db → r ∈ users db → User.id r = k →
          userController_v1.getById id db =
            ({| status := 200; success := true; res_message := None;
                res_data := Some (select public_fields (User.to_object r));
                res_error := None |}, db))
       ∧ (store_ok db → k < 1 →
          status (userController_v1.getById id db).1 = 404))
  ∧ (∀ e, parseInt id ≠ NaN → prisma.Int (parseInt id) = Throw e →
       userController_v1.getById id db
       = ({| status := 500; success := false;
             res_message := Some "Erro ao buscar usuário";
             res_data := None; res_error := Some (message e) |}, db)).
Proof.
  split; [|split; [apply v1_getById_NaN|split]].
  - destruct (prisma.Int (parseInt id)) as [k|e] eqn:Hk.
    + rewrite (v1_getById_run id db k Hk).
      destruct (Int_Ok _ _ Hk) as [Hnan _].
      by destruct (List.find (id_is k) (users db)).
    + destruct (parseInt id) as [|q|neg] eqn:Hn.
      * by rewrite (v1_getById_NaN id db Hn).
      * rewrite (v1_getById_Throw id db e); [done|by rewrite Hn|by rewrite Hn].
      * rewrite (v1_getById_Throw id db e); [done|by rewrite Hn|by rewrite Hn].
  - intros k Hk. rewrite (v1_getById_run id db k Hk).
    split; [by apply (Int_range _ _ Hk)|]. split; [|split].
    + intros Hnone. apply find_id_None in Hnone. by rewrite Hnone.
    + intros r Hok Hr Hrk.
      by rewrite (find_id_unique _ k r (ids_unique db Hok) Hr Hrk).
    + intros Hok Hlow. by rewrite (issued_ids_positive db k Hok Hlow).
  - intros e Hnan Hk. by rewrite (v1_getById_Throw id db e Hnan Hk).
Qed.

(** X6 on [escola]: an id that is no number, a negative id, João, and an
    id beyond 32 bits. *)
Lemma v1_getById_answers_witness :
  status (userController_v1.getById "abc" escola).1 = 400
  ∧ status (userController_v1.getById "-5" escola).1 = 404
  ∧ userController_v1.getById "2" escola =
      ({| status := 200; success := true; res_message := None;
          res_data := Some (select public_fields (User.to_object joao));
          res_error := None |}, escola)
  ∧ status (userController_v1.getById "2147483648" escola).1 = 500.
Proof.
  split; [|split; [|split]].
  - apply (proj1 (v1_getById_answers "abc" escola)). reflexivity.
  - apply (proj2 (proj2 (proj2 (proj1 (proj2 (proj2
             (v1_getById_answers "-5" escola))) (-5) eq_refl))));
      [exact escola_ok|reflexivity].
  - apply (proj1 (proj2 (proj2 (proj1 (proj2 (proj2
             (v1_getById_answers "2" escola))) 2 eq_refl))) joao);
      [exact escola_ok|apply joao_in_escola|reflexivity].
  - rewrite (proj2 (proj2 (proj2 (v1_getById_answers "2147483648" escola)))
               (Unexpected ValueOutOfRange));
      [reflexivity|discriminate|reflexivity].
Defined.





Lemma v1_getAll_same db :
  userController_v1.getAll db = userController.getAll db.
Proof.
  unfold userController_v1.getAll, userController.getAll, getAllUsers.
  by rewrite bind_ret.
Qed.




(** ** The fields of what is returned *)

Lemma public_row_fields r :
  has_fields public_fields (select public_fields (User.to_object r)).
Proof. reflexivity. Qed.

Lemma updated_row_fields r :
  has_fields updated_fields (select updated_fields (User.to_object r)).
Proof. reflexivity. Qed.

Lemma snapshot_fields r :
  has_fields ["id"; "nome"; "email"]
    (select ["id"; "nome"; "email"] (User.to_object r)).
Proof. reflexivity. Qed.

Lemma getAllUsers_fields db :
  on_success (Forall (has_fields public_fields)) (getAllUsers db).
Proof.
  rewrite getAllUsers_run. unfold on_success. cbn [fst].
  apply Forall_fmap, Forall_forall. intros r _. apply public_row_fields.
Qed.

Lemma getUserById_fields userId db :
  on_success (λ found, ∀ o, found = Some o → has_fields public_fields o)
    (getUserById userId db).
Proof.
  rewrite getUserById_unfold. unfold on_success.
  destruct (invalid_id userId); [done|].
  destruct (prisma.Int (parseInt userId)) as [k|e0] eqn:Hint; [|done].
  destruct (List.find (id_is k) (users db)) as [r|]; cbn [fst]; [|done].
  intros o Heq.
  assert (o = select public_fields (User.to_object r)) as -> by congruence.
  apply public_row_fields.
Qed.

Lemma createUser_fields now userData db :
  on_success (has_fields public_fields) (createUser now userData db).
Proof.
  destruct (createUser_cases now userData db) as [[e ->]|(_ & _ & ->)];
    [done|]. apply public_row_fields.
Qed.

Lemma update_fields w k userData now db r :
  prisma.user.resolve w = Ok (id_is k) →
  List.find (id_is k) (users db) = Some r →
  on_success (has_fields updated_fields)
    (prisma.user.update w
       (dadosAtualizacao userData) (Some updated_fields) now db).
Proof.
  intros Hw Hfind. rewrite (update_dados w k userData _ now db r Hw Hfind).
  unfold on_success.
  destruct (acceptable userData); [|done].
  destruct (merges userData); [|apply updated_row_fields].
  destruct (existsb _ (users db)); [done|].
  apply updated_row_fields.
Qed.

Lemma updateUser_fields now userId userData db :
  on_success (has_fields updated_fields) (updateUser now userId userData db).
Proof.
  rewrite updateUser_unfold.
  destruct (invalid_id userId); [done|].
  destruct (prisma.Int (parseInt userId)) as [k|e0] eqn:Hint; [|done].
  destruct (List.find (id_is k) (users db)) as [r|] eqn:Hfind; [|done].
  pose proof (update_fields _ k userData now db r (resolve_Int _ _ Hint)
                Hfind) as Hupd.
  destruct (truthy (get userData "email") && _); [|done].
  destruct (get userData "email") as [| | | |e|]; try done.
  destruct (storable e); [|done].
  destruct (existsb _ (users db)); done.
Qed.

Lemma deleteUser_fields userId db :
  on_success (has_fields ["id"; "nome"; "email"]) (deleteUser userId db).
Proof.
  rewrite deleteUser_unfold. unfold on_success.
  destruct (invalid_id userId); [done|].
  destruct (prisma.Int (parseInt userId)) as [k|e0] eqn:Hint; [|done].
  destruct (List.find (id_is k) (users db)) as [r|]; [|done].
  apply snapshot_fields.
Qed.

Lemma findUnique_reads w sel db : (prisma.user.findUnique w sel db).2 = db.
Proof. unfold prisma.user.findUnique. by destruct (prisma.user.resolve w). Qed.

(** X9. The data of an answer has exactly the selected fields: [id],
    [nome], [email], [papel], [foto], [createdAt] for every user of the
    list, the user found, and the user created (both versions of the
    controller); those and [updatedAt] for the user updated; [id], [nome],
    [email] for the user removed.  [updatedAt] is thus returned by the
    update only, and [senha] by nothing. *)
Theorem answers_fields now id body db :
  list_has_fields public_fields (userController.getAll db).1
  ∧ data_has_fields public_fields (getById id db).1
  ∧ data_has_fields public_fields (userController.create now body db).1
  ∧ data_has_fields updated_fields (userController.update now id body db).1
  ∧ data_has_fields ["id"; "nome"; "email"] (userController.remove id db).1
  ∧ list_has_fields public_fields (userController_v1.getAll db).1
  ∧ data_has_fields public_fields (userController_v1.getById id db).1
  ∧ data_has_fields public_fields (userController_v1.create now body db).1.
Proof.
  assert (Hall : list_has_fields public_fields (userController.getAll db).1).
  { pose proof (getAllUsers_fields db) as H. unfold on_success in H.
    unfold userController.getAll.
    destruct (getAllUsers db) as [[us|e] db']; cbn [fst] in *; [|done].
    intros l Hl. cbn [list_data] in Hl. congruence. }
  split; [done|]. split; [|split; [|split; [|split; [|split; [|split]]]]].
  - pose proof (getUserById_fields id db) as H. unfold on_success in H.
    unfold getById.
    destruct (getUserById id db) as [[[u|]|e] db']; cbn [fst] in *;
      [| |by destruct (includes (message e) "inválido")]; intros o Ho;
      cbn [res_data fst] in Ho; [|done].
    apply H. congruence.
  - pose proof (createUser_fields now body db) as H. unfold on_success in H.
    unfold userController.create.
    destruct (createUser now body db) as [[u|e] db']; cbn [fst] in *.
    + intros o Ho. cbn [res_data] in Ho. congruence.
    + by destruct (includes (message e) "obrigatórios" || _).
  - pose proof (updateUser_fields now id body db) as H. unfold on_success in H.
    unfold userController.update.
    destruct (updateUser now id body db) as [[u|e] db']; cbn [fst] in *.
    + intros o Ho. cbn [res_data] in Ho. congruence.
    + by destruct (includes (message e) "já está em uso"),
        (includes (message e) "não encontrado").
  - pose proof (deleteUser_fields id db) as H. unfold on_success in H.
    unfold userController.remove.
    destruct (deleteUser id db) as [[u|e] db']; cbn [fst] in *.
    + intros o Ho. cbn [res_data] in Ho. congruence.
    + by destruct (includes (message e) "não encontrado").
  - by rewrite v1_getAll_same.
  - destruct (prisma.Int (parseInt id)) as [k|e0] eqn:Hk.
    + rewrite (v1_getById_run id db k Hk).
      destruct (List.find (id_is k) (users db)) as [r|]; [|done].
      intros o Ho. cbn [res_data fst] in Ho.
      assert (o = select public_fields (User.to_object r)) as ->
        by congruence.
      apply public_row_fields.
    + destruct (parseInt id) as [|q|neg] eqn:Hn;
        [by rewrite (v1_getById_NaN id db Hn)| |];
        by rewrite (v1_getById_Throw id db e0);
          [|rewrite Hn|rewrite Hn].
  - unfold userController_v1.create. cbv zeta.
    destruct (negb (truthy (get body "nome")) || _ || _); [done|].
    destruct (prisma.user.findUnique _ None db) as [[[u|]|e] db'] eqn:Hfind;
      [done| |done].
    assert (db' = db) as ->.
    { pose proof (findUnique_reads
                    (prisma.user.where_email (get body "email")) None db) as H.
      by rewrite Hfind in H. }
    rewrite create_create_data.
    destruct (is_text (get body "nome") && _ && _ && _ && _); [|done].
    destruct (negb (all_clean body)); [done|].
    destruct (negb (users_id_seq db <? 2 ^ 31)); [done|].
    destruct (existsb _ (users db)); [done|].
    intros o Ho. cbn [res_data fst] in Ho. unfold prisma.user.project in Ho.
    assert (o = select public_fields
                  (User.to_object (new_row body now db))) as -> by congruence.
    apply public_row_fields.
Qed.


(** ** The helper of the two email checks *)

(** X10. [emailExists(email)] for a string without a NUL character
    answers [true] exactly when a row of the table has this email, and
    leaves the table as it is; for a string with a NUL character the
    database refuses the lookup, and for anything that is not a string
    the client does. *)
Theorem emailExists_spec email db :
  match email with
  | VStr e =>
      if storable e then
        ∃ b, emailExists email db = (Ok b, db)
             ∧ (b = true ↔ ∃ r, r ∈ users db ∧ User.email r = e)
      else emailExists email db = (Throw (Unexpected InvalidByteSequence), db)
  | _ => emailExists email db = (Throw (Unexpected ValidationError), db)
  end.
Proof.
  destruct email as [| | | |e|]; try by apply emailExists_not_text.
  rewrite emailExists_text. destruct (storable e); [|done].
  exists (existsb (email_is e) (users db)).
  split; [done|apply existsb_email].
Qed.


(** ** The errors of each operation *)








(** X12. A create, an update or a removal that throws leaves the table
    exactly as it was, whatever the table and the arguments. *)
Theorem failed_calls_change_nothing now userId userData db :
  fails_cleanly (createUser now userData) db
  ∧ fails_cleanly (updateUser now userId userData) db
  ∧ fails_cleanly (deleteUser userId) db.
Proof.
  unfold fails_cleanly. split; [|split].
  - by destruct (createUser_cases now userData db) as [[e ->]|(_ & _ & ->)].
  - rewrite updateUser_unfold.
    destruct (invalid_id userId); [done|].
    destruct (prisma.Int (parseInt userId)) as [k|e0] eqn:Hint; [|done].
    destruct (List.find (id_is k) (users db)) as [r|] eqn:Hfind; [|done].
    assert (Hupd : ∀ sel,
      match (prisma.user.update (prisma.user.where_id (parseInt userId))
               (dadosAtualizacao userData) sel now db).1 with
      | Ok _ => True
      | Throw _ =>
          (prisma.user.update (prisma.user.where_id (parseInt userId))
             (dadosAtualizacao userData) sel now db).2 = db
      end).
    { intros sel.
      rewrite (update_dados _ k userData sel now db r (resolve_Int _ _ Hint)
                 Hfind).
      destruct (acceptable userData); [|done].
      destruct (merges userData); [|done].
      by destruct (existsb _ (users db)). }
    destruct (truthy (get userData "email") && _); [|apply Hupd].
    destruct (get userData "email") as [| | | |e|]; try done.
    destruct (storable e); [|done].
    destruct (existsb _ (users db)); [done|apply Hupd].
  - rewrite deleteUser_unfold.
    destruct (invalid_id userId); [done|].
    destruct (prisma.Int (parseInt userId)) as [k|e0] eqn:Hint; [|done].
    by destruct (List.find (id_is k) (users db)).
Qed.


(** ** Identifiers over time *)

Lemma handle_seq q db :
  store_ok db → users_id_seq db ≤ users_id_seq (handle q db).
Proof.
  intros Hok. destruct q as [|id|now body|now id body|id]; unfold handle.
  - by rewrite getAllUsers_reads.
  - by rewrite getUserById_reads.
  - destruct (createUser_cases now body db) as [[e ->]|(_ & _ & ->)];
      cbn [snd insert_row users_id_seq]; lia.
  - destruct (updateUser_cases now id body db Hok)
      as [[e ->]|(k & r & l1 & l2 & _ & _ & _ & _ & _ & _ & ->)];
      cbn [snd users_id_seq]; lia.
  - destruct (deleteUser_cases id db Hok)
      as [[e ->]|(k & r & l1 & l2 & _ & _ & _ & _ & _ & ->)];
      cbn [snd users_id_seq]; lia.
Qed.

Lemma serve_seq qs db :
  store_ok db → users_id_seq db ≤ users_id_seq (serve qs db).
Proof.
  revert db. induction qs as [|q qs IH]; intros db Hok; [done|].
  unfold serve in *. cbn [fold_left].
  etrans; [apply (handle_seq q db Hok)|].
  apply IH, handle_keeps_ok, Hok.
Qed.

(** X13. Identifiers are not reused.  Take a row of a consistent table
    and serve any requests (which may remove that row); a user created
    after them gets an id greater than that of the row and than those of
    all rows present, and the sequence moves past it. *)
Theorem ids_never_reused qs now body db r o db' :
  store_ok db → r ∈ users db →
  createUser now body (serve qs db) = (Ok o, db') →
  ∃ k, o !! "id" = Some (VNum (inject_Z k))
       ∧ User.id r < k
       ∧ (∀ x, x ∈ users (serve qs db) → User.id x < k)
       ∧ users_id_seq db' = k + 1.
Proof.
  intros Hok Hr Hrun.
  destruct (createUser_Ok now body (serve qs db) o db' Hrun) as [-> ->].
  exists (users_id_seq (serve qs db)). split; [|split; [|split]].
  - by rewrite (select_lookup_in _ _ "id" id_public), to_object_id.
  - pose proof (serve_seq qs db Hok) as Hmono.
    pose proof (ids_issued db Hok) as Hids.
    rewrite Forall_forall in Hids. specialize (Hids r Hr). lia.
  - intros x Hx. pose proof (ids_issued _ (serve_keeps_ok qs db Hok)) as Hids.
    rewrite Forall_forall in Hids. specialize (Hids x Hx). lia.
  - done.
Qed.

(** X13 on [escola]: Maria is removed, and the next user gets the id 3. *)
Lemma ids_never_reused_witness :
  ∃ k, select public_fields (User.to_object professor_teste) !! "id"
       = Some (VNum (inject_Z k))
       ∧ User.id maria < k
       ∧ (∀ x, x ∈ users (serve [DELETE_user "1"] escola) → User.id x < k)
       ∧ users_id_seq {| users := [joao; professor_teste]; users_id_seq := 4 |}
         = k + 1.
Proof.
  apply (ids_never_reused [DELETE_user "1"] 9000 novo_professor escola maria);
    [exact escola_ok|apply maria_in_escola|vm_compute; reflexivity].
Defined.


(** ** The same update twice *)

Lemma split_unique (l1 l2 l1' l2' : list User.t) r r' :
  NoDup (User.id <$> l1 ++ r :: l2) → l1 ++ r :: l2 = l1' ++ r' :: l2' →
  User.id r' = User.id r → l1 = l1' ∧ r = r' ∧ l2 = l2'.
Proof.
  revert l1'. induction l1 as [|a l1 IH]; intros [|a' l1'] Hnd Heq Hid;
    cbn [app] in Heq; injection Heq as Hhead Htail.
  - done.
  - subst a' l2. cbn [app fmap list_fmap] in Hnd.
    apply NoDup_cons in Hnd as [Hnot _]. destruct Hnot.
    rewrite <- Hid. apply list_elem_of_fmap_2, elem_of_app. right. by left.
  - subst a l2'. cbn [app fmap list_fmap] in Hnd.
    apply NoDup_cons in Hnd as [Hnot _]. destruct Hnot.
    rewrite Hid. apply list_elem_of_fmap_2, elem_of_app. right. by left.
  - subst a'. cbn [app fmap list_fmap] in Hnd.
    apply NoDup_cons in Hnd as [_ Hnd].
    by destruct (IH l1' Hnd Htail Hid) as (-> & -> & ->).
Qed.

Lemma merge_text_twice v old :
  merge_text v (merge_text v old) = merge_text v old.
Proof. destruct v; try done. simpl. by destruct (String.eqb s EmptyString). Qed.

Lemma merge_twice userData now now' r :
  merge userData now' (merge userData now r) = merge userData now' r.
Proof.
  unfold merge. cbn [User.id User.nome User.email User.senha User.foto
                     User.papel User.createdAt User.updatedAt].
  rewrite !merge_text_twice.
  destruct (merges userData); f_equal; by destruct (get userData "foto").
Qed.

Lemma merged_email_free userData now db r l1 l2 :
  store_ok db → users db = l1 ++ r :: l2 →
  (∀ x, x ∈ l1 ++ l2 → User.email x ≠ User.email (merge userData now r)) →
  ∀ e x, get userData "email" = VStr e → x ∈ l1 ++ l2 → User.email x ≠ e.
Proof.
  intros Hok Hl Hfree e x He Hx Hxe.
  apply (Hfree x Hx). unfold merge, merge_text. cbn [User.email].
  rewrite He. destruct (truthy (VStr e)) eqn:Hu; [done|].
  simpl in Hu. apply negb_false_iff, String.eqb_eq in Hu.
  pose proof (emails_given db Hok) as Hgiven.
  rewrite Forall_forall in Hgiven. destruct (Hgiven x).
  - rewrite Hl. apply elem_of_app in Hx as [Hx|Hx];
      apply elem_of_app; [by left|right; by right].
  - congruence.
Qed.

(** X14. On a consistent table, an update followed by the same update
    (at a later time) leaves what the later one alone would: same
    outcome, same table.  With the same time, the update is idempotent. *)
Theorem updateUser_absorbs now now' userId userData db :
  store_ok db →
  updateUser now' userId userData (updateUser now userId userData db).2
  = updateUser now' userId userData db.
Proof.
  intros Hok.
  pose proof (updateUser_keeps_ok now userId userData db Hok) as Hok'.
  destruct (updateUser_cases now userId userData db Hok)
    as [[e Hrun]|(k & r & l1 & l2 & Hid & Hk & Hl & Hrk & Hacc & Hfree & Hrun)];
    rewrite Hrun in Hok' |- *; cbn [snd] in *; [done|].
  set (m := merge userData now r) in *.
  pose proof (merged_email_free userData now db r l1 l2 Hok Hl Hfree)
    as Hother.
  assert (Hin : ∀ x, x ∈ l1 ++ l2 → x ∈ users db).
  { intros x Hx. rewrite Hl. apply elem_of_app in Hx as [Hx|Hx];
      apply elem_of_app; [by left|right; by right]. }
  destruct (updateUser_ok now' userId userData db k r) as (a1 & a2 & Ha & ->);
    try done.
  { rewrite Hl. apply elem_of_app. right. by left. }
  { intros e x He Hx Hxe. rewrite Hl in Hx.
    apply elem_of_app in Hx as [Hx|[->|Hx]%elem_of_cons]; [|done|].
    - destruct (Hother e x He); [apply elem_of_app; by left|done].
    - destruct (Hother e x He); [apply elem_of_app; by right|done]. }
  destruct (updateUser_ok now' userId userData
              {| users := l1 ++ m :: l2; users_id_seq := users_id_seq db |}
              k m) as (b1 & b2 & Hb & ->); try done.
  { cbn [users]. apply elem_of_app. right. by left. }
  { intros e x He Hx Hxe. cbn [users] in Hx.
    apply elem_of_app in Hx as [Hx|[->|Hx]%elem_of_cons]; [|done|].
    - destruct (Hother e x He); [apply elem_of_app; by left|done].
    - destruct (Hother e x He); [apply elem_of_app; by right|done]. }
  cbn [users users_id_seq] in *.
  rewrite Hl in Ha.
  destruct (split_unique l1 l2 a1 a2 r r) as (<- & _ & <-);
    [rewrite <- Hl; apply Hok|done..|].
  destruct (split_unique l1 l2 b1 b2 m m) as (<- & _ & <-);
    [apply (ids_unique _ Hok')|done..|].
  unfold m. by rewrite merge_twice.
Qed.

(** X14 on [escola]: Maria renamed twice. *)
Lemma updateUser_absorbs_witness :
  updateUser 4000 "1" novo_nome (updateUser 3000 "1" novo_nome escola).2
  = updateUser 4000 "1" novo_nome escola.
Proof.
  exact (updateUser_absorbs 3000 4000 "1" novo_nome escola escola_ok).
Defined.


(** ** Reading back, and creating again *)

Lemma well_formed_email userData :
  well_formed userData = true →
  get userData "email" = VStr (text_of (get userData "email")).
Proof.
  unfold well_formed. intros H.
  repeat (apply andb_prop in H as [H ?]).
  by destruct (get userData "email").
Qed.

(** X15. Removing a user frees its email.  When [deleteUser] succeeds on a
    consistent table whose id sequence is not exhausted, a well-formed
    creation (no NUL character in a text) with the email of the removed
    user, refused with DuplicateEmail before the removal, succeeds after
    it. *)
Theorem delete_frees_email now userId body db o db' :
  store_ok db → has_next_id db → deleteUser userId db = (Ok o, db') →
  well_formed body = true → o !! "email" = Some (get body "email") →
  createUser now body db = (Throw DuplicateEmail, db)
  ∧ createUser now body db'
    = (Ok (select public_fields (User.to_object (new_row body now db'))),
       insert_row (new_row body now db') db').
Proof.
  intros Hok Hnext Hrun Hwf Ho.
  destruct (deleteUser_cases userId db Hok)
    as [[e He]|(k & r & l1 & l2 & _ & _ & Hl & _ & _ & Hdel)];
    [congruence|].
  rewrite Hdel in Hrun.
  assert (o = select ["id"; "nome"; "email"] (User.to_object r)) as ->
    by congruence.
  assert (db' = {| users := l1 ++ l2; users_id_seq := users_id_seq db |})
    as -> by congruence.
  rewrite select_lookup_in, to_object_email in Ho by compute_done.
  assert (Hemail : get body "email" = VStr (User.email r)) by congruence.
  split.
  - apply (createUser_duplicate now body db (User.email r));
      [by apply well_formed_required|done| |].
    + by apply (clean_email body); [apply well_formed_clean|].
    + exists r. split; [|done]. rewrite Hl. apply elem_of_app. right.
      by left.
  - apply createUser_well_formed; [done|done|]. intros x Hx.
    cbn [users] in Hx.
    rewrite Hemail. cbn [text_of].
    apply (email_owner l1 l2 r (users_id_seq db) x); [|done].
    by apply store_ok_split.
Qed.

(** X15 on [escola]: the email of Maria, before and after her removal. *)
Lemma delete_frees_email_witness :
  createUser 5000 outra_maria escola = (Throw DuplicateEmail, escola)
  ∧ createUser 5000 outra_maria {| users := [joao]; users_id_seq := 3 |}
    = (Ok (select public_fields
             (User.to_object
                (new_row outra_maria 5000
                   {| users := [joao]; users_id_seq := 3 |}))),
       insert_row
         (new_row outra_maria 5000 {| users := [joao]; users_id_seq := 3 |})
         {| users := [joao]; users_id_seq := 3 |}).
Proof.
  apply (delete_frees_email 5000 "1" outra_maria escola (snapshot maria));
    [exact escola_ok|reflexivity|vm_compute; reflexivity|reflexivity..].
Defined.


Lemma select_public_updated r :
  select public_fields (select updated_fields (User.to_object r))
  = select public_fields (User.to_object r).
Proof. reflexivity. Qed.

(** X16. Reading after writing.  After [updateUser] succeeds on a
    consistent table, [getUserById] on the same id finds the record the
    update returned, without its [updatedAt]. *)
Theorem getUserById_after_update now userId userData db o db' :
  store_ok db → updateUser now userId userData db = (Ok o, db') →
  getUserById userId db' = (Ok (Some (select public_fields o)), db').
Proof.
  intros Hok Hrun.
  pose proof (updateUser_keeps_ok now userId userData db Hok) as Hok'.
  destruct (updateUser_cases now userId userData db Hok)
    as [[e He]|(k & r & l1 & l2 & Hid & Hk & Hl & Hrk & _ & _ & Hupd)];
    [congruence|].
  rewrite Hupd in Hrun, Hok'. cbn [snd] in Hok'.
  assert (o = select updated_fields
                (User.to_object (merge userData now r))) as -> by congruence.
  assert (db' = {| users := l1 ++ merge userData now r :: l2;
                   users_id_seq := users_id_seq db |}) as -> by congruence.
  rewrite getUserById_unfold, Hid, Hk.
  rewrite (find_id_unique _ k (merge userData now r) (ids_unique _ Hok')).
  - by rewrite select_public_updated.
  - cbn [users]. apply elem_of_app. right. by left.
  - done.
Qed.

(** X16 on [escola]: Maria renamed, and read. *)
Lemma getUserById_after_update_witness :
  getUserById "1" {| users := [maria_s; joao]; users_id_seq := 3 |}
  = (Ok (Some (select public_fields
                 (select updated_fields (User.to_object maria_s)))),
     {| users := [maria_s; joao]; users_id_seq := 3 |}).
Proof.
  apply (getUserById_after_update 3000 "1" novo_nome escola);
    [exact escola_ok|vm_compute; reflexivity].
Defined.


(** ** The scenarios of the test suite, on every table *)

Lemma Number_toString_id k :
  1 ≤ k < 2 ^ 31 →
  invalid_id (Number_toString k) = false
  ∧ prisma.Int (parseInt (Number_toString k)) = Ok k.
Proof.
  intros [Hk Hint]. destruct (Number_toString_decimal k Hk) as [Hdec Hval].
  split.
  - apply invalid_id_decimal; [done|lia].
  - rewrite <- Hval at 2. apply Int_decimal; [done|lia].
Qed.

Lemma create_well_formed now body db :
  well_formed body = true → has_next_id db →
  (∀ x, x ∈ users db → User.email x ≠ text_of (get body "email")) →
  userController.create now body db =
    ({| status := 201; success := true;
        res_message := Some "Usuário criado com sucesso";
        res_data :=
          Some (select public_fields (User.to_object (new_row body now db)));
        res_error := None |},
     insert_row (new_row body now db) db).
Proof.
  intros Hwf Hnext Hfree. unfold userController.create.
  by rewrite (createUser_well_formed now body db Hwf Hnext Hfree).
Qed.

Lemma created_ok now body db :
  store_ok db → well_formed body = true → has_next_id db →
  (∀ x, x ∈ users db → User.email x ≠ text_of (get body "email")) →
  store_ok (insert_row (new_row body now db) db).
Proof.
  intros Hok Hwf Hnext Hfree.
  pose proof (createUser_keeps_ok now body db Hok) as Hok'.
  by rewrite (createUser_well_formed now body db Hwf Hnext Hfree) in Hok'.
Qed.

Lemma get_singleton k v : get ({[k := v]} : object) k = v.
Proof. unfold get. by rewrite lookup_singleton_eq. Qed.

Lemma get_singleton_ne k k' v :
  k ≠ k' → get ({[k := v]} : object) k' = VUndefined.
Proof. intros Hk. unfold get. by rewrite lookup_singleton_ne. Qed.

Lemma in_insert_row r db : r ∈ users (insert_row r db).
Proof. unfold insert_row. cbn [users]. apply elem_of_app. right. by left. Qed.

(** X17. The scenario "deve atualizar usuário existente" of the tests, on
    every consistent table whose id sequence is not exhausted: a
    well-formed creation (no NUL character in a text) with an unused email
    is answered 201 with the id of the sequence; a [PUT] on that id,
    written in decimal, with a new non-empty [nome] without a NUL
    character is answered 200 with a record that has the same id and
    email, the new name and the time of the update, written in place of
    the created row. *)
Theorem update_after_create now now' body nome db :
  store_ok db → has_next_id db → well_formed body = true →
  (∀ x, x ∈ users db → User.email x ≠ text_of (get body "email")) →
  nome ≠ EmptyString → storable nome = true →
  ∃ r r' created updated,
    userController.create now body db = (created, insert_row r db)
    ∧ status created = 201
    ∧ res_data created = Some (select public_fields (User.to_object r))
    ∧ User.id r = users_id_seq db
    ∧ userController.update now' (Number_toString (User.id r))
        {["nome" := VStr nome]} (insert_row r db)
      = (updated, insert_row r' db)
    ∧ status updated = 200
    ∧ success updated = true
    ∧ res_data updated = Some (select updated_fields (User.to_object r'))
    ∧ User.id r' = User.id r
    ∧ User.nome r' = nome
    ∧ User.email r' = User.email r
    ∧ User.updatedAt r' = now'.
Proof.
  intros Hok Hnext Hwf Hfree Hnome Hst.
  set (r := new_row body now db).
  set (patch := ({["nome" := VStr nome]} : object)).
  pose proof (created_ok now body db Hok Hwf Hnext Hfree) as Hok1.
  fold r in Hok1.
  pose proof (seq_positive db Hok) as Hseq.
  assert (Hrid : User.id r = users_id_seq db) by done.
  unfold has_next_id in Hnext.
  destruct (Number_toString_id (User.id r)) as [Hid Hk]; [lia|].
  apply String.eqb_neq in Hnome as Hnome'.
  destruct (updateUser_ok now' (Number_toString (User.id r)) patch
              (insert_row r db) (User.id r) r Hok1 Hid Hk)
    as (l1 & l2 & Hl & Hrun); [apply in_insert_row|done| | |].
  { unfold acceptable, typed_update, all_clean, columns, patch, ok_text.
    cbn [forallb].
    rewrite get_singleton, !get_singleton_ne by discriminate.
    simpl. by rewrite Hst, orb_true_r. }
  { intros e x He. unfold patch in He.
    by rewrite get_singleton_ne in He by discriminate. }
  destruct (split_unique (users db) [] l1 l2 r r) as (<- & _ & <-);
    [apply (ids_unique _ Hok1)|exact Hl|done|].
  exists r, (merge patch now' r). eexists. eexists.
  split; [apply (create_well_formed now body db Hwf Hnext Hfree)|].
  split; [done|]. split; [done|]. split; [done|]. split.
  { unfold userController.update. rewrite Hrun. reflexivity. }
  split; [done|]. split; [done|]. split; [done|]. split; [done|].
  split; [|split; [done|]].
  - unfold merge, patch. cbn [User.nome]. rewrite get_singleton. simpl.
    by rewrite Hnome'.
  - unfold merge, merges, patch. cbn [User.updatedAt].
    rewrite get_singleton. simpl. by rewrite Hnome'.
Qed.

(** X17 on [escola]. *)
Lemma update_after_create_witness :
  ∃ r r',
    (userController.create 1000 novo_professor escola).2 = insert_row r escola
    ∧ User.id r = 3
    ∧ (userController.update 2000 (Number_toString (User.id r)) novo_nome
         (insert_row r escola)).2 = insert_row r' escola
    ∧ User.id r' = User.id r
    ∧ User.nome r' = "Maria S.".
Proof.
  destruct (update_after_create 1000 2000 novo_professor "Maria S." escola)
    as (r & r' & created & updated & Hcreate & _ & _ & Hid & Hupdate & _ & _
        & _ & Hid' & Hnome & _);
    [exact escola_ok|reflexivity|reflexivity|by apply escola_free
    |discriminate|reflexivity|].
  exists r, r'. split; [by rewrite Hcreate|]. split; [exact Hid|].
  split; [unfold novo_nome; by rewrite Hupdate|].
  split; [exact Hid'|exact Hnome].
Defined.


Lemma fresh_id db :
  store_ok db → Forall (λ x, id_is (users_id_seq db) x = false) (users db).
Proof.
  intros Hok. pose proof (ids_issued db Hok) as Hids.
  rewrite Forall_forall in Hids |- *. intros x Hx.
  specialize (Hids x Hx). unfold id_is. lia.
Qed.

(** X18. The scenario "deve deletar usuário existente" of the tests, on
    every consistent table whose id sequence is not exhausted: after a
    well-formed creation (no NUL character in a text) with an unused
    email, [DELETE] on the id of the created user is answered 200 with
    "Usuário removido com sucesso" and its snapshot, the rows of the table
    are those from before the creation, and [GET] on the same id is
    answered 404. *)
Theorem delete_after_create now body db :
  store_ok db → has_next_id db → well_formed body = true →
  (∀ x, x ∈ users db → User.email x ≠ text_of (get body "email")) →
  ∃ r created removed db2,
    userController.create now body db = (created, insert_row r db)
    ∧ status created = 201
    ∧ User.id r = users_id_seq db
    ∧ userController.remove (Number_toString (User.id r)) (insert_row r db)
      = (removed, db2)
    ∧ status removed = 200
    ∧ res_message removed = Some "Usuário removido com sucesso"
    ∧ res_data removed = Some (snapshot r)
    ∧ users db2 = users db
    ∧ status (getById (Number_toString (User.id r)) db2).1 = 404.
Proof.
  intros Hok Hnext Hwf Hfree.
  set (r := new_row body now db).
  pose proof (seq_positive db Hok) as Hseq.
  assert (Hrid : User.id r = users_id_seq db) by done.
  assert (Hlt : users_id_seq db < 2 ^ 31) by done.
  destruct (Number_toString_id (User.id r)) as [Hid Hk]; [lia|].
  pose proof (fresh_id db Hok) as Hfresh. rewrite <- Hrid in Hfresh.
  assert (Hr : id_is (User.id r) r = true) by (unfold id_is; lia).
  assert (Hfind :
    List.find (id_is (User.id r)) (users (insert_row r db)) = Some r).
  { unfold insert_row. cbn [users]. rewrite find_id_app.
    assert (List.find (id_is (User.id r)) (users db) = None) as ->.
    { apply find_id_None. intros x Hx Hxr. rewrite Forall_forall in Hfresh.
      specialize (Hfresh x Hx). unfold id_is in Hfresh. lia. }
    cbn [List.find]. by rewrite Hr. }
  assert (Hgone :
    List.filter (λ x, negb (id_is (User.id r) x)) (users (insert_row r db))
    = users db).
  { unfold insert_row. cbn [users].
    rewrite (remove_at_split (id_is (User.id r)) (users db) [] r);
      [apply app_nil_r|done|constructor|done]. }
  exists r. eexists. eexists. eexists.
  split; [apply (create_well_formed now body db Hwf Hnext Hfree)|].
  split; [done|]. split; [done|]. split.
  { unfold userController.remove.
    rewrite deleteUser_unfold, Hid, Hk, Hfind, select_snapshot, Hgone.
    reflexivity. }
  split; [done|]. split; [done|]. split; [done|]. split; [done|].
  rewrite getById_status, getUserById_unfold, Hid, Hk. cbn [users].
  assert (List.find (id_is (User.id r)) (users db) = None) as ->; [|done].
  apply find_id_None. intros x Hx Hxr. rewrite Forall_forall in Hfresh.
  specialize (Hfresh x Hx). unfold id_is in Hfresh. lia.
Qed.

(** X18 on [escola]. *)
Lemma delete_after_create_witness :
  ∃ r removed db2,
    (userController.create 1000 novo_professor escola).2 = insert_row r escola
    ∧ userController.remove (Number_toString (User.id r)) (insert_row r escola)
      = (removed, db2)
    ∧ status removed = 200
    ∧ users db2 = users escola
    ∧ status (getById (Number_toString (User.id r)) db2).1 = 404.
Proof.
  destruct (delete_after_create 1000 novo_professor escola)
    as (r & created & removed & db2 & Hcreate & _ & _ & Hremove & Hstatus & _
        & _ & Husers & Hget);
    [exact escola_ok|reflexivity|reflexivity|by apply escola_free|].
  exists r, removed, db2. split; [by rewrite Hcreate|].
  split; [exact Hremove|]. split; [exact Hstatus|].
  split; [exact Husers|exact Hget].
Defined.

(** X19. The scenario "deve retornar 400 ao tentar usar email já
    existente" of the tests, on every consistent table whose id sequence
    has two values left: after two well-formed creations (no NUL
    character in a text) with different unused emails, a [PUT] on the
    second user with the email of the first is answered 400 with the
    message "Email já está em uso por outro usuário", and the table is
    unchanged. *)
Theorem update_to_taken_email now1 now2 now3 body1 body2 db :
  store_ok db → users_id_seq db + 1 < 2 ^ 31 →
  well_formed body1 = true → well_formed body2 = true →
  (∀ x, x ∈ users db → User.email x ≠ text_of (get body1 "email")) →
  (∀ x, x ∈ users db → User.email x ≠ text_of (get body2 "email")) →
  get body1 "email" ≠ get body2 "email" →
  ∃ r1 r2 first second,
    userController.create now1 body1 db = (first, insert_row r1 db)
    ∧ userController.create now2 body2 (insert_row r1 db)
      = (second, insert_row r2 (insert_row r1 db))
    ∧ status first = 201 ∧ status second = 201
    ∧ userController.update now3 (Number_toString (User.id r2))
        {["email" := VStr (User.email r1)]}
        (insert_row r2 (insert_row r1 db))
      = (refusal 400 EmailInUse, insert_row r2 (insert_row r1 db))
    ∧ includes (message EmailInUse) "já está em uso" = true.
Proof.
  intros Hok Hseq2 Hwf1 Hwf2 Hfree1 Hfree2 Hdiff.
  set (r1 := new_row body1 now1 db).
  set (db1 := insert_row r1 db).
  set (r2 := new_row body2 now2 db1).
  set (db2 := insert_row r2 db1).
  assert (Hnext : has_next_id db) by (unfold has_next_id; lia).
  assert (Hnext1 : has_next_id db1) by done.
  pose proof (created_ok now1 body1 db Hok Hwf1 Hnext Hfree1) as Hok1.
  fold r1 db1 in Hok1.
  assert (Hfree2' :
    ∀ x, x ∈ users db1 → User.email x ≠ text_of (get body2 "email")).
  { intros x [Hx|Hx%list_elem_of_singleton]%elem_of_app; [by apply Hfree2|].
    subst x. unfold r1, new_row. cbn [User.email]. intros Heq.
    apply Hdiff. by rewrite (well_formed_email body1 Hwf1),
      (well_formed_email body2 Hwf2), Heq. }
  pose proof (created_ok now2 body2 db1 Hok1 Hwf2 Hnext1 Hfree2') as Hok2.
  fold r2 db2 in Hok2.
  pose proof (seq_positive db Hok) as Hseq.
  assert (Hid2 : User.id r2 = users_id_seq db + 1) by done.
  assert (Hid1 : User.id r1 = users_id_seq db) by done.
  destruct (Number_toString_id (User.id r2)) as [Hid Hk]; [lia|].
  assert (Hthrow :
    (updateUser now3 (Number_toString (User.id r2))
       {["email" := VStr (User.email r1)]} db2).1 = Throw EmailInUse).
  { apply updateUser_EmailInUse; [done|]. split; [done|].
    exists (User.id r2), r2, (User.email r1).
    split; [done|]. split; [apply in_insert_row|]. split; [done|].
    split; [by rewrite lookup_singleton_eq|]. split.
    { apply (clean_email body1); [by apply well_formed_clean|].
      apply well_formed_email, Hwf1. }
    split.
    - unfold r1, r2, new_row. cbn [User.email]. intros Heq.
      apply Hdiff. by rewrite (well_formed_email body1 Hwf1),
        (well_formed_email body2 Hwf2), Heq.
    - exists r1. split; [|split; [lia|done]].
      unfold db2, insert_row. cbn [users]. apply elem_of_app. left.
      apply in_insert_row. }
  exists r1, r2. eexists. eexists.
  split; [apply (create_well_formed now1 body1 db Hwf1 Hnext Hfree1)|].
  split; [apply (create_well_formed now2 body2 db1 Hwf2 Hnext1 Hfree2')|].
  split; [done|]. split; [done|]. split; [|vm_compute; reflexivity].
  unfold userController.update. fold db1. fold db2.
  by rewrite (updateUser_Throw _ _ _ db2 _ Hok2 Hthrow).
Qed.

(** X19 on the empty table. *)
Lemma update_to_taken_email_witness :
  ∃ r1 r2,
    userController.update 3000 (Number_toString (User.id r2))
      {["email" := VStr (User.email r1)]}
      (insert_row r2 (insert_row r1 empty_store))
    = (refusal 400 EmailInUse, insert_row r2 (insert_row r1 empty_store))
    ∧ User.email r1 = "teste@escola.com".
Proof.
  destruct (update_to_taken_email 1000 2000 3000 novo_professor
              (<["email" := VStr "outro@escola.com"]> novo_professor)
              empty_store)
    as (r1 & r2 & first & second & Hfirst & _ & _ & _ & Hupdate & _);
    [exact empty_store_ok|reflexivity|reflexivity|reflexivity
    |by intros x Hx%elem_of_nil|by intros x Hx%elem_of_nil|discriminate|].
  exists r1, r2. split; [exact Hupdate|].
  assert (Hrow : insert_row r1 empty_store
                 = insert_row (new_row novo_professor 1000 empty_store)
                     empty_store).
  { rewrite create_well_formed in Hfirst;
      [congruence|reflexivity|reflexivity|by intros x Hx%elem_of_nil]. }
  assert (r1 = new_row novo_professor 1000 empty_store) as ->; [|reflexivity].
  unfold insert_row in Hrow. cbn [users empty_store app] in Hrow. congruence.
Defined.

(** X20. A created user is listed.  After a well-formed creation (no NUL
    character in a text) with an unused email, on a table whose id
    sequence is not exhausted, [GET /users] has the created record in its data and a
    total one greater than the number of rows before. *)
Theorem listing_after_create now body db :
  well_formed body = true → has_next_id db →
  (∀ x, x ∈ users db → User.email x ≠ text_of (get body "email")) →
  ∃ created db1 usuarios,
    userController.create now body db = (created, db1)
    ∧ (∃ o, res_data created = Some o ∧ o ∈ usuarios)
    ∧ list_data (userController.getAll db1).1 = Some usuarios
    ∧ list_total (userController.getAll db1).1
      = Some (Z.of_nat (length (users db)) + 1).
Proof.
  intros Hwf Hnext Hfree.
  set (r := new_row body now db).
  exists {| status := 201; success := true;
            res_message := Some "Usuário criado com sucesso";
            res_data := Some (select public_fields (User.to_object r));
            res_error := None |}, (insert_row r db),
    (select public_fields ∘ User.to_object
       <$> merge_sort (prisma.user.createdAt_order prisma.user.desc)
             (users (insert_row r db))).
  split; [apply (create_well_formed now body db Hwf Hnext Hfree)|].
  rewrite getAll_run. cbn [fst list_data list_total]. split; [|split].
  - exists (select public_fields (User.to_object r)). split; [done|].
    apply (list_elem_of_fmap_2 (select public_fields ∘ User.to_object)).
    rewrite merge_sort_Permutation. apply in_insert_row.
  - done.
  - unfold insert_row. cbn [users]. rewrite length_app. cbn [length].
    f_equal. lia.
Qed.

(** X20 on [escola]: the third user. *)
Lemma listing_after_create_witness :
  ∃ created db1 usuarios,
    userController.create 1000 novo_professor escola = (created, db1)
    ∧ (∃ o, res_data created = Some o ∧ o ∈ usuarios)
    ∧ list_data (userController.getAll db1).1 = Some usuarios
    ∧ list_total (userController.getAll db1).1 = Some 3.
Proof.
  apply (listing_after_create 1000 novo_professor escola);
    [reflexivity|reflexivity|by apply escola_free].
Defined.


(** ** What the database refuses *)





